(** * Calendar bases: date projection, month-grid adaptation and option
      normalisation

    A shallow embedding of the date logic of the calendar views:
    - [JSDate]: the [Date] operations the views call, following the
      ECMAScript day-number algorithms;
    - [LinearReactView]: the range-to-day-map projector, the year span, year
      navigation, the weekend test of a cell and the weekday-aligned layout;
    - [CalendarReactView]: the exclusive-end adaptation of the month grid and
      the drop handler;
    - [CalendarView] / [LinearView]: front-matter write-back and the
      normalisation of configuration values.

    Conventions of the model.  A [Date] is its time value in local wall-clock
    milliseconds (an integer): the zone offset is taken to be constant, so
    daylight-saving transitions, the engine's time-value range limit and
    invalid dates are outside the model.  JavaScript numbers that hold years,
    months, days and slot counts are integers of [Z]; configuration numbers
    are exact rationals extended with NaN and the two infinities, so binary
    rounding of [x / 100] is not modelled. *)

From Stdlib Require Import ZArith QArith Qround Lia Lqa ZifyBool Ascii String.
From stdpp Require Import gmap strings list pretty.

Local Open Scope Z_scope.

(** ** The [Date] object *)

Module JSDate.

(** A date is its time value. *)
Definition t : Type := Z.

Definition msPerDay : Z := 86400000.

Definition Day (tv : Z) : Z := tv / msPerDay.
Definition TimeWithinDay (tv : Z) : Z := tv mod msPerDay.

Definition DaysInYear (y : Z) : Z :=
  if negb (y mod 4 =? 0) then 365
  else if negb (y mod 100 =? 0) then 366
  else if negb (y mod 400 =? 0) then 365
  else 366.

Definition DayFromYear (y : Z) : Z :=
  365 * (y - 1970) + (y - 1969) / 4 - (y - 1901) / 100 + (y - 1601) / 400.

(** "The largest integer y such that DayFromYear(y) <= d": estimated from the
    mean year length and then adjusted by at most one year. *)
Definition YearFromDay (d : Z) : Z :=
  let y := 1970 + (400 * d) / 146097 in
  if d <? DayFromYear y then y - 1
  else if DayFromYear (y + 1) <=? d then y + 1
  else y.

Definition YearFromTime (tv : Z) : Z := YearFromDay (Day tv).

Definition InLeapYear (y : Z) : Z := if DaysInYear y =? 366 then 1 else 0.

Definition DayWithinYear (tv : Z) : Z := Day tv - DayFromYear (YearFromTime tv).

(** Day within the year of the first day of month [m] (0 = January). *)
Definition MonthStart (leap m : Z) : Z :=
  match m with
  | 0 => 0
  | 1 => 31
  | 2 => 59 + leap
  | 3 => 90 + leap
  | 4 => 120 + leap
  | 5 => 151 + leap
  | 6 => 181 + leap
  | 7 => 212 + leap
  | 8 => 243 + leap
  | 9 => 273 + leap
  | 10 => 304 + leap
  | 11 => 334 + leap
  | _ => 365 + leap
  end.

Definition MonthFromDayWithinYear (leap dwy : Z) : Z :=
  if dwy <? 31 then 0
  else if dwy <? 59 + leap then 1
  else if dwy <? 90 + leap then 2
  else if dwy <? 120 + leap then 3
  else if dwy <? 151 + leap then 4
  else if dwy <? 181 + leap then 5
  else if dwy <? 212 + leap then 6
  else if dwy <? 243 + leap then 7
  else if dwy <? 273 + leap then 8
  else if dwy <? 304 + leap then 9
  else if dwy <? 334 + leap then 10
  else 11.

Definition MonthFromTime (tv : Z) : Z :=
  MonthFromDayWithinYear (InLeapYear (YearFromTime tv)) (DayWithinYear tv).

Definition DateFromTime (tv : Z) : Z :=
  DayWithinYear tv
  - MonthStart (InLeapYear (YearFromTime tv)) (MonthFromTime tv) + 1.

Definition WeekDay (tv : Z) : Z := (Day tv + 4) mod 7.

(** [MakeDay]: months outside 0..11 carry into the year, the day of the month
    is added as an offset and may lie outside the month. *)
Definition MakeDay (year month date : Z) : Z :=
  let ym := year + month / 12 in
  let mn := month mod 12 in
  DayFromYear ym + MonthStart (InLeapYear ym) mn + date - 1.

Definition MakeDate (day time : Z) : Z := day * msPerDay + time.

(** The constructor reads a year 0..99 as 1900..1999. *)
Definition twoDigitYear (y : Z) : bool := (0 <=? y) && (y <=? 99).

Definition MakeFullYear (y : Z) : Z :=
  if twoDigitYear y then 1900 + y else y.

(** [new Date(year, month, day)]: local midnight of that day. *)
Definition newDate (year month day : Z) : t :=
  MakeDate (MakeDay (MakeFullYear year) month day) 0.

(** [new Date(d)] for a date [d]: a copy with the same time value. *)
Definition copy (d : t) : t := d.

Definition getTime (d : t) : Z := d.
Definition getFullYear (d : t) : Z := YearFromTime d.
Definition getMonth (d : t) : Z := MonthFromTime d.
Definition getDate (d : t) : Z := DateFromTime d.
Definition getDay (d : t) : Z := WeekDay d.

(** The views' way to drop the time of day:
    [new Date(d.getFullYear(), d.getMonth(), d.getDate())]. *)
Definition dateOnly (d : t) : t :=
  newDate (getFullYear d) (getMonth d) (getDate d).

(** [d.setDate(dt)]: same year, month and time of day, day of month [dt]. *)
Definition setDate (d : t) (dt : Z) : t :=
  MakeDate (MakeDay (YearFromTime d) (MonthFromTime d) dt) (TimeWithinDay d).

End JSDate.

(** ** Strings *)

Module JSString.

(** [String(n)] for an integer [n]: decimal digits, with a minus sign for a
    negative number. *)
Definition ofInt (n : Z) : string := pretty n.

Fixpoint fill (k : nat) (pad cur : string) : string :=
  match k with
  | O => ""
  | S k' =>
      match cur with
      | String c rest => String c (fill k' pad rest)
      | EmptyString =>
          match pad with
          | String c rest => String c (fill k' pad rest)
          | EmptyString => ""
          end
      end
  end.

(** [s.padStart(n, pad)] *)
Definition padStart (s : string) (n : nat) (pad : string) : string :=
  if (n <=? String.length s)%nat then s
  else fill (n - String.length s) pad pad +:+ s.

(** [s.startsWith(p)] *)
Definition startsWith (s p : string) : bool := String.prefix p s.

(** [s.slice(n)] for [0 <= n] *)
Definition slice (n : nat) (s : string) : string :=
  String.substring n (String.length s - n) s.

(** Truthiness of a string: every string but the empty one. *)
Definition truthy (s : string) : bool :=
  match s with EmptyString => false | String _ _ => true end.

(** White space of [trim], among the code units below 256 that a character
    of a string stands for here: tab to carriage return, space, no-break
    space. *)
Definition isTrimmed (c : ascii) : bool :=
  let n := nat_of_ascii c in
  ((9 <=? n) && (n <=? 13))%nat || (n =? 32)%nat || (n =? 160)%nat.

Fixpoint trimStart (s : string) : string :=
  match s with
  | String c rest => if isTrimmed c then trimStart rest else s
  | EmptyString => EmptyString
  end.

(** [s.trim()] *)
Definition trim (s : string) : string :=
  String.rev (trimStart (String.rev (trimStart s))).

(** [s.indexOf(c)] for a string [c] of one character; [None] stands for
    the answer -1. *)
Fixpoint indexOf (c : ascii) (s : string) : option nat :=
  match s with
  | EmptyString => None
  | String d rest => if Ascii.eqb d c then Some O else S <$> indexOf c rest
  end.

(** [s.slice(0, n)] *)
Definition sliceTo (n : nat) (s : string) : string := String.substring 0 n s.

(** [s.includes(p)] *)
Fixpoint includes (s p : string) : bool :=
  String.prefix p s
  || match s with
     | EmptyString => false
     | String _ rest => includes rest p
     end.

(** [s.toLowerCase()], on code units below 256: the letters A to Z and the
    capital letters from 192 to 222 other than the multiplication sign. *)
Definition lowerChar (c : ascii) : ascii :=
  let n := nat_of_ascii c in
  if ((65 <=? n) && (n <=? 90))%nat
     || ((192 <=? n) && (n <=? 222) && negb (n =? 215))%nat
  then ascii_of_nat (n + 32)
  else c.

Fixpoint toLowerCase (s : string) : string :=
  match s with
  | EmptyString => EmptyString
  | String c rest => String (lowerChar c) (toLowerCase rest)
  end.

End JSString.

(** ** Numbers of configuration values *)

Module JSNumber.

(** A number value: NaN, an infinity, or a finite value kept exact. *)
Inductive t : Type :=
  | NaN
  | PosInf
  | NegInf
  | Fin (q : Q).

Definition isNaN (x : t) : bool :=
  match x with NaN => true | _ => false end.

(** [a < b]; false as soon as one side is NaN. *)
Definition ltb (a b : t) : bool :=
  match a, b with
  | NaN, _ | _, NaN => false
  | NegInf, NegInf => false
  | NegInf, _ => true
  | _, NegInf => false
  | PosInf, _ => false
  | Fin _, PosInf => true
  | Fin p, Fin q => negb (Qle_bool q p)
  end.

(** [Math.min(a, b)] and [Math.max(a, b)] *)
Definition min (a b : t) : t :=
  match a, b with
  | NaN, _ | _, NaN => NaN
  | _, _ => if ltb b a then b else a
  end.

Definition max (a b : t) : t :=
  match a, b with
  | NaN, _ | _, NaN => NaN
  | _, _ => if ltb a b then b else a
  end.

Definition isZero (q : Q) : bool := Qeq_bool q 0.
Definition isNeg (q : Q) : bool := negb (Qle_bool 0 q).

(** [a / b] (the sign of a zero is not tracked: a zero divisor counts as
    positive). *)
Definition div (a b : t) : t :=
  match a, b with
  | NaN, _ | _, NaN => NaN
  | (PosInf | NegInf), (PosInf | NegInf) => NaN
  | PosInf, Fin q => if isNeg q then NegInf else PosInf
  | NegInf, Fin q => if isNeg q then PosInf else NegInf
  | Fin _, (PosInf | NegInf) => Fin 0
  | Fin p, Fin q =>
      if isZero q then
        if isZero p then NaN else if isNeg p then NegInf else PosInf
      else Fin (p / q)
  end.

(** Equality of number values, finite ones as rationals. *)
Definition same (a b : t) : Prop :=
  match a, b with
  | NaN, NaN | PosInf, PosInf | NegInf, NegInf => True
  | Fin p, Fin q => (p == q)%Q
  | _, _ => False
  end.


(** *** [Number(s)] for a string [s] *)

Definition isWhiteSpace (c : ascii) : bool :=
  let n := nat_of_ascii c in
  ((9 <=? n) && (n <=? 13))%nat || (n =? 32)%nat.

Fixpoint trimStart (s : string) : string :=
  match s with
  | String c rest => if isWhiteSpace c then trimStart rest else s
  | EmptyString => EmptyString
  end.

Definition trim (s : string) : string :=
  String.rev (trimStart (String.rev (trimStart s))).

(** Value of a digit of the given base. *)
Definition digitValue (base : Z) (c : ascii) : option Z :=
  let n := Z.of_nat (nat_of_ascii c) in
  let v :=
    if (48 <=? n) && (n <=? 57) then Some (n - 48)
    else if (97 <=? n) && (n <=? 122) then Some (n - 87)
    else if (65 <=? n) && (n <=? 90) then Some (n - 55)
    else None in
  match v with
  | Some d => if d <? base then Some d else None
  | None => None
  end.

(** Value of a run of digits; [None] if another character occurs. *)
Fixpoint digitsValue (base acc : Z) (s : string) : option Z :=
  match s with
  | EmptyString => Some acc
  | String c rest =>
      match digitValue base c with
      | Some d => digitsValue base (acc * base + d) rest
      | None => None
      end
  end.

(** A non-empty run of digits. *)
Definition numeral (base : Z) (s : string) : option Z :=
  match s with
  | EmptyString => None
  | _ => digitsValue base 0 s
  end.

(** Split at the first character satisfying [p]. *)
Fixpoint splitAt (p : ascii -> bool) (s : string) : string * option string :=
  match s with
  | EmptyString => (EmptyString, None)
  | String c rest =>
      if p c then (EmptyString, Some rest)
      else let '(a, b) := splitAt p rest in (String c a, b)
  end.

Definition isE (c : ascii) : bool :=
  (nat_of_ascii c =? 101)%nat || (nat_of_ascii c =? 69)%nat.
Definition isDot (c : ascii) : bool := (nat_of_ascii c =? 46)%nat.

(** A sign character, if any, and the rest. *)
Definition signOf (s : string) : bool * string :=
  match s with
  | String "-" rest => (true, rest)
  | String "+" rest => (false, rest)
  | _ => (false, s)
  end.

(** The exponent part after [e]: an optional sign and digits. *)
Definition exponent (s : string) : option Z :=
  let '(neg, ds) := signOf s in
  match numeral 10 ds with
  | Some n => Some (if neg then - n else n)
  | None => None
  end.

(** An unsigned decimal literal other than [Infinity]:
    digits [. digits] [exponent], or [. digits] [exponent]. *)
Definition unsignedDecimal (s : string) : option Q :=
  let '(mant, ex) := splitAt isE s in
  let '(ip, fp) := splitAt isDot mant in
  let frac := default EmptyString fp in
  let wellFormed :=
    match ip, fp with
    | EmptyString, None => false
    | EmptyString, Some EmptyString => false
    | _, _ => true
    end in
  if wellFormed then
    match digitsValue 10 0 (ip +:+ frac),
          (match ex with Some x => exponent x | None => Some 0 end) with
    | Some m, Some e =>
        Some (inject_Z m * Qpower 10 (e - Z.of_nat (String.length frac)))%Q
    | _, _ => None
    end
  else None.

Definition decimalLiteral (s : string) : t :=
  let '(neg, body) := signOf s in
  if String.eqb body "Infinity" then (if neg then NegInf else PosInf)
  else
    match unsignedDecimal body with
    | Some q => Fin (if neg then - q else q)%Q
    | None => NaN
    end.

Definition ofNumeral (o : option Z) : t :=
  match o with Some n => Fin (inject_Z n) | None => NaN end.

(** [Number(s)]: white space is trimmed, the empty string is 0, then a
    hexadecimal, octal or binary integer or a decimal literal is read;
    anything else is NaN. *)
Definition ofString (s : string) : t :=
  match trim s with
  | EmptyString => Fin 0
  | String "0" (String ("x" | "X") ds) => ofNumeral (numeral 16 ds)
  | String "0" (String ("o" | "O") ds) => ofNumeral (numeral 8 ds)
  | String "0" (String ("b" | "B") ds) => ofNumeral (numeral 2 ds)
  | body => decimalLiteral body
  end.

End JSNumber.

(** ** Host records *)

(** An entry of the host: only its file identity is read here. *)
Record BasesEntry : Type := mkBasesEntry {
  filePath : string;
  fileBasename : string
}.

(** What the views read of the host's values and files. *)
Module Obsidian.

Record TFile : Type := mkTFile {
  path : string;
  basename : string;
  extension : string
}.

(** A property value: a list value with its items, a date value with its
    [date] field, or another value with its [file] field and those of its
    [path], [link], [url] and [src] fields that hold a string.  Every value
    answers [isTruthy()] and [toString()]. *)
#[warnings="-register-all"]
Inductive Value : Type :=
  | ListValue (items : list Value) (truthy : bool) (text : string)
  | DateValue (date : option JSDate.t) (truthy : bool) (text : string)
  | PlainValue (file : option TFile) (pathField linkField urlField srcField : option string)
      (truthy : bool) (text : string).

Definition isTruthy (v : Value) : bool :=
  match v with
  | ListValue _ b _ | DateValue _ b _ | PlainValue _ _ _ _ _ b _ => b
  end.

Definition toString (v : Value) : string :=
  match v with
  | ListValue _ _ s | DateValue _ _ s | PlainValue _ _ _ _ _ _ s => s
  end.

(** The outcome of [entry.getValue(propId)]: it throws, or returns null or a
    value. *)
Inductive Lookup : Type :=
  | Throws
  | Null
  | Found (v : Value).

(** The values of the entries, by entry and property identifier. *)
Definition Values : Type := BasesEntry -> string -> Lookup.

End Obsidian.

(** [tryGetValue] *)
Definition tryGetValue (getValue : Obsidian.Values) (entry : BasesEntry)
    (propId : string) : option Obsidian.Value :=
  match getValue entry propId with
  | Obsidian.Found v => Some v
  | Obsidian.Null | Obsidian.Throws => None
  end.

(** [hasNonEmptyValue] of both views. *)
Definition hasNonEmptyValue (value : Obsidian.Value) : bool :=
  if negb (Obsidian.isTruthy value) then false
  else
    let str := Obsidian.toString value in
    JSString.truthy str && (0 <? String.length (JSString.trim str))%nat.

(** The configured properties that have a non-empty value for an entry, in
    their configured order. *)
Fixpoint validProperties (getValue : Obsidian.Values) (properties : list string)
    (entry : BasesEntry) : list string :=
  match properties with
  | [] => []
  | prop :: rest =>
      match tryGetValue getValue entry prop with
      | Some value =>
          if hasNonEmptyValue value
          then prop :: validProperties getValue rest entry
          else validProperties getValue rest entry
      | None => validProperties getValue rest entry
      end
  end.

(** ** The linear year view *)

Module LinearReactView.
Import JSDate.

Record LinearEntry : Type := mkLinearEntry {
  entry : BasesEntry;
  startDate : JSDate.t;
  endDate : option JSDate.t
}.

Definition daysInMonth (year month : Z) : Z :=
  getDate (newDate year (month + 1) 0).

(** [String(n).padStart(2, "0")] *)
Definition twoChars (n : Z) : string :=
  JSString.padStart (JSString.ofInt n) 2 "0".

Definition dateKey (year month day : Z) : string :=
  JSString.ofInt year +:+ "-" +:+ twoChars (month + 1) +:+ "-" +:+ twoChars day.

(** The key under which the loop files the day of [iter]. *)
Definition keyOf (iter : JSDate.t) : string :=
  dateKey (getFullYear iter) (getMonth iter) (getDate iter).

Abbreviation DayMap := (gmap string (list LinearEntry)).

(** [if (!map.has(key)) map.set(key, []); map.get(key)?.push(entry)] *)
Definition pushEntry (key : string) (e : LinearEntry) (m : DayMap) : DayMap :=
  let m1 := match m !! key with Some _ => m | None => <[key := []]> m end in
  match m1 !! key with
  | Some l => <[key := l ++ [e]]> m1
  | None => m1
  end.

(** [while (iter <= end) { ...; iter.setDate(iter.getDate() + 1) }].
    The loop is run with a bound on its iterations; [None] is the answer of a
    run that would need more of them. *)
Fixpoint walk (fuel : nat) (e : LinearEntry) (iter end_ : JSDate.t)
    (m : DayMap) : option DayMap :=
  if iter <=? end_ then
    match fuel with
    | O => None
    | S fuel' =>
        walk fuel' e (setDate iter (getDate iter + 1)) end_
          (pushEntry (keyOf iter) e m)
    end
  else Some m.

(** The map after [n] turns of the loop started at [iter]. *)
Fixpoint pushDays (e : LinearEntry) (iter : JSDate.t) (n : nat) (m : DayMap)
    : DayMap :=
  match n with
  | O => m
  | S n' => pushDays e (iter + msPerDay) n' (pushEntry (keyOf iter) e m)
  end.

Definition rangeStart (e : LinearEntry) : JSDate.t := dateOnly (startDate e).

Definition rangeEnd (e : LinearEntry) : JSDate.t :=
  match endDate e with
  | Some ed => dateOnly ed
  | None => copy (rangeStart e)
  end.

(** Iterations granted to the walk of one entry: one per day of its range. *)
Definition walkFuel (start end_ : JSDate.t) : nat :=
  Z.to_nat (Day end_ - Day start + 1).

Record ProjState : Type := mkProjState {
  map : DayMap;
  minYear : option Z;
  maxYear : option Z
}.

Definition initState : ProjState :=
  {| map := ∅; minYear := None; maxYear := None |}.

(** One turn of [for (const entry of entries)]. *)
Definition projectEntry (st : ProjState) (e : LinearEntry) : option ProjState :=
  let start := rangeStart e in
  let end_ := rangeEnd e in
  if end_ <? start then Some st
  else
    match walk (walkFuel start end_) e (copy start) end_ (map st) with
    | None => None
    | Some m' =>
        let sy := getFullYear (startDate e) in
        let min1 :=
          match minYear st with None => sy | Some y => Z.min y sy end in
        let max1 :=
          match maxYear st with None => sy | Some y => Z.max y sy end in
        match endDate e with
        | Some ed =>
            let ey := getFullYear ed in
            Some {| map := m';
                    minYear := Some (Z.min (default ey (Some min1)) ey);
                    maxYear := Some (Z.max (default ey (Some max1)) ey) |}
        | None =>
            Some {| map := m'; minYear := Some min1; maxYear := Some max1 |}
        end
    end.

Fixpoint projectEntries (st : ProjState) (es : list LinearEntry)
    : option ProjState :=
  match es with
  | [] => Some st
  | e :: rest =>
      match projectEntry st e with
      | Some st' => projectEntries st' rest
      | None => None
      end
  end.

Record Projection : Type := mkProjection {
  entriesByDate : DayMap;
  years : list Z
}.

(** [for (let y = resolvedMin; y <= resolvedMax; y++) yearList.push(y)] *)
Definition yearList (resolvedMin resolvedMax : Z) : list Z :=
  seqZ resolvedMin (resolvedMax - resolvedMin + 1).

(** The memoised projection; [thisYear] is [new Date().getFullYear()]. *)
Definition project (thisYear : Z) (es : list LinearEntry) : option Projection :=
  match projectEntries initState es with
  | None => None
  | Some st =>
      let resolvedMin := default thisYear (minYear st) in
      let resolvedMax := default resolvedMin (maxYear st) in
      Some {| entriesByDate := map st;
              years := yearList resolvedMin resolvedMax |}
  end.

(** [years.indexOf(x)] *)
Fixpoint indexOfFrom (i : Z) (l : list Z) (x : Z) : Z :=
  match l with
  | [] => -1
  | y :: rest => if y =? x then i else indexOfFrom (i + 1) rest x
  end.

Definition indexOf (l : list Z) (x : Z) : Z := indexOfFrom 0 l x.

Definition includes (l : list Z) (x : Z) : bool :=
  negb (indexOf l x =? -1).

(** Initial value of the [currentYear] state. *)
Definition initialYear (years : list Z) (thisYear : Z) : Z :=
  if includes years thisYear then thisYear
  else match years with y :: _ => y | [] => thisYear end.

(** The year shown after a click on the previous / next button. *)
Definition goPrevYear (years : list Z) (currentYear : Z) : Z :=
  let idx := indexOf years currentYear in
  if 0 <? idx then default currentYear (years !! Z.to_nat (idx - 1))
  else currentYear.

Definition goNextYear (years : list Z) (currentYear : Z) : Z :=
  let idx := indexOf years currentYear in
  if negb (idx =? -1) && (idx <? Z.of_nat (length years) - 1)
  then default currentYear (years !! Z.to_nat (idx + 1))
  else currentYear.

(** The guard of the weekend computation of [renderCell]. *)
Definition weekendTestRuns (highlightWeekends alignWeekdays valid : bool)
    : bool :=
  highlightWeekends && negb alignWeekdays && valid.

Definition isWeekend (highlightWeekends alignWeekdays : bool)
    (year month day : Z) (valid : bool) : bool :=
  if weekendTestRuns highlightWeekends alignWeekdays valid then
    let dow := getDay (newDate year month day) in
    (dow =? 0) || (dow =? 6)
  else false.

(** The weekday-aligned layout. *)
Record MonthSlot : Type := mkMonthSlot {
  days : Z;
  firstWeekday : Z;
  totalSlots : Z
}.

Definition monthSlot (currentYear monthIndex : Z) : MonthSlot :=
  let days := daysInMonth currentYear monthIndex in
  let firstWeekday := getDay (newDate currentYear monthIndex 1) in
  {| days := days;
     firstWeekday := firstWeekday;
     totalSlots := Qceiling (inject_Z (firstWeekday + days) / 7) * 7 |}.

(** [monthNames.map((_, monthIndex) => ...)]: one record per month. *)
Definition monthSlots (currentYear : Z) : list MonthSlot :=
  monthSlot currentYear <$> seqZ 0 12.

Definition maxSlots (currentYear : Z) : Z :=
  fold_left (fun max m => Z.max max (totalSlots m)) (monthSlots currentYear) 0.

(** A slot of a month row: padding past the month's own slots, or a day cell
    handed to [renderCell] with its validity flag. *)
Inductive Slot : Type :=
  | PadSlot (idx : Z)
  | CellSlot (year month dayNum : Z) (valid : bool).

Definition slotAt (currentYear monthIndex : Z) (meta : MonthSlot) (idx : Z)
    : Slot :=
  if totalSlots meta <=? idx then PadSlot idx
  else
    let dayNum := idx - firstWeekday meta + 1 in
    CellSlot currentYear monthIndex dayNum
      ((1 <=? dayNum) && (dayNum <=? days meta)).

Definition monthRow (currentYear monthIndex : Z) : list Slot :=
  match monthSlots currentYear !! Z.to_nat monthIndex with
  | Some meta =>
      slotAt currentYear monthIndex meta <$> seqZ 0 (maxSlots currentYear)
  | None => []
  end.

Definition renderAlignedYear (currentYear : Z) : list (list Slot) :=
  monthRow currentYear <$> seqZ 0 12.

(** The entries filed under a key: [entriesByDate.get(key)], none when the
    key is absent. *)
Definition occupants (m : DayMap) (key : string) : list LinearEntry :=
  default [] (m !! key).

(** The key of the calendar day with day number [d], and the keys of the
    calendar days of an entry's range, first to last. *)
Definition dayKey (d : Z) : string := keyOf (MakeDate d 0).

Definition calendarDayKeys (e : LinearEntry) : list string :=
  dayKey <$> seqZ (Day (rangeStart e)) (Day (rangeEnd e) - Day (rangeStart e) + 1).

(** An entry is projected when its date-only end is not before its date-only
    start. *)
Definition projected (e : LinearEntry) : bool :=
  negb (rangeEnd e <? rangeStart e).

(** The years an entry carries: of its start date and, when present, of its
    end date; and the years carried by the projected entries of a list. *)
Definition entryYears (e : LinearEntry) : list Z :=
  getFullYear (startDate e)
  :: match endDate e with Some ed => [getFullYear ed] | None => [] end.

Definition contributedYears (es : list LinearEntry) : list Z :=
  flat_map entryYears (filter (fun e => projected e = true) es).

Definition isLeast (lo : Z) (ys : list Z) : Prop :=
  lo ∈ ys /\ forall y, y ∈ ys -> lo <= y.

Definition isGreatest (hi : Z) (ys : list Z) : Prop :=
  hi ∈ ys /\ forall y, y ∈ ys -> y <= hi.

(** The year bounds held in a state against the years seen so far. *)
Definition boundsOf (st : ProjState) (ys : list Z) : Prop :=
  match minYear st, maxYear st with
  | None, None => ys = []
  | Some lo, Some hi => isLeast lo ys /\ isGreatest hi ys
  | _, _ => False
  end.

(** Both kinds of slot outside the month are drawn with the class
    [is-out-of-month]. *)
Definition outOfMonth (s : Slot) : bool :=
  match s with
  | PadSlot _ => true
  | CellSlot _ _ _ valid => negb valid
  end.

(** The entries of a list, in their order, that are projected and have
    [key] among the keys of their days. *)
Definition covering (key : string) (es : list LinearEntry) : list LinearEntry :=
  filter (fun e => projected e = true /\ key ∈ calendarDayKeys e) es.

(** What [renderCell] draws (the image layer is left out): a cell out of the
    month, a day without entry, or a day with its primary entry, the weekend
    mark and, when the primary entry has properties to show, the chips. *)
Record Chips : Type := mkChips {
  chipTitle : string;
  chipStack : list string;
  chipMore : option Z
}.

Inductive Cell : Type :=
  | OutOfMonthCell
  | EmptyCell (day : Z)
  | EntryCell (day : Z) (primary : LinearEntry) (weekend : bool)
      (chips : option Chips).

Definition renderCell (getValue : Obsidian.Values) (entriesByDate : DayMap)
    (properties : list string) (highlightWeekends alignWeekdays : bool)
    (year month day : Z) (valid : bool) : Cell :=
  let key := dateKey year month day in
  let dayEntries := if valid then entriesByDate !! key else None in
  let primary := match dayEntries with Some l => head l | None => None end in
  let count :=
    match dayEntries with Some l => Z.of_nat (length l) | None => 0 end in
  let hasMultiple := 1 <? count in
  let weekend := isWeekend highlightWeekends alignWeekdays year month day valid in
  if negb valid then OutOfMonthCell
  else
    match primary with
    | None => EmptyCell day
    | Some p =>
        match validProperties getValue properties (entry p) with
        | [] => EntryCell day p weekend None
        | title :: stack =>
            EntryCell day p weekend
              (Some {| chipTitle := title;
                       chipStack := stack;
                       chipMore :=
                         if hasMultiple
                         then Some (match dayEntries with
                                    | Some l => Z.of_nat (length l)
                                    | None => 1
                                    end - 1)
                         else None |})
        end
    end.

(** The standard layout: 31 cells per month, those past the month's length
    marked as not valid. *)
Definition standardRow (currentYear monthIndex : Z) : list Slot :=
  let days := daysInMonth currentYear monthIndex in
  (fun dayIndex =>
     CellSlot currentYear monthIndex (dayIndex + 1) (dayIndex + 1 <=? days))
  <$> seqZ 0 31.

Definition renderStandardYear (currentYear : Z) : list (list Slot) :=
  standardRow currentYear <$> seqZ 0 12.

(** A slot as drawn: padding is out of the month, a cell goes through
    [renderCell]. *)
Definition drawSlot (getValue : Obsidian.Values) (entriesByDate : DayMap)
    (properties : list string) (highlightWeekends alignWeekdays : bool)
    (s : Slot) : Cell :=
  match s with
  | PadSlot _ => OutOfMonthCell
  | CellSlot year month dayNum valid =>
      renderCell getValue entriesByDate properties highlightWeekends
        alignWeekdays year month dayNum valid
  end.

(** The header of the aligned layout: one weekday label per slot. *)
Definition weekdayNames : list string :=
  ["Su"; "Mo"; "Tu"; "We"; "Th"; "Fr"; "Sa"]%string.

Definition weekdayHeader (currentYear : Z) : list string :=
  (fun i => default EmptyString (weekdayNames !! Z.to_nat (i mod 7)))
  <$> seqZ 0 (maxSlots currentYear).

(** The slots of a row, or of a grid, that are drawn as days of the month. *)
Definition daySlots (row : list Slot) : list Slot :=
  filter (fun s => outOfMonth s = false) row.

Definition dayCount (rows : list (list Slot)) : Z :=
  Z.of_nat (length (daySlots (concat rows))).

(** An entry whose dates have years outside the constructor's two-digit
    years. *)
Definition plainYears (e : LinearEntry) : Prop :=
  twoDigitYear (getFullYear (startDate e)) = false
  /\ forall ed, endDate e = Some ed -> twoDigitYear (getFullYear ed) = false.

(** The keys filed by [n] turns of the loop started at [iter], in order. *)
Fixpoint iterKeys (iter : JSDate.t) (n : nat) : list string :=
  match n with
  | O => []
  | S n' => keyOf iter :: iterKeys (iter + msPerDay) n'
  end.

(** A map without an empty bucket. *)
Definition tidy (m : DayMap) : Prop := forall k, m !! k <> Some [].

(** The number of days of a month of a leap or common year. *)
Definition monthLength (leap month : Z) : Z :=
  MonthStart leap (month + 1) - MonthStart leap month.

End LinearReactView.

(** ** The month grid *)

Module CalendarReactView.
Import JSDate.

Record CalendarEntry : Type := mkCalendarEntry {
  entry : BasesEntry;
  startDate : JSDate.t;
  endDate : option JSDate.t
}.

(** An event handed to the month-grid widget. *)
Record CalendarEvent : Type := mkCalendarEvent {
  id : string;
  title : string;
  start : JSDate.t;
  end_ : option JSDate.t;
  allDay : bool;
  extEntry : BasesEntry;
  originalEndDate : option JSDate.t
}.

(** The end given to the widget, which reads it as exclusive. *)
Definition adjustedEndDate (calEntry : CalendarEntry) : option JSDate.t :=
  match endDate calEntry with
  | None => None
  | Some ed =>
      let startDateOnly := dateOnly (startDate calEntry) in
      let endDateOnly := dateOnly ed in
      if getTime startDateOnly =? getTime endDateOnly then None
      else
        let adjusted := copy ed in
        Some (setDate adjusted (getDate adjusted + 1))
  end.

Definition toEvent (calEntry : CalendarEntry) : CalendarEvent :=
  {| id := filePath (entry calEntry);
     title := fileBasename (entry calEntry);
     start := startDate calEntry;
     end_ := adjustedEndDate calEntry;
     allDay := true;
     extEntry := entry calEntry;
     originalEndDate := endDate calEntry |}.

Definition events (entries : list CalendarEntry) : list CalendarEvent :=
  toEvent <$> entries.

(** What the widget reports on a drop: the dropped event with its new start
    and end. *)
Record DropInfo : Type := mkDropInfo {
  dropEntry : BasesEntry;
  dropOriginalEndDate : option JSDate.t;
  dropStart : option JSDate.t;
  dropEnd : option JSDate.t
}.

(** What the drop handler does: revert the drop, or call [onEventDrop]. *)
Inductive DropAction : Type :=
  | Revert
  | Dispatch (e : BasesEntry) (newStart : JSDate.t)
      (actualEndDate : option JSDate.t).

(** The end date kept for the entry. *)
Definition actualEndDate (originalEndDate newEnd : option JSDate.t)
    (newStart : JSDate.t) : option JSDate.t :=
  match originalEndDate with
  | Some _ =>
      match newEnd with
      | Some ne =>
          let actual := copy ne in
          Some (setDate actual (getDate actual - 1))
      | None => Some (copy newStart)
      end
  | None => None
  end.

(** [hasHandler] tells whether [onEventDrop] was supplied. *)
Definition handleEventDrop (hasHandler : bool) (dropInfo : DropInfo)
    : DropAction :=
  if negb hasHandler then Revert
  else
    match dropStart dropInfo with
    | None => Revert
    | Some newStart =>
        Dispatch (dropEntry dropInfo) newStart
          (actualEndDate (dropOriginalEndDate dropInfo) (dropEnd dropInfo)
             newStart)
    end.

End CalendarReactView.

(** ** Configuration values *)

Module Config.

(** A value returned by [config.get(key)]. *)
Inductive Value : Type :=
  | VUndefined
  | VNull
  | VBoolean (b : bool)
  | VNumber (x : JSNumber.t)
  | VString (s : string)
  | VObject.

Abbreviation t := (gmap string Value).

Definition get (cfg : t) (key : string) : Value :=
  default VUndefined (cfg !! key).

(** The [numericValue] of the option getters: a number as it is, a string
    through [Number], [undefined] otherwise. *)
Definition numericValue (rawValue : Value) : option JSNumber.t :=
  match rawValue with
  | VNumber x => Some x
  | VString s => Some (JSNumber.ofString s)
  | _ => None
  end.

End Config.

(** ** The month view *)

Module CalendarView.
Import JSDate.

Definition getOverlayOpacity (cfg : Config.t) : JSNumber.t :=
  let rawValue := Config.get cfg "propertyOverlayOpacity" in
  match Config.numericValue rawValue with
  | None => JSNumber.Fin 0.6
  | Some numericValue =>
      if JSNumber.isNaN numericValue then JSNumber.Fin 0.6
      else
        let clamped :=
          JSNumber.max (JSNumber.Fin 0)
            (JSNumber.min (JSNumber.Fin 100) numericValue) in
        JSNumber.div clamped (JSNumber.Fin 100)
  end.

Definition getBooleanConfig (cfg : Config.t) (key : string) (fallback : bool)
    : bool :=
  match Config.get cfg key with
  | Config.VBoolean b => b
  | _ => fallback
  end.

Definition formatDate (date : JSDate.t) : string :=
  let year := getFullYear date in
  let month := JSString.padStart (JSString.ofInt (getMonth date + 1)) 2 "0" in
  let day := JSString.padStart (JSString.ofInt (getDate date)) 2 "0" in
  JSString.ofInt year +:+ "-" +:+ month +:+ "-" +:+ day.

(** The front matter of a note: property name to written text. *)
Abbreviation FrontMatter := (gmap string string).

(** A property identifier is usable when it is set and not empty. *)
Definition isSet (prop : option string) : bool :=
  match prop with Some p => JSString.truthy p | None => false end.

Definition extractNoteProp (prop : option string) : option string :=
  match prop with
  | Some p =>
      if JSString.startsWith p "note." then Some (JSString.slice 5 p) else None
  | None => None
  end.

(** [updateEntryDates]: [None] when the method returns before asking the host
    to process the front matter, otherwise the front matter committed. *)
Definition updateEntryDates (startDateProp endDateProp : option string)
    (newStart : JSDate.t) (newEnd : option JSDate.t) (frontmatter : FrontMatter)
    : option FrontMatter :=
  if negb (isSet startDateProp) then None
  else
    let extractedStartProp := extractNoteProp startDateProp in
    let extractedEndProp := extractNoteProp endDateProp in
    match extractedStartProp with
    | None => None
    | Some startName =>
        if negb (isSet endDateProp) || bool_decide (is_Some extractedEndProp)
        then
          let fm1 := <[startName := formatDate newStart]> frontmatter in
          match newEnd, extractedEndProp with
          | Some ne, Some endName =>
              if isSet endDateProp && JSString.truthy endName
              then Some (<[endName := formatDate ne]> fm1)
              else Some fm1
          | _, _ => Some fm1
          end
        else None
    end.

(** A drop carried through to the store: the handler's call of
    [onEventDrop], which the view binds to [updateEntryDates]. *)
Definition persistDrop (startDateProp endDateProp : option string)
    (dropInfo : CalendarReactView.DropInfo) (frontmatter : FrontMatter)
    : option FrontMatter :=
  match CalendarReactView.handleEventDrop true dropInfo with
  | CalendarReactView.Dispatch _ newStart newEnd =>
      updateEntryDates startDateProp endDateProp newStart newEnd frontmatter
  | CalendarReactView.Revert => None
  end.

(** The identifier of a note property. *)
Definition noteProp (name : string) : option string := Some ("note." +:+ name).

(** The drop of an event shown as a single day: the widget reports the new
    start and no end. *)
Definition singleDayDrop (e : BasesEntry) (originalEnd : option JSDate.t)
    (newStart : JSDate.t) : CalendarReactView.DropInfo :=
  {| CalendarReactView.dropEntry := e;
     CalendarReactView.dropOriginalEndDate := originalEnd;
     CalendarReactView.dropStart := Some newStart;
     CalendarReactView.dropEnd := None |}.

(** The statement that the drop of a single-day event whose end date is its
    start day writes the start property and nothing else. *)
Definition singleDayDropWritesStartOnly : Prop :=
  forall (startName endName : string) (e : BasesEntry)
    (startDate endDate newStart : JSDate.t) (frontmatter : FrontMatter),
    endName <> EmptyString ->
    startName <> endName ->
    dateOnly startDate = dateOnly endDate ->
    persistDrop (noteProp startName) (noteProp endName)
      (singleDayDrop e (Some endDate) newStart) frontmatter
    = Some (<[startName := formatDate newStart]> frontmatter).

(** Years written with four digits. *)
Definition fourDigitYear (d : JSDate.t) : Prop :=
  1000 <= getFullYear d <= 9999.

Definition getDayNumberSize (cfg : Config.t) : JSNumber.t :=
  let rawValue := Config.get cfg "dayNumberSize" in
  match Config.numericValue rawValue with
  | None => JSNumber.Fin 18
  | Some numericValue =>
      if JSNumber.isNaN numericValue then JSNumber.Fin 18
      else JSNumber.max (JSNumber.Fin 12)
             (JSNumber.min (JSNumber.Fin 40) numericValue)
  end.

Definition getDayCellHeight (cfg : Config.t) : JSNumber.t :=
  let rawValue := Config.get cfg "dayCellHeight" in
  match Config.numericValue rawValue with
  | None => JSNumber.Fin 120
  | Some numericValue =>
      if JSNumber.isNaN numericValue then JSNumber.Fin 120
      else JSNumber.max (JSNumber.Fin 80)
             (JSNumber.min (JSNumber.Fin 220) numericValue)
  end.

(** The value of [dayNameToNumber[key]]: the number of one of the seven
    names, a member inherited from the object prototype, or undefined. *)
Inductive TableEntry : Type :=
  | DayNumber (n : Z)
  | Inherited (key : string)
  | Undefined.

Definition objectPrototypeKeys : list string :=
  ["constructor"; "hasOwnProperty"; "isPrototypeOf"; "propertyIsEnumerable";
   "toLocaleString"; "toString"; "valueOf"; "__proto__"; "__defineGetter__";
   "__defineSetter__"; "__lookupGetter__"; "__lookupSetter__"]%string.

Definition dayNames : list (string * Z) :=
  [("sunday", 0); ("monday", 1); ("tuesday", 2); ("wednesday", 3);
   ("thursday", 4); ("friday", 5); ("saturday", 6)]%string.

Fixpoint assoc (key : string) (table : list (string * Z)) : option Z :=
  match table with
  | [] => None
  | (k, v) :: rest => if String.eqb k key then Some v else assoc key rest
  end.

Definition dayNameToNumber (key : string) : TableEntry :=
  match assoc key dayNames with
  | Some n => DayNumber n
  | None =>
      if bool_decide (key ∈ objectPrototypeKeys) then Inherited key
      else Undefined
  end.

(** The week start kept by [loadConfig], from the configured value read as a
    string ([None] when the option is absent). *)
Definition weekStartDay (weekStartDayValue : option string) : TableEntry :=
  match weekStartDayValue with
  | Some s =>
      if JSString.truthy s then
        match dayNameToNumber s with
        | Undefined => DayNumber 1
        | found => found
        end
      else DayNumber 1
  | None => DayNumber 1
  end.

(** [extractDate]: the date of a date value; null for a thrown error, a
    null, another kind of value or a date value without date. *)
Definition extractDate (getValue : Obsidian.Values) (entry : BasesEntry)
    (propId : string) : option JSDate.t :=
  match getValue entry propId with
  | Obsidian.Found (Obsidian.DateValue (Some d) _ _) => Some d
  | _ => None
  end.

(** The entries [updateCalendar] hands to the month grid; [None] when the
    view shows its request to configure a start date instead. *)
Fixpoint collectEntries (getValue : Obsidian.Values)
    (startDateProp : string) (endDateProp : option string)
    (data : list BasesEntry) : list CalendarReactView.CalendarEntry :=
  match data with
  | [] => []
  | entry :: rest =>
      match extractDate getValue entry startDateProp with
      | Some startDate =>
          {| CalendarReactView.entry := entry;
             CalendarReactView.startDate := startDate;
             CalendarReactView.endDate :=
               match endDateProp with
               | Some ep =>
                   if JSString.truthy ep then extractDate getValue entry ep
                   else None
               | None => None
               end |}
          :: collectEntries getValue startDateProp endDateProp rest
      | None => collectEntries getValue startDateProp endDateProp rest
      end
  end.

Definition updateCalendar (getValue : Obsidian.Values)
    (data : option (list BasesEntry)) (startDateProp endDateProp : option string)
    : option (list CalendarReactView.CalendarEntry) :=
  match data, startDateProp with
  | Some entries, Some sp =>
      if JSString.truthy sp
      then Some (collectEntries getValue sp endDateProp entries)
      else None
  | _, _ => None
  end.

(** A drag of an event of the grid by [delta] milliseconds, as the widget
    reports it: start and, when the event has one, end moved by [delta]. *)
Definition dragged (ev : CalendarReactView.CalendarEvent) (delta : Z)
    : CalendarReactView.DropInfo :=
  {| CalendarReactView.dropEntry := CalendarReactView.extEntry ev;
     CalendarReactView.dropOriginalEndDate :=
       CalendarReactView.originalEndDate ev;
     CalendarReactView.dropStart := Some (CalendarReactView.start ev + delta);
     CalendarReactView.dropEnd :=
       (fun t => t + delta) <$> CalendarReactView.end_ ev |}.

End CalendarView.

(** ** The linear view *)

Module LinearView.

Definition getOverlayOpacity (cfg : Config.t) : JSNumber.t :=
  let rawValue := Config.get cfg "propertyOverlayOpacity" in
  match Config.numericValue rawValue with
  | None => JSNumber.Fin 0.6
  | Some numericValue =>
      if JSNumber.isNaN numericValue then JSNumber.Fin 0.6
      else
        let clamped :=
          JSNumber.max (JSNumber.Fin 0)
            (JSNumber.min (JSNumber.Fin 100) numericValue) in
        JSNumber.div clamped (JSNumber.Fin 100)
  end.

Definition getBooleanConfig (cfg : Config.t) (key : string) (fallback : bool)
    : bool :=
  match Config.get cfg key with
  | Config.VBoolean b => b
  | _ => fallback
  end.

(** The display options [loadConfig] stores and hands to the year view. *)
Record Options : Type := mkOptions {
  propertyOverlayOpacity : JSNumber.t;
  alignPropertiesBottom : bool;
  alignWeekdays : bool;
  highlightWeekends : bool
}.

Definition loadConfig (cfg : Config.t) : Options :=
  let align := getBooleanConfig cfg "alignWeekdays" false in
  {| propertyOverlayOpacity := getOverlayOpacity cfg;
     alignPropertiesBottom := getBooleanConfig cfg "alignPropertiesBottom" false;
     alignWeekdays := align;
     highlightWeekends :=
       if align then getBooleanConfig cfg "highlightWeekends" false
       else false |}.

(** A day cell of the year view drawn with the loaded options. *)
Definition cellTestRuns (cfg : Config.t) (valid : bool) : bool :=
  let o := loadConfig cfg in
  LinearReactView.weekendTestRuns (highlightWeekends o) (alignWeekdays o) valid.

Definition cellIsWeekend (cfg : Config.t) (year month day : Z) (valid : bool)
    : bool :=
  let o := loadConfig cfg in
  LinearReactView.isWeekend (highlightWeekends o) (alignWeekdays o)
    year month day valid.

Definition getDayNumberSize (cfg : Config.t) : JSNumber.t :=
  let rawValue := Config.get cfg "dayNumberSize" in
  match Config.numericValue rawValue with
  | None => JSNumber.Fin 18
  | Some numericValue =>
      if JSNumber.isNaN numericValue then JSNumber.Fin 18
      else JSNumber.max (JSNumber.Fin 12)
             (JSNumber.min (JSNumber.Fin 40) numericValue)
  end.

Definition getDayCellHeight (cfg : Config.t) : JSNumber.t :=
  let rawValue := Config.get cfg "dayCellHeight" in
  match Config.numericValue rawValue with
  | None => JSNumber.Fin 120
  | Some numericValue =>
      if JSNumber.isNaN numericValue then JSNumber.Fin 120
      else JSNumber.max (JSNumber.Fin 80)
             (JSNumber.min (JSNumber.Fin 220) numericValue)
  end.


Definition extractDate (getValue : Obsidian.Values) (entry : BasesEntry)
    (propId : string) : option JSDate.t :=
  match getValue entry propId with
  | Obsidian.Found (Obsidian.DateValue (Some d) _ _) => Some d
  | _ => None
  end.

(** The entries [updateLinearCalendar] hands to the year view; [None] when
    the view shows its request to configure a start date instead. *)
Fixpoint collectEntries (getValue : Obsidian.Values)
    (startDateProp : string) (endDateProp : option string)
    (data : list BasesEntry) : list LinearReactView.LinearEntry :=
  match data with
  | [] => []
  | entry :: rest =>
      match extractDate getValue entry startDateProp with
      | Some startDate =>
          {| LinearReactView.entry := entry;
             LinearReactView.startDate := startDate;
             LinearReactView.endDate :=
               match endDateProp with
               | Some ep =>
                   if JSString.truthy ep then extractDate getValue entry ep
                   else None
               | None => None
               end |}
          :: collectEntries getValue startDateProp endDateProp rest
      | None => collectEntries getValue startDateProp endDateProp rest
      end
  end.

Definition updateLinearCalendar (getValue : Obsidian.Values)
    (data : option (list BasesEntry)) (startDateProp endDateProp : option string)
    : option (list LinearReactView.LinearEntry) :=
  match data, startDateProp with
  | Some entries, Some sp =>
      if JSString.truthy sp
      then Some (collectEntries getValue sp endDateProp entries)
      else None
  | _, _ => None
  end.

End LinearView.

(** ** Reading a persisted date back *)

Module Host.
Import JSDate.

(** Modelled from the spec: the host's reading of a date property is not in
    the sources.  "Date values are written back into front matter as
    YYYY-MM-DD strings (date-only)"; re-extraction reads such a string as the
    local midnight of that year, month and day, and any other text is not a
    date. *)
Definition readDate (s : string) : option JSDate.t :=
  match s with
  | String y1 (String y2 (String y3 (String y4 (String "-"
      (String m1 (String m2 (String "-"
        (String d1 (String d2 EmptyString))))))))) =>
      match JSNumber.digitsValue 10 0
              (String y1 (String y2 (String y3 (String y4 EmptyString)))),
            JSNumber.digitsValue 10 0 (String m1 (String m2 EmptyString)),
            JSNumber.digitsValue 10 0 (String d1 (String d2 EmptyString)) with
      | Some y, Some m, Some d => Some (MakeDate (MakeDay y (m - 1) d) 0)
      | _, _, _ => None
      end
  | _ => None
  end.

(** The text of a four-digit year, and of a two-digit month or day, read
    back as a number. *)
Definition yearTextReads (y : Z) : bool :=
  match JSString.ofInt y with
  | String _ (String _ (String _ (String _ EmptyString))) =>
      match JSNumber.digitsValue 10 0 (JSString.ofInt y) with
      | Some v => v =? y
      | None => false
      end
  | _ => false
  end.

Definition twoCharsReads (n : Z) : bool :=
  match LinearReactView.twoChars n with
  | String _ (String _ EmptyString) =>
      match JSNumber.digitsValue 10 0 (LinearReactView.twoChars n) with
      | Some v => v =? n
      | None => false
      end
  | _ => false
  end.

End Host.

(** ** The image of an entry *)

Module EntryImages.
Import Obsidian.

Definition IMAGE_FRONTMATTER_KEYS : list string :=
  ["cover"; "image"; "images"; "thumbnail"; "banner"; "featured"; "photo"]%string.

Definition IMAGE_EXTENSIONS : list string :=
  ["png"; "jpg"; "jpeg"; "gif"; "bmp"; "svg"; "webp"; "avif"; "heic"; "heif";
   "tif"; "tiff"]%string.

Record EntryImageInfo : Type := mkEntryImageInfo {
  url : string;
  alt : option string;
  source : option string
}.

(** A file or a folder of the vault. *)
Inductive TAbstractFile : Type :=
  | AFile (f : TFile)
  | AFolder (folderPath : string).

(** A value of the front matter; an object as the list of its fields. *)
#[warnings="-register-all"]
Inductive FrontMatterValue : Type :=
  | FNull
  | FBoolean (b : bool)
  | FNumber (x : JSNumber.t)
  | FString (s : string)
  | FArray (items : list FrontMatterValue)
  | FObject (fields : list (string * FrontMatterValue)).

Abbreviation FrontMatterCache := (list (string * FrontMatterValue)).

(** [record[key]]; [None] stands for undefined. *)
Fixpoint field (key : string) (record : FrontMatterCache)
    : option FrontMatterValue :=
  match record with
  | [] => None
  | (k, v) :: rest => if String.eqb k key then Some v else field key rest
  end.

Definition isTruthyValue (v : FrontMatterValue) : bool :=
  match v with
  | FNull => false
  | FBoolean b => b
  | FNumber JSNumber.NaN => false
  | FNumber (JSNumber.Fin q) => negb (JSNumber.isZero q)
  | FNumber _ => true
  | FString s => JSString.truthy s
  | FArray _ | FObject _ => true
  end.

Record EmbedCache : Type := mkEmbedCache { link : string }.

Record CachedMetadata : Type := mkCachedMetadata {
  frontmatter : option FrontMatterCache;
  embeds : option (list EmbedCache)
}.

(** What the resolution asks of the application. *)
Record App : Type := mkApp {
  getFileCache : BasesEntry -> option CachedMetadata;
  getFirstLinkpathDest : string -> string -> option TFile;
  getAbstractFileByPath : string -> option TAbstractFile;
  getResourcePath : TFile -> string
}.

(** *** The regular expressions of [sanitizeReference] *)

(** The characters [.] does not match. *)
Definition isLineTerminator (c : ascii) : bool :=
  let n := nat_of_ascii c in ((n =? 10) || (n =? 13))%nat.

Fixpoint noLineTerminator (s : string) : bool :=
  match s with
  | EmptyString => true
  | String c rest => negb (isLineTerminator c) && noLineTerminator rest
  end.

(** What precedes [p] in [s], when [s] ends with [p]. *)
Fixpoint beforeSuffix (p s : string) : option string :=
  if String.eqb s p then Some EmptyString
  else
    match s with
    | EmptyString => None
    | String c rest => String c <$> beforeSuffix p rest
    end.

(** The group of [(.+?)] followed by [p] and the end of the input. *)
Definition lazyGroup (p s : string) : option string :=
  match beforeSuffix p s with
  | Some g => if JSString.truthy g && noLineTerminator g then Some g else None
  | None => None
  end.

(** What follows the first [c] of [s]. *)
Fixpoint afterFirst (c : ascii) (s : string) : option string :=
  match s with
  | EmptyString => None
  | String d rest => if Ascii.eqb d c then Some rest else afterFirst c rest
  end.

(** The first group of [value.match(/^!?\[\[(.+?)\]\]$/)]. *)
Definition wikilinkMatch (value : string) : option string :=
  let body := match value with String "!" rest => rest | _ => value end in
  match body with
  | String "[" (String "[" rest) => lazyGroup "]]" rest
  | _ => None
  end.

(** The first group of [value.match(/^!\[[^\]]*]\((.+?)\)$/)]. *)
Definition mdImageMatch (value : string) : option string :=
  match value with
  | String "!" (String "[" rest) =>
      match afterFirst "]" rest with
      | Some (String "(" rest') => lazyGroup ")" rest'
      | _ => None
      end
  | _ => None
  end.

Definition isQuote (c : ascii) : bool :=
  let n := nat_of_ascii c in ((n =? 39) || (n =? 34))%nat.

Definition stripLeadingQuote (s : string) : string :=
  match s with
  | String c rest => if isQuote c then rest else s
  | EmptyString => EmptyString
  end.

(** The [replace] of [sanitizeReference], whose pattern is a single or
    double quote at the start or one at the end, applied globally with the
    empty replacement: a quote at the start goes, and a quote at the end of
    what is left. *)
Definition stripQuotes (s : string) : string :=
  String.rev (stripLeadingQuote (String.rev (stripLeadingQuote s))).

Definition sanitizeReference (reference : string) : option string :=
  let value := JSString.trim reference in
  if negb (JSString.truthy value) then None
  else
    let value :=
      match wikilinkMatch value with Some group => group | None => value end in
    let value :=
      match mdImageMatch value with Some group => group | None => value end in
    let value :=
      match JSString.indexOf "|" value with
      | Some pipeIndex => JSString.sliceTo pipeIndex value
      | None => value
      end in
    let value :=
      match JSString.indexOf "#" value with
      | Some hashIndex => JSString.sliceTo hashIndex value
      | None => value
      end in
    let value := JSString.trim (stripQuotes value) in
    if JSString.truthy value then Some value else None.

(** *** Files and references *)

(** A prefix written in lower-case letters, matched whatever the case. *)
Fixpoint prefixIgnoreCase (p s : string) : bool :=
  match p with
  | EmptyString => true
  | String a p' =>
      match s with
      | EmptyString => false
      | String b s' =>
          let n := nat_of_ascii b in
          let lower :=
            if ((65 <=? n) && (n <=? 90))%nat then ascii_of_nat (n + 32)
            else b in
          Ascii.eqb lower a && prefixIgnoreCase p' s'
      end
  end.

(** [/^(https?:)?\/\//i.test(value) || value.startsWith("data:image")] *)
Definition isExternalImageUrl (value : string) : bool :=
  (prefixIgnoreCase "https://" value || prefixIgnoreCase "http://" value
   || prefixIgnoreCase "//" value)
  || JSString.startsWith value "data:image".

Definition isImageFile (file : TFile) : bool :=
  existsb (String.eqb (JSString.toLowerCase (extension file))) IMAGE_EXTENSIONS.

Definition looksLikeImageReference (reference : string) : bool :=
  isExternalImageUrl reference
  || existsb
       (fun ext => JSString.includes (JSString.toLowerCase reference) ("." +:+ ext))
       IMAGE_EXTENSIONS.

Definition resolveFileFromPath (app : App) (entry : BasesEntry) (path : string)
    : option TFile :=
  match getFirstLinkpathDest app path (filePath entry) with
  | Some fromCache => Some fromCache
  | None =>
      match getAbstractFileByPath app path with
      | Some (AFile abs) => Some abs
      | _ => None
      end
  end.

Definition stringReferenceToImage (app : App) (entry : BasesEntry)
    (reference : string) : option EntryImageInfo :=
  match sanitizeReference reference with
  | None => None
  | Some sanitized =>
      if isExternalImageUrl sanitized
      then Some {| url := sanitized; alt := None; source := None |}
      else
        match resolveFileFromPath app entry sanitized with
        | Some file =>
            if isImageFile file
            then Some {| url := getResourcePath app file;
                         alt := Some (basename file);
                         source := None |}
            else None
        | None => None
        end
  end.

Definition getFileFromValue (value : Value) : option TFile :=
  match value with
  | PlainValue file _ _ _ _ _ _ => file
  | _ => None
  end.

(** The first of the given fields that holds a string with something
    other than white space. *)
Fixpoint firstText (candidates : list (option string)) : option string :=
  match candidates with
  | [] => None
  | Some candidate :: rest =>
      if JSString.truthy (JSString.trim candidate) then Some candidate
      else firstText rest
  | None :: rest => firstText rest
  end.

Definition getReferenceFromValue (value : Value) : option string :=
  match value with
  | PlainValue _ pathField linkField urlField srcField _ _ =>
      firstText [pathField; linkField; urlField; srcField]
  | _ => None
  end.

Fixpoint valueToImageInfo (app : App) (entry : BasesEntry) (value : Value)
    : option EntryImageInfo :=
  match value with
  | ListValue items _ _ =>
      (fix each (l : list Value) : option EntryImageInfo :=
         match l with
         | [] => None
         | nested :: rest =>
             match valueToImageInfo app entry nested with
             | Some nestedImage => Some nestedImage
             | None => each rest
             end
         end) items
  | _ =>
      match getFileFromValue value with
      | Some fileFromValue =>
          Some {| url := getResourcePath app fileFromValue;
                  alt := Some (basename fileFromValue);
                  source := None |}
      | None =>
          match getReferenceFromValue value with
          | Some linkedReference =>
              stringReferenceToImage app entry linkedReference
          | None =>
              let raw := JSString.trim (toString value) in
              if negb (JSString.truthy raw) then None
              else stringReferenceToImage app entry raw
          end
      end
  end.

Definition stringField (v : option FrontMatterValue) : option string :=
  match v with Some (FString s) => Some s | _ => None end.

Fixpoint normalizeFrontmatterCandidate (candidate : FrontMatterValue)
    : option string :=
  match candidate with
  | FString s => Some s
  | FArray items =>
      (fix each (l : list FrontMatterValue) : option string :=
         match l with
         | [] => None
         | nested :: rest =>
             match normalizeFrontmatterCandidate nested with
             | Some normalized =>
                 if JSString.truthy normalized then Some normalized
                 else each rest
             | None => each rest
             end
         end) items
  | FObject record =>
      firstText
        ((fun key => stringField (field key record))
         <$> ["path"; "file"; "link"; "url"; "src"]%string)
  | _ => None
  end.

(** [for (const candidate of candidates)] *)
Fixpoint eachCandidate (app : App) (entry : BasesEntry)
    (candidates : list FrontMatterValue) : option EntryImageInfo :=
  match candidates with
  | [] => None
  | candidate :: rest =>
      match normalizeFrontmatterCandidate candidate with
      | Some normalized =>
          if negb (JSString.truthy normalized)
          then eachCandidate app entry rest
          else
            match stringReferenceToImage app entry normalized with
            | Some image => Some image
            | None => eachCandidate app entry rest
            end
      | None => eachCandidate app entry rest
      end
  end.

(** [for (const key of IMAGE_FRONTMATTER_KEYS)] *)
Fixpoint eachKey (app : App) (entry : BasesEntry)
    (frontmatter : FrontMatterCache) (keys : list string)
    : option EntryImageInfo :=
  match keys with
  | [] => None
  | key :: rest =>
      match field key frontmatter with
      | Some rawValue =>
          if negb (isTruthyValue rawValue)
          then eachKey app entry frontmatter rest
          else
            let candidates :=
              match rawValue with FArray l => l | _ => [rawValue] end in
            match eachCandidate app entry candidates with
            | Some image => Some image
            | None => eachKey app entry frontmatter rest
            end
      | None => eachKey app entry frontmatter rest
      end
  end.

Definition resolveFromFrontmatter (app : App) (entry : BasesEntry)
    (frontmatter : option FrontMatterCache) : option EntryImageInfo :=
  match frontmatter with
  | None => None
  | Some fm => eachKey app entry fm IMAGE_FRONTMATTER_KEYS
  end.

Definition embedCacheToImage (app : App) (entry : BasesEntry)
    (embed : EmbedCache) : option EntryImageInfo :=
  if negb (JSString.truthy (link embed)) then None
  else if negb (looksLikeImageReference (link embed)) then None
  else stringReferenceToImage app entry (link embed).

Fixpoint eachEmbed (app : App) (entry : BasesEntry) (embeds : list EmbedCache)
    : option EntryImageInfo :=
  match embeds with
  | [] => None
  | embed :: rest =>
      match embedCacheToImage app entry embed with
      | Some image => Some image
      | None => eachEmbed app entry rest
      end
  end.

Definition resolveFromEmbeds (app : App) (entry : BasesEntry)
    (metadata : CachedMetadata) : option EntryImageInfo :=
  match embeds metadata with
  | None | Some [] => None
  | Some l => eachEmbed app entry l
  end.

Definition withSource (info : EntryImageInfo) (tag : string) : EntryImageInfo :=
  {| url := url info; alt := alt info; source := Some tag |}.

Definition resolveEntryImage (getValue : Values) (app : option App)
    (entry : BasesEntry) (imageProperty : option string)
    : option EntryImageInfo :=
  match app with
  | None => None
  | Some app =>
      let viaProperty :=
        match imageProperty with
        | Some prop =>
            if JSString.truthy prop then
              match tryGetValue getValue entry prop with
              | Some value => valueToImageInfo app entry value
              | None => None
              end
            else None
        | None => None
        end in
      match viaProperty with
      | Some info => Some (withSource info "property")
      | None =>
          match getFileCache app entry with
          | None => None
          | Some cache =>
              match resolveFromFrontmatter app entry (frontmatter cache) with
              | Some info => Some (withSource info "frontmatter")
              | None =>
                  match resolveFromEmbeds app entry cache with
                  | Some info => Some (withSource info "embed")
                  | None => None
                  end
              end
          end
      end
  end.

(** An image given by a URL, kept as sanitised; an image given by a file
    of the vault. *)
Definition isUrlImage (info : EntryImageInfo) : Prop :=
  alt info = None
  /\ isExternalImageUrl (url info) = true
  /\ JSString.trim (url info) = url info
  /\ JSString.indexOf "|" (url info) = None
  /\ JSString.indexOf "#" (url info) = None.

Definition isFileImage (app : App) (file : TFile) (info : EntryImageInfo)
    : Prop :=
  url info = getResourcePath app file /\ alt info = Some (basename file).

End EntryImages.

(** ** Sample data *)

Module Samples.
Import JSDate LinearReactView.

Definition hour : Z := 3600000.

(** A trip from 2025-03-30 09:00 to 2025-04-02 18:00. *)
Definition trip : LinearEntry :=
  {| entry := mkBasesEntry "Trips/Lisbon.md" "Lisbon";
     startDate := newDate 2025 2 30 + 9 * hour;
     endDate := Some (newDate 2025 3 2 + 18 * hour) |}.

(** An entry whose end lies before its start. *)
Definition reversed : LinearEntry :=
  {| entry := mkBasesEntry "Notes/Reversed.md" "Reversed";
     startDate := newDate 2022 5 10;
     endDate := Some (newDate 2021 5 8) |}.

(** Entries with only a start date in 2024, and one across the new year. *)
Definition meeting : LinearEntry :=
  {| entry := mkBasesEntry "Notes/Meeting.md" "Meeting";
     startDate := newDate 2024 4 14 + 10 * hour;
     endDate := None |}.

Definition review : LinearEntry :=
  {| entry := mkBasesEntry "Notes/Review.md" "Review";
     startDate := newDate 2024 10 3;
     endDate := None |}.

Definition newYear : LinearEntry :=
  {| entry := mkBasesEntry "Trips/NewYear.md" "NewYear";
     startDate := newDate 2023 11 30;
     endDate := Some (newDate 2024 0 2) |}.

(** A drop of a three-day event onto 2025-03-12 .. 2025-03-14, and a
    single-day note with an end date equal to its start. *)
Definition conference : BasesEntry := mkBasesEntry "Events/Conf.md" "Conf".

Definition dayNote : BasesEntry := mkBasesEntry "Notes/Day.md" "Day".

Definition conferenceDrop : CalendarReactView.DropInfo :=
  {| CalendarReactView.dropEntry := conference;
     CalendarReactView.dropOriginalEndDate := Some (newDate 2025 2 7);
     CalendarReactView.dropStart := Some (newDate 2025 2 12);
     CalendarReactView.dropEnd := Some (newDate 2025 2 14 + msPerDay) |}.

(** Values of a base in which only the day note has a start date. *)
Definition values : Obsidian.Values :=
  fun e prop =>
    if String.eqb (filePath e) "Notes/Day.md" && String.eqb prop "note.start"
    then Obsidian.Found
           (Obsidian.DateValue (Some (newDate 2025 2 10)) true "2025-03-10")
    else Obsidian.Null.

(** An application in which the day note has a cover in its front matter,
    given as an embed of a picture of the vault. *)
Definition picture : Obsidian.TFile :=
  {| Obsidian.path := "Attachments/photo.png";
     Obsidian.basename := "photo";
     Obsidian.extension := "PNG" |}.

Definition app : EntryImages.App :=
  {| EntryImages.getFileCache := fun e =>
       if String.eqb (filePath e) "Notes/Day.md"
       then Some {| EntryImages.frontmatter :=
                      Some [("cover"%string,
                             EntryImages.FString "![[photo.png|200]]")];
                    EntryImages.embeds := None |}
       else None;
     EntryImages.getFirstLinkpathDest := fun linkpath _ =>
       if String.eqb linkpath "photo.png" then Some picture else None;
     EntryImages.getAbstractFileByPath := fun _ => None;
     EntryImages.getResourcePath := fun f =>
       "app://local/" +:+ Obsidian.path f |}.

End Samples.

(** * Properties *)

(** ** Calendar arithmetic *)

Section DateFacts.
Import JSDate.

Lemma div_step (n y c : Z) :
  0 < n ->
  (y + 1 - c) / n = (y - c) / n + (if (y + 1 - c) mod n =? 0 then 1 else 0).
Proof.
  intros Hn. destruct (Z.eqb_spec ((y + 1 - c) mod n) 0);
    Z.div_mod_to_equations; nia.
Qed.

Lemma mod4_of_100 y : y mod 100 = 0 -> y mod 4 = 0.
Proof. intros. Z.div_mod_to_equations. lia. Qed.

Lemma mod100_of_400 y : y mod 400 = 0 -> y mod 100 = 0.
Proof. intros. Z.div_mod_to_equations. lia. Qed.

(** A year later starts [DaysInYear] days later. *)
Lemma DayFromYear_succ y : DayFromYear (y + 1) = DayFromYear y + DaysInYear y.
Proof.
  unfold DayFromYear, DaysInYear.
  rewrite (div_step 4 y 1969), (div_step 100 y 1901), (div_step 400 y 1601)
    by lia.
  replace ((y + 1 - 1969) mod 4) with (y mod 4)
    by (Z.div_mod_to_equations; lia).
  replace ((y + 1 - 1901) mod 100) with (y mod 100)
    by (Z.div_mod_to_equations; lia).
  replace ((y + 1 - 1601) mod 400) with (y mod 400)
    by (Z.div_mod_to_equations; lia).
  pose proof (mod4_of_100 y). pose proof (mod100_of_400 y).
  destruct (Z.eqb_spec (y mod 4) 0); cbn [negb];
    destruct (Z.eqb_spec (y mod 100) 0); cbn [negb];
    destruct (Z.eqb_spec (y mod 400) 0); cbn [negb]; lia.
Qed.

Lemma DaysInYear_cases y : DaysInYear y = 365 \/ DaysInYear y = 366.
Proof. unfold DaysInYear. repeat case_match; auto. Qed.

(** The year found is the one whose days contain [d]. *)
Lemma YearFromDay_spec d :
  DayFromYear (YearFromDay d) <= d < DayFromYear (YearFromDay d + 1).
Proof.
  unfold YearFromDay.
  destruct (Z.ltb_spec d (DayFromYear (1970 + 400 * d / 146097))).
  - unfold DayFromYear in *. Z.div_mod_to_equations. lia.
  - destruct (Z.leb_spec (DayFromYear (1970 + 400 * d / 146097 + 1)) d).
    + unfold DayFromYear in *. Z.div_mod_to_equations. lia.
    + lia.
Qed.

Lemma DayWithinYear_range tv :
  0 <= DayWithinYear tv < DaysInYear (YearFromTime tv).
Proof.
  unfold DayWithinYear, YearFromTime.
  pose proof (YearFromDay_spec (Day tv)) as H.
  rewrite DayFromYear_succ in H. lia.
Qed.

Lemma InLeapYear_days y : DaysInYear y = 365 + InLeapYear y.
Proof.
  unfold InLeapYear. destruct (DaysInYear_cases y) as [-> | ->]; reflexivity.
Qed.

Lemma InLeapYear_cases y : InLeapYear y = 0 \/ InLeapYear y = 1.
Proof. unfold InLeapYear. case_match; auto. Qed.

Lemma MonthFromTime_range tv : 0 <= MonthFromTime tv <= 11.
Proof.
  unfold MonthFromTime, MonthFromDayWithinYear. repeat case_match; lia.
Qed.

(** The day of the month counts from the first day of the month found. *)
Lemma DateFromTime_range tv : 1 <= DateFromTime tv <= 31.
Proof.
  pose proof (DayWithinYear_range tv) as Hd.
  rewrite InLeapYear_days in Hd.
  unfold DateFromTime, MonthFromTime, MonthFromDayWithinYear.
  destruct (InLeapYear_cases (YearFromTime tv)) as [E | E]; rewrite E in *;
    repeat (case_match; [cbn [MonthStart]; lia |]); cbn [MonthStart]; lia.
Qed.

Lemma MakeDay_fields tv dt :
  MakeDay (YearFromTime tv) (MonthFromTime tv) dt
  = Day tv - DateFromTime tv + dt.
Proof.
  pose proof (MonthFromTime_range tv) as Hm.
  unfold MakeDay, DateFromTime, DayWithinYear.
  rewrite Z.div_small, Z.mod_small, Z.add_0_r by lia. lia.
Qed.

Lemma time_split tv : Day tv * msPerDay + TimeWithinDay tv = tv.
Proof.
  unfold Day, TimeWithinDay.
  pose proof (Z.div_mod tv msPerDay ltac:(unfold msPerDay; lia)). lia.
Qed.

(** Setting the day of the month [k] days off moves the date by [k] days and
    keeps the time of day, across month and year ends. *)
Lemma setDate_shift d k : setDate d (getDate d + k) = d + k * msPerDay.
Proof.
  unfold setDate, getDate, MakeDate. rewrite MakeDay_fields.
  pose proof (time_split d). lia.
Qed.

Lemma Day_MakeDate d : Day (MakeDate d 0) = d.
Proof.
  unfold Day, MakeDate. rewrite Z.add_0_r. apply Z.div_mul. discriminate.
Qed.

Lemma Day_shift tv k : Day (tv + k * msPerDay) = Day tv + k.
Proof. unfold Day. apply Z.div_add. discriminate. Qed.

Lemma TimeWithinDay_newDate y m d : TimeWithinDay (newDate y m d) = 0.
Proof.
  unfold TimeWithinDay, newDate, MakeDate. rewrite Z.add_0_r.
  apply Z.mod_mul. discriminate.
Qed.

Lemma midnight_MakeDate tv : TimeWithinDay tv = 0 -> tv = MakeDate (Day tv) 0.
Proof. intros H. pose proof (time_split tv). unfold MakeDate. lia. Qed.

(** The fields of a date, read back into [MakeDay], give its day number. *)
Lemma MakeDay_roundtrip tv :
  MakeDay (YearFromTime tv) (MonthFromTime tv) (DateFromTime tv) = Day tv.
Proof. rewrite MakeDay_fields. lia. Qed.

End DateFacts.

(** ** The day map *)

Section DayMapFacts.
Import JSDate LinearReactView.

Lemma occupants_pushEntry key e m k :
  occupants (pushEntry key e m) k
  = if decide (key = k) then occupants m key ++ [e] else occupants m k.
Proof.
  unfold occupants, pushEntry.
  destruct (m !! key) as [l |] eqn:Hk.
  - rewrite Hk. destruct (decide (key = k)) as [<- | Hne].
    + rewrite lookup_insert_eq. reflexivity.
    + rewrite lookup_insert_ne by done. reflexivity.
  - rewrite lookup_insert_eq. destruct (decide (key = k)) as [<- | Hne].
    + rewrite lookup_insert_eq. reflexivity.
    + rewrite !lookup_insert_ne by done. reflexivity.
Qed.

(** With enough iterations granted, the loop leaves through its condition,
    after one turn per day from [iter] to [end_]. *)
Lemma walk_run (n : nat) : forall fuel e iter end_ m,
  (n <= fuel)%nat ->
  end_ < iter + Z.of_nat n * msPerDay ->
  iter + Z.of_nat n * msPerDay <= end_ + msPerDay ->
  walk fuel e iter end_ m = Some (pushDays e iter n m).
Proof.
  induction n as [| n IH]; intros fuel e iter end_ m Hf Hlt Hge.
  - destruct fuel; cbn [walk pushDays];
      (destruct (Z.leb_spec iter end_); [lia | reflexivity]).
  - destruct fuel as [| fuel]; [lia |].
    cbn [walk pushDays].
    destruct (Z.leb_spec iter end_) as [_ | Hc]; [| unfold msPerDay in *; lia].
    replace (setDate iter (getDate iter + 1)) with (iter + msPerDay)
      by (rewrite setDate_shift; lia).
    apply IH; lia.
Qed.

Lemma elem_of_occupants_pushDays e n : forall iter m k x,
  x ∈ occupants (pushDays e iter n m) k
  <-> x ∈ occupants m k
      \/ (x = e /\ exists i, 0 <= i < Z.of_nat n /\ k = keyOf (iter + i * msPerDay)).
Proof.
  induction n as [| n IH]; intros iter m k x; cbn [pushDays].
  - split; [auto | intros [H | (_ & i & Hi & _)]; [done | lia]].
  - rewrite IH, occupants_pushEntry. split.
    + intros [H | (-> & i & Hi & ->)].
      * destruct (decide (keyOf iter = k)) as [<- | Hne]; [| auto].
        apply elem_of_app in H as [H | H]; [auto |].
        apply list_elem_of_singleton in H as ->.
        right. split; [done |]. exists 0. split; [lia |].
        f_equal. lia.
      * right. split; [done |]. exists (i + 1). split; [lia |].
        f_equal. lia.
    + intros [H | (-> & i & Hi & ->)].
      * left. destruct (decide (keyOf iter = k)) as [<- | Hne]; [| done].
        apply elem_of_app. auto.
      * destruct (decide (i = 0)) as [-> | Hi0].
        -- left. replace (iter + 0 * msPerDay) with iter by lia.
           rewrite decide_True by done. apply elem_of_app. right.
           apply list_elem_of_singleton. done.
        -- right. split; [done |]. exists (i - 1). split; [lia |].
           f_equal. lia.
Qed.

Lemma rangeStart_midnight e : TimeWithinDay (rangeStart e) = 0.
Proof. apply TimeWithinDay_newDate. Qed.

Lemma rangeEnd_midnight e : TimeWithinDay (rangeEnd e) = 0.
Proof.
  unfold rangeEnd. destruct (endDate e); [apply TimeWithinDay_newDate |].
  apply rangeStart_midnight.
Qed.

Lemma midnight_le a b :
  TimeWithinDay a = 0 -> TimeWithinDay b = 0 -> (a <= b <-> Day a <= Day b).
Proof.
  intros Ha Hb. pose proof (time_split a). pose proof (time_split b).
  unfold msPerDay in *. lia.
Qed.

Lemma elem_of_calendarDayKeys e k :
  k ∈ calendarDayKeys e
  <-> exists d, Day (rangeStart e) <= d <= Day (rangeEnd e) /\ k = dayKey d.
Proof.
  unfold calendarDayKeys. rewrite list_elem_of_fmap. split.
  - intros (d & -> & Hd). apply elem_of_seqZ in Hd. exists d. split; [lia | done].
  - intros (d & Hd & ->). exists d. split; [done |]. apply elem_of_seqZ. lia.
Qed.

(** The walk of one projected entry, as the loop is started by
    [projectEntry], ends and files the entry under the keys of its days. *)
Lemma walk_range e m :
  rangeStart e <= rangeEnd e ->
  exists m',
    walk (walkFuel (rangeStart e) (rangeEnd e)) e (copy (rangeStart e))
      (rangeEnd e) m = Some m'
    /\ forall k x,
         x ∈ occupants m' k
         <-> x ∈ occupants m k \/ (x = e /\ k ∈ calendarDayKeys e).
Proof.
  intros Hle.
  pose proof (rangeStart_midnight e) as Hs.
  pose proof (rangeEnd_midnight e) as He.
  pose proof (proj1 (midnight_le _ _ Hs He) Hle) as Hd.
  pose proof (time_split (rangeStart e)) as Ts.
  pose proof (time_split (rangeEnd e)) as Te.
  set (n := walkFuel (rangeStart e) (rangeEnd e)).
  assert (Hn : Z.of_nat n = Day (rangeEnd e) - Day (rangeStart e) + 1)
    by (unfold n, walkFuel; lia).
  exists (pushDays e (rangeStart e) n m). split.
  - unfold copy. apply walk_run; [lia | |]; unfold msPerDay in *; lia.
  - intros k x. rewrite elem_of_occupants_pushDays, elem_of_calendarDayKeys.
    split; (intros [H | (-> & H)]; [by left | right; split; [done |]]).
    + destruct H as (i & Hi & ->). exists (Day (rangeStart e) + i).
      split; [lia |]. unfold dayKey, MakeDate. f_equal. lia.
    + destruct H as (d & Hdd & ->). exists (d - Day (rangeStart e)).
      split; [lia |]. unfold dayKey, MakeDate. f_equal. lia.
Qed.

End DayMapFacts.

(** ** Day keys *)

Section KeyFacts.
Import JSDate LinearReactView.

Lemma append_cons (c : ascii) (s t : string) :
  String c s +:+ t = String c (s +:+ t).
Proof. reflexivity. Qed.

Lemma append_empty (t : string) : "" +:+ t = t.
Proof. reflexivity. Qed.

Lemma length_append (s1 s2 : string) :
  String.length (s1 +:+ s2) = (String.length s1 + String.length s2)%nat.
Proof.
  induction s1 as [| c s1 IH]; [reflexivity |].
  rewrite append_cons. cbn [String.length]. rewrite IH. reflexivity.
Qed.

(** Two concatenations with tails of one length agree part by part. *)
Lemma append_inj_tail (s1 s2 t1 t2 : string) :
  String.length t1 = String.length t2 ->
  s1 +:+ t1 = s2 +:+ t2 -> s1 = s2 /\ t1 = t2.
Proof.
  revert s2. induction s1 as [| c s1 IH]; intros [| c2 s2] Hlen Heq;
    rewrite ?append_cons, ?append_empty in Heq.
  - done.
  - subst t1. cbn [String.length] in Hlen. rewrite length_append in Hlen. lia.
  - subst t2. cbn [String.length] in Hlen. rewrite length_append in Hlen. lia.
  - injection Heq as -> Heq. destruct (IH s2 Hlen Heq) as [-> ->]. done.
Qed.

(** A property checked on every number of a range holds on the range. *)
Lemma forallb_seqZ (P : Z -> bool) lo n :
  forallb P (seqZ lo n) = true -> forall x, lo <= x < lo + n -> P x = true.
Proof.
  intros H x Hx. rewrite forallb_forall in H. apply H.
  apply list_elem_of_In, elem_of_seqZ. lia.
Qed.

(** Months and days of the month are written with two characters, different
    numbers differently. *)
Lemma twoChars_spec x y :
  0 <= x < 32 -> 0 <= y < 32 ->
  String.length (twoChars x) = 2%nat
  /\ (twoChars x = twoChars y -> x = y).
Proof.
  intros Hx Hy.
  pose proof (forallb_seqZ
    (fun a => forallb (fun b =>
       (String.length (twoChars a) =? 2)%nat
       && implb (String.eqb (twoChars a) (twoChars b)) (a =? b)) (seqZ 0 32))
    0 32 ltac:(vm_compute; reflexivity) x Hx) as H.
  cbv beta in H.
  pose proof (forallb_seqZ _ 0 32 H y Hy) as H2. cbv beta in H2.
  apply andb_prop in H2 as [Hl Hi]. split.
  - by apply Nat.eqb_eq.
  - intros E. rewrite E, String.eqb_refl in Hi. cbn in Hi. lia.
Qed.

Lemma dateKey_twoChars y m d :
  dateKey y m d = JSString.ofInt y +:+ "-" +:+ twoChars (m + 1) +:+ "-" +:+ twoChars d.
Proof. reflexivity. Qed.

(** Keys of different days of the calendar differ. *)
Lemma dateKey_inj y1 m1 d1 y2 m2 d2 :
  0 <= m1 <= 11 -> 1 <= d1 <= 31 -> 0 <= m2 <= 11 -> 1 <= d2 <= 31 ->
  dateKey y1 m1 d1 = dateKey y2 m2 d2 -> y1 = y2 /\ m1 = m2 /\ d1 = d2.
Proof.
  intros Hm1 Hd1 Hm2 Hd2. rewrite !dateKey_twoChars. intros H.
  destruct (twoChars_spec (m1 + 1) (m2 + 1)) as [Lm1 Im]; [lia | lia |].
  destruct (twoChars_spec (m2 + 1) (m1 + 1)) as [Lm2 _]; [lia | lia |].
  destruct (twoChars_spec d1 d2) as [Ld1 Id]; [lia | lia |].
  destruct (twoChars_spec d2 d1) as [Ld2 _]; [lia | lia |].
  apply append_inj_tail in H as [Hy H].
  2:{ rewrite !length_append. lia. }
  rewrite !append_cons, !append_empty in H. injection H as H.
  apply append_inj_tail in H as [Hm H].
  2:{ cbn [String.length]. lia. }
  injection H as H.
  split; [| split].
  - unfold JSString.ofInt in Hy. by apply (inj pretty) in Hy.
  - apply Im in Hm. lia.
  - by apply Id.
Qed.

Lemma dayKey_inj d1 d2 : dayKey d1 = dayKey d2 -> d1 = d2.
Proof.
  unfold dayKey, keyOf. intros H.
  apply dateKey_inj in H as (Hy & Hm & Hd);
    try apply MonthFromTime_range; try apply DateFromTime_range.
  rewrite <- (Day_MakeDate d1), <- (Day_MakeDate d2).
  rewrite <- (MakeDay_roundtrip (MakeDate d1 0)).
  rewrite <- (MakeDay_roundtrip (MakeDate d2 0)).
  unfold getFullYear, getMonth, getDate in *. congruence.
Qed.

Lemma NoDup_calendarDayKeys e : NoDup (calendarDayKeys e).
Proof.
  unfold calendarDayKeys.
  apply NoDup_fmap_2_strong; [| apply NoDup_seqZ].
  intros x y _ _. apply dayKey_inj.
Qed.

End KeyFacts.

(** ** The projector *)

Section ProjectorFacts.
Import JSDate LinearReactView.

(** Outside the constructor's two-digit years, dropping the time of day gives
    the midnight of the same calendar day. *)
Lemma dateOnly_day d :
  twoDigitYear (getFullYear d) = false -> dateOnly d = MakeDate (Day d) 0.
Proof.
  intros H. unfold dateOnly, newDate, MakeFullYear. rewrite H.
  unfold getFullYear, getMonth, getDate. rewrite MakeDay_roundtrip. reflexivity.
Qed.

Lemma isLeast_single y : isLeast y [y].
Proof.
  split; [apply list_elem_of_singleton; done |].
  intros z Hz. apply list_elem_of_singleton in Hz. lia.
Qed.

Lemma isLeast_snoc lo ys y : isLeast lo ys -> isLeast (Z.min lo y) (ys ++ [y]).
Proof.
  intros [Hin Hle]. split.
  - apply elem_of_app. destruct (Z.min_spec lo y) as [[_ ->] | [_ ->]].
    + by left.
    + right. by apply list_elem_of_singleton.
  - intros z Hz. apply elem_of_app in Hz as [Hz | Hz].
    + specialize (Hle z Hz). lia.
    + apply list_elem_of_singleton in Hz. lia.
Qed.

Lemma isGreatest_single y : isGreatest y [y].
Proof.
  split; [apply list_elem_of_singleton; done |].
  intros z Hz. apply list_elem_of_singleton in Hz. lia.
Qed.

Lemma isGreatest_snoc hi ys y :
  isGreatest hi ys -> isGreatest (Z.max hi y) (ys ++ [y]).
Proof.
  intros [Hin Hle]. split.
  - apply elem_of_app. destruct (Z.max_spec hi y) as [[_ ->] | [_ ->]].
    + right. by apply list_elem_of_singleton.
    + by left.
  - intros z Hz. apply elem_of_app in Hz as [Hz | Hz].
    + specialize (Hle z Hz). lia.
    + apply list_elem_of_singleton in Hz. lia.
Qed.

Lemma contributedYears_cons e es :
  contributedYears (e :: es)
  = (if projected e then entryYears e else []) ++ contributedYears es.
Proof.
  unfold contributedYears. destruct (projected e) eqn:Hp.
  - rewrite filter_cons_True by done. reflexivity.
  - rewrite filter_cons_False by (rewrite Hp; discriminate). reflexivity.
Qed.

Lemma projectEntry_skip st e :
  rangeEnd e < rangeStart e -> projectEntry st e = Some st.
Proof.
  intros H. unfold projectEntry.
  destruct (Z.ltb_spec (rangeEnd e) (rangeStart e)); [reflexivity | lia].
Qed.

Lemma projected_true e : projected e = true <-> rangeStart e <= rangeEnd e.
Proof.
  unfold projected. destruct (Z.ltb_spec (rangeEnd e) (rangeStart e));
    cbn [negb]; split; (lia || done).
Qed.

Lemma projected_false e : projected e = false <-> rangeEnd e < rangeStart e.
Proof.
  unfold projected. destruct (Z.ltb_spec (rangeEnd e) (rangeStart e));
    cbn [negb]; split; (lia || done).
Qed.

(** One turn of the loop over the entries: it always ends, files a projected
    entry under the keys of its days, and extends the year bounds by the
    entry's years. *)
Lemma projectEntry_step st e ys :
  boundsOf st ys ->
  exists st',
    projectEntry st e = Some st'
    /\ boundsOf st' (ys ++ (if projected e then entryYears e else []))
    /\ forall k x,
         x ∈ occupants (map st') k
         <-> x ∈ occupants (map st) k
             \/ (x = e /\ projected e = true /\ k ∈ calendarDayKeys e).
Proof.
  intros Hb. destruct (projected e) eqn:Hp.
  - apply projected_true in Hp as Hle.
    destruct (walk_range e (map st) Hle) as (m' & Hw & Hocc).
    unfold projectEntry.
    destruct (Z.ltb_spec (rangeEnd e) (rangeStart e)); [lia |].
    rewrite Hw.
    assert (Hmin : isLeast
              match minYear st with
              | Some y => Z.min y (getFullYear (startDate e))
              | None => getFullYear (startDate e)
              end (ys ++ [getFullYear (startDate e)])).
    { unfold boundsOf in Hb.
      destruct (minYear st), (maxYear st); try done.
      - apply isLeast_snoc, Hb.
      - subst ys. apply isLeast_single. }
    assert (Hmax : isGreatest
              match maxYear st with
              | Some y => Z.max y (getFullYear (startDate e))
              | None => getFullYear (startDate e)
              end (ys ++ [getFullYear (startDate e)])).
    { unfold boundsOf in Hb.
      destruct (minYear st), (maxYear st); try done.
      - apply isGreatest_snoc, Hb.
      - subst ys. apply isGreatest_single. }
    unfold entryYears.
    destruct (endDate e) as [ed |]; eexists; (split; [reflexivity |]); split.
    + unfold boundsOf; cbn.
      replace (ys ++ [getFullYear (startDate e); getFullYear ed])
        with ((ys ++ [getFullYear (startDate e)]) ++ [getFullYear ed])
        by (rewrite <- app_assoc; reflexivity).
      split; [by apply isLeast_snoc | by apply isGreatest_snoc].
    + intros k x; cbn. rewrite Hocc. intuition auto.
    + unfold boundsOf; cbn. done.
    + intros k x; cbn. rewrite Hocc. intuition auto.
  - apply projected_false in Hp as Hlt.
    exists st. split; [by apply projectEntry_skip |].
    rewrite app_nil_r. split; [done |]. intros k x.
    intuition discriminate.
Qed.

Lemma projectEntries_steps es : forall st ys,
  boundsOf st ys ->
  exists st',
    projectEntries st es = Some st'
    /\ boundsOf st' (ys ++ contributedYears es)
    /\ forall k x,
         x ∈ occupants (map st') k
         <-> x ∈ occupants (map st) k
             \/ (x ∈ es /\ projected x = true /\ k ∈ calendarDayKeys x).
Proof.
  induction es as [| e es IH]; intros st ys Hb.
  - exists st. split; [reflexivity |]. rewrite app_nil_r. split; [done |].
    intros k x. split; [auto | intros [H | (H & _)]; [done |]].
    by apply elem_of_nil in H.
  - destruct (projectEntry_step st e ys Hb) as (st1 & H1 & Hb1 & Ho1).
    destruct (IH st1 _ Hb1) as (st' & H' & Hb' & Ho').
    exists st'. cbn [projectEntries]. rewrite H1. split; [done |].
    rewrite contributedYears_cons, app_assoc. split; [done |].
    intros k x. rewrite Ho', Ho1, elem_of_cons.
    intuition (subst; auto).
Qed.

Lemma projectEntries_app l1 : forall st l2,
  projectEntries st (l1 ++ l2)
  = match projectEntries st l1 with
    | Some st' => projectEntries st' l2
    | None => None
    end.
Proof.
  induction l1 as [| e l1 IH]; intros st l2; cbn [projectEntries app];
    [reflexivity |].
  destruct (projectEntry st e); [apply IH | reflexivity].
Qed.

(** An entry that ends before it starts leaves the whole projection as it is
    without that entry. *)
Lemma project_skip thisYear l1 e l2 :
  rangeEnd e < rangeStart e ->
  project thisYear (l1 ++ e :: l2) = project thisYear (l1 ++ l2).
Proof.
  intros H. unfold project. rewrite !projectEntries_app.
  destruct (projectEntries initState l1) as [st |]; [| reflexivity].
  cbn [projectEntries]. rewrite projectEntry_skip by done. reflexivity.
Qed.

Lemma occupants_empty k : occupants ∅ k = [].
Proof. unfold occupants. rewrite lookup_empty. reflexivity. Qed.

(** The projection of a list of entries: it is always produced; its map
    holds, under each key, the projected entries whose days include that
    key's day; its years run between the bounds of the contributed years. *)
Lemma project_spec thisYear es :
  exists p,
    project thisYear es = Some p
    /\ (forall k x,
          x ∈ occupants (entriesByDate p) k
          <-> x ∈ es /\ projected x = true /\ k ∈ calendarDayKeys x)
    /\ (contributedYears es = [] -> years p = [thisYear])
    /\ (contributedYears es <> [] ->
        exists lo hi,
          isLeast lo (contributedYears es)
          /\ isGreatest hi (contributedYears es)
          /\ years p = seqZ lo (hi - lo + 1)).
Proof.
  destruct (projectEntries_steps es initState [] eq_refl)
    as (st & Hst & Hb & Ho).
  unfold project. rewrite Hst. eexists. split; [reflexivity |].
  cbn [entriesByDate years]. split; [| split].
  - intros k x. rewrite Ho, occupants_empty. split.
    + intros [H | H]; [by apply elem_of_nil in H | done].
    + auto.
  - intros Hnil. cbn [app] in Hb. rewrite Hnil in Hb. unfold boundsOf in Hb.
    destruct (minYear st), (maxYear st); try done.
    + destruct Hb as [[Hin _] _]. by apply elem_of_nil in Hin.
    + cbn. unfold yearList. replace (thisYear - thisYear + 1) with 1 by lia.
      reflexivity.
  - intros Hne. cbn [app] in Hb. unfold boundsOf in Hb.
    destruct (minYear st) as [lo |], (maxYear st) as [hi |]; try done.
    exists lo, hi. destruct Hb as [Hlo Hhi]. done.
Qed.

End ProjectorFacts.

(** ** Year navigation *)

Section NavigationFacts.
Import JSDate LinearReactView.

Lemma indexOfFrom_seqZ (n : nat) : forall i lo c,
  indexOfFrom i (seqZ lo (Z.of_nat n)) c
  = if (lo <=? c) && (c <? lo + Z.of_nat n) then i + (c - lo) else -1.
Proof.
  induction n as [| n IH]; intros i lo c.
  - rewrite seqZ_nil by lia. cbn [indexOfFrom]. case_match; lia.
  - rewrite seqZ_cons by lia. cbn [indexOfFrom].
    replace (Z.pred (Z.of_nat (S n))) with (Z.of_nat n) by lia.
    rewrite IH. repeat case_match; lia.
Qed.

Lemma indexOf_yearList lo hi c :
  lo <= hi ->
  indexOf (yearList lo hi) c = if (lo <=? c) && (c <=? hi) then c - lo else -1.
Proof.
  intros H. unfold indexOf, yearList.
  replace (hi - lo + 1) with (Z.of_nat (Z.to_nat (hi - lo + 1))) by lia.
  rewrite indexOfFrom_seqZ. repeat case_match; lia.
Qed.

(** The previous button steps one year down, but not below the first year
    of the list, and does nothing for a year outside the list. *)
Lemma goPrevYear_yearList lo hi c :
  lo <= hi ->
  goPrevYear (yearList lo hi) c = if (lo <? c) && (c <=? hi) then c - 1 else c.
Proof.
  intros H. unfold goPrevYear. rewrite indexOf_yearList by done.
  destruct ((lo <? c) && (c <=? hi)) eqn:E.
  - replace ((lo <=? c) && (c <=? hi)) with true by lia.
    replace (0 <? c - lo) with true by lia.
    unfold yearList. rewrite lookup_seqZ_lt by lia. cbn [from_option id]. lia.
  - repeat case_match; try lia; reflexivity.
Qed.

(** The next button steps one year up, but not above the last year of the
    list, and does nothing for a year outside the list. *)
Lemma goNextYear_yearList lo hi c :
  lo <= hi ->
  goNextYear (yearList lo hi) c = if (lo <=? c) && (c <? hi) then c + 1 else c.
Proof.
  intros H. unfold goNextYear. rewrite indexOf_yearList by done.
  unfold yearList at 1. rewrite length_seqZ.
  destruct ((lo <=? c) && (c <? hi)) eqn:E.
  - replace ((lo <=? c) && (c <=? hi)) with true by lia.
    replace (negb (c - lo =? -1)
             && (c - lo <? Z.of_nat (Z.to_nat (hi - lo + 1)) - 1))
      with true by lia.
    unfold yearList. rewrite lookup_seqZ_lt by lia. cbn [from_option id]. lia.
  - repeat case_match; try lia; reflexivity.
Qed.

Lemma initialYear_yearList lo hi thisYear :
  lo <= hi -> lo <= initialYear (yearList lo hi) thisYear <= hi.
Proof.
  intros H. unfold initialYear, includes. rewrite indexOf_yearList by done.
  unfold yearList. rewrite seqZ_cons by lia. repeat case_match; lia.
Qed.

Lemma isLeast_le_isGreatest lo hi ys : isLeast lo ys -> isGreatest hi ys -> lo <= hi.
Proof. intros [Hin _] [_ Hle]. by apply Hle. Qed.

End NavigationFacts.

(** ** Claims on the projector *)

Section ProjectorClaims.
Import JSDate LinearReactView.



(** C2: an entry whose date-only end is strictly before its date-only start
    is skipped: the projection is still produced, the entry is in no bucket,
    and the projection is the one of the list without the entry, so the
    buckets of the other entries are unchanged. *)
Theorem reversed_entry_in_no_bucket thisYear l1 e l2 :
  rangeEnd e < rangeStart e ->
  exists p,
    project thisYear (l1 ++ e :: l2) = Some p
    /\ (forall k, e ∉ occupants (entriesByDate p) k)
    /\ project thisYear (l1 ++ l2) = Some p.
Proof.
  intros Hlt.
  destruct (project_spec thisYear (l1 ++ e :: l2)) as (p & Hp & Hocc & _).
  exists p. split; [exact Hp |]. split.
  - intros k Hin. apply Hocc in Hin as (_ & Hproj & _).
    apply projected_false in Hlt. congruence.
  - rewrite <- Hp. symmetry. by apply project_skip.
Qed.

Lemma reversed_entry_sample :
  exists p,
    project 2026 ([Samples.trip] ++ Samples.reversed :: [Samples.meeting])
      = Some p
    /\ (forall k, Samples.reversed ∉ occupants (entriesByDate p) k)
    /\ project 2026 ([Samples.trip] ++ [Samples.meeting]) = Some p.
Proof.
  apply (reversed_entry_in_no_bucket 2026 [Samples.trip] Samples.reversed
           [Samples.meeting]).
  vm_compute. reflexivity.
Defined.

(** C10: an entry whose date-only end is strictly before its date-only start
    adds nothing to the year bounds either: the list of years, and with it
    the reach of the navigation buttons, is the one computed without the
    entry. *)
Theorem reversed_entry_adds_no_year thisYear l1 e l2 :
  rangeEnd e < rangeStart e ->
  exists p p',
    project thisYear (l1 ++ e :: l2) = Some p
    /\ project thisYear (l1 ++ l2) = Some p'
    /\ years p = years p'
    /\ contributedYears (l1 ++ e :: l2) = contributedYears (l1 ++ l2)
    /\ (forall c, goPrevYear (years p) c = goPrevYear (years p') c)
    /\ (forall c, goNextYear (years p) c = goNextYear (years p') c).
Proof.
  intros Hlt.
  destruct (project_spec thisYear (l1 ++ l2)) as (p' & Hp' & _).
  exists p', p'. rewrite project_skip by exact Hlt.
  split; [exact Hp' |]. split; [exact Hp' |]. split; [reflexivity |].
  split; [| split; reflexivity].
  unfold contributedYears. rewrite !filter_app, filter_cons_False; [done |].
  apply projected_false in Hlt. rewrite Hlt. discriminate.
Qed.

Lemma reversed_entry_year_sample :
  exists p p',
    project 2026 ([Samples.trip] ++ Samples.reversed :: []) = Some p
    /\ project 2026 ([Samples.trip] ++ []) = Some p'
    /\ years p = [2025] /\ years p' = [2025].
Proof.
  destruct (reversed_entry_adds_no_year 2026 [Samples.trip] Samples.reversed [])
    as (p & p' & Hp & Hp' & Hy & _).
  - vm_compute. reflexivity.
  - exists p, p'. split; [exact Hp |]. split; [exact Hp' |].
    rewrite Hy. vm_compute in Hp'. injection Hp' as <-. split; reflexivity.
Defined.

(** C9: the years of the projection are the inclusive range from the least
    to the greatest year carried by the projected entries (year of the start
    date and, when present, of the end date), or the current year alone when
    no entry carries a year; the buttons move one year at a time inside this
    range and never leave it.  Entries that only start in 2024, with one from
    2023-12-30 to 2024-01-02, give the years 2023 and 2024. *)
Theorem year_span_and_navigation :
  (forall thisYear es,
     exists p lo hi,
       project thisYear es = Some p
       /\ years p = seqZ lo (hi - lo + 1)
       /\ lo <= hi
       /\ (contributedYears es = [] -> lo = thisYear /\ hi = thisYear)
       /\ (contributedYears es <> [] ->
           isLeast lo (contributedYears es)
           /\ isGreatest hi (contributedYears es))
       /\ (forall c,
             goPrevYear (years p) c
             = if (lo <? c) && (c <=? hi) then c - 1 else c)
       /\ (forall c,
             goNextYear (years p) c
             = if (lo <=? c) && (c <? hi) then c + 1 else c)
       /\ lo <= initialYear (years p) thisYear <= hi)
  /\ (years <$> project 2026 [Samples.meeting; Samples.newYear; Samples.review])
     = Some [2023; 2024].
Proof.
  split; [| vm_compute; reflexivity].
  intros thisYear es.
  destruct (project_spec thisYear es) as (p & Hp & _ & Hnil & Hne).
  destruct (contributedYears es) as [| y ys] eqn:Hys.
  - exists p, thisYear, thisYear. rewrite Hnil by done.
    split; [exact Hp |].
    split; [replace (thisYear - thisYear + 1) with 1 by lia; reflexivity |].
    split; [lia |].
    split; [done |]. split; [done |].
    assert (E : [thisYear] = yearList thisYear thisYear).
    { unfold yearList. replace (thisYear - thisYear + 1) with 1 by lia.
      reflexivity. }
    rewrite E.
    split; [| split].
    + intros c. apply goPrevYear_yearList. lia.
    + intros c. apply goNextYear_yearList. lia.
    + apply initialYear_yearList. lia.
  - destruct Hne as (lo & hi & Hlo & Hhi & Hy); [done |].
    pose proof (isLeast_le_isGreatest _ _ _ Hlo Hhi) as Hle.
    exists p, lo, hi. rewrite Hy.
    split; [exact Hp |]. split; [reflexivity |]. split; [exact Hle |].
    split; [done |]. split; [done |].
    fold (yearList lo hi).
    split; [| split].
    + intros c. by apply goPrevYear_yearList.
    + intros c. by apply goNextYear_yearList.
    + by apply initialYear_yearList.
Qed.

End ProjectorClaims.

(** ** The month grid *)

Section MonthGridFacts.
Import JSDate CalendarReactView CalendarView.

(** Dates of one calendar day have one date-only value. *)
Lemma dateOnly_same_day a b : Day a = Day b -> dateOnly a = dateOnly b.
Proof.
  intros H. unfold dateOnly, getFullYear, getMonth, getDate.
  unfold DateFromTime, MonthFromTime, DayWithinYear, YearFromTime.
  rewrite H. reflexivity.
Qed.

(** Outside the two-digit years, dates of different days have different
    date-only values. *)
Lemma dateOnly_other_day a b :
  twoDigitYear (getFullYear a) = false ->
  twoDigitYear (getFullYear b) = false ->
  Day a <> Day b -> dateOnly a <> dateOnly b.
Proof.
  intros Ha Hb Hne. rewrite !dateOnly_day by done. intros E.
  apply Hne. rewrite <- (Day_MakeDate (Day a)), E. apply Day_MakeDate.
Qed.

Lemma substring_all (s : string) : String.substring 0 (String.length s) s = s.
Proof. induction s as [| c s IH]; cbn; [reflexivity | by rewrite IH]. Qed.

Lemma extractNoteProp_noteProp name : extractNoteProp (noteProp name) = Some name.
Proof.
  unfold extractNoteProp, noteProp, JSString.startsWith, JSString.slice.
  rewrite !append_cons, append_empty. cbn [String.prefix].
  repeat (destruct (ascii_dec _ _) as [_ | Hne]; [| done]).
  replace (String.prefix "" name) with true by (by destruct name).
  cbn [String.length Nat.sub String.substring].
  rewrite Nat.sub_0_r. f_equal. apply substring_all.
Qed.

Lemma isSet_noteProp name : isSet (noteProp name) = true.
Proof. reflexivity. Qed.

Lemma truthy_nonempty s : s <> EmptyString -> JSString.truthy s = true.
Proof. by destruct s. Qed.

(** With both properties owned by the note, a drop with an end writes both. *)
Lemma updateEntryDates_both startName endName newStart newEnd fm :
  endName <> EmptyString ->
  updateEntryDates (noteProp startName) (noteProp endName) newStart
    (Some newEnd) fm
  = Some (<[endName := formatDate newEnd]>
            (<[startName := formatDate newStart]> fm)).
Proof.
  intros Hne. unfold updateEntryDates.
  rewrite !isSet_noteProp, !extractNoteProp_noteProp. cbn [negb orb andb].
  rewrite bool_decide_eq_true_2 by (by eexists).
  rewrite truthy_nonempty by done. reflexivity.
Qed.

(** A drop without an end writes the start property only. *)
Lemma updateEntryDates_start_only startName endProp newStart fm :
  endProp = None \/ (exists endName, endProp = noteProp endName) ->
  updateEntryDates (noteProp startName) endProp newStart None fm
  = Some (<[startName := formatDate newStart]> fm).
Proof.
  intros H. unfold updateEntryDates.
  rewrite isSet_noteProp, extractNoteProp_noteProp. cbn [negb].
  destruct H as [-> | (endName & ->)].
  - reflexivity.
  - rewrite isSet_noteProp, extractNoteProp_noteProp. cbn [negb orb].
    rewrite bool_decide_eq_true_2 by (by eexists). reflexivity.
Qed.

Lemma setDate_pred d : setDate d (getDate d - 1) = d - msPerDay.
Proof.
  replace (getDate d - 1) with (getDate d + -1) by lia.
  rewrite setDate_shift. lia.
Qed.

(** The written text depends on the calendar day only. *)
Lemma formatDate_day d : formatDate d = formatDate (MakeDate (Day d) 0).
Proof.
  unfold formatDate, getFullYear, getMonth, getDate.
  unfold DateFromTime, MonthFromTime, DayWithinYear, YearFromTime.
  rewrite Day_MakeDate. reflexivity.
Qed.

Lemma yearText_shape y :
  1000 <= y <= 9999 ->
  exists a b c d,
    JSString.ofInt y = String a (String b (String c (String d EmptyString)))
    /\ JSNumber.digitsValue 10 0
         (String a (String b (String c (String d EmptyString)))) = Some y.
Proof.
  intros Hy.
  pose proof (forallb_seqZ Host.yearTextReads 1000 9000
                ltac:(vm_compute; reflexivity) y ltac:(lia)) as H.
  unfold Host.yearTextReads in H.
  destruct (JSString.ofInt y) as [| a [| b [| c [| d [| ? ?]]]]]; try done.
  exists a, b, c, d. split; [reflexivity |].
  destruct (JSNumber.digitsValue 10 0 _) as [v |]; [| done].
  f_equal. lia.
Qed.

Lemma twoChars_shape n :
  1 <= n <= 31 ->
  exists a b,
    LinearReactView.twoChars n = String a (String b EmptyString)
    /\ JSNumber.digitsValue 10 0 (String a (String b EmptyString)) = Some n.
Proof.
  intros Hn.
  pose proof (forallb_seqZ Host.twoCharsReads 1 31
                ltac:(vm_compute; reflexivity) n ltac:(lia)) as H.
  unfold Host.twoCharsReads in H.
  destruct (LinearReactView.twoChars n) as [| a [| b [| ? ?]]]; try done.
  exists a, b. split; [reflexivity |].
  destruct (JSNumber.digitsValue 10 0 _) as [v |]; [| done].
  f_equal. lia.
Qed.

(** A date written with a four-digit year has the shape YYYY-MM-DD and is
    read back as the midnight of its calendar day. *)
Lemma readDate_formatDate d :
  fourDigitYear d ->
  String.length (formatDate d) = 10%nat
  /\ Host.readDate (formatDate d) = Some (MakeDate (Day d) 0).
Proof.
  intros Hy. unfold fourDigitYear in Hy.
  pose proof (MonthFromTime_range d) as Hm.
  pose proof (DateFromTime_range d) as Hd.
  destruct (yearText_shape _ Hy) as (y1 & y2 & y3 & y4 & Ey & Vy).
  destruct (twoChars_shape (getMonth d + 1) ltac:(unfold getMonth; lia))
    as (m1 & m2 & Em & Vm).
  destruct (twoChars_shape (getDate d) ltac:(unfold getDate; lia))
    as (d1 & d2 & Ed & Vd).
  assert (E : formatDate d
              = String y1 (String y2 (String y3 (String y4 (String "-"
                  (String m1 (String m2 (String "-"
                    (String d1 (String d2 EmptyString)))))))))).
  { unfold formatDate. fold (LinearReactView.twoChars (getMonth d + 1)).
    fold (LinearReactView.twoChars (getDate d)).
    rewrite Ey, Em, Ed. reflexivity. }
  rewrite E. split; [reflexivity |].
  unfold Host.readDate. rewrite Vy, Vm, Vd.
  replace (getMonth d + 1 - 1) with (getMonth d) by lia.
  unfold getFullYear, getMonth, getDate. rewrite MakeDay_roundtrip.
  reflexivity.
Qed.

End MonthGridFacts.

Section MonthGridClaims.
Import JSDate CalendarReactView CalendarView.

(** C3: the end handed to the month-grid widget.  An entry without an end
    date gets no end; an entry whose end date is on the calendar day of its
    start date gets no end either; an entry whose date-only end differs from
    its date-only start gets its end date plus one day, at the same time of
    day.  Outside the constructor's two-digit years, an end on a later
    calendar day than the start is such a differing end. *)
Theorem widget_end_is_exclusive calEntry :
  start (toEvent calEntry) = startDate calEntry
  /\ originalEndDate (toEvent calEntry) = endDate calEntry
  /\ (endDate calEntry = None -> end_ (toEvent calEntry) = None)
  /\ (forall ed, endDate calEntry = Some ed ->
        Day (startDate calEntry) = Day ed ->
        end_ (toEvent calEntry) = None)
  /\ (forall ed, endDate calEntry = Some ed ->
        dateOnly (startDate calEntry) <> dateOnly ed ->
        end_ (toEvent calEntry) = Some (ed + msPerDay)
        /\ Day (ed + msPerDay) = Day ed + 1
        /\ TimeWithinDay (ed + msPerDay) = TimeWithinDay ed)
  /\ (forall ed, endDate calEntry = Some ed ->
        twoDigitYear (getFullYear (startDate calEntry)) = false ->
        twoDigitYear (getFullYear ed) = false ->
        Day (startDate calEntry) < Day ed ->
        dateOnly (startDate calEntry) <> dateOnly ed).
Proof.
  split; [reflexivity |]. split; [reflexivity |].
  cbn [toEvent end_]. unfold adjustedEndDate.
  split; [| split; [| split]].
  - intros ->. reflexivity.
  - intros ed -> Hday. rewrite (dateOnly_same_day _ _ Hday).
    unfold getTime. rewrite Z.eqb_refl. reflexivity.
  - intros ed -> Hne. unfold getTime, copy.
    destruct (Z.eqb_spec (dateOnly (startDate calEntry)) (dateOnly ed));
      [done |].
    rewrite setDate_shift. split; [f_equal; lia |].
    split.
    + replace (ed + msPerDay) with (ed + 1 * msPerDay) by lia.
      apply Day_shift.
    + unfold TimeWithinDay.
      replace (ed + msPerDay) with (ed + 1 * msPerDay) by lia.
      apply Z.mod_add. discriminate.
  - intros ed _ Hs He Hlt. apply dateOnly_other_day; [done | done | lia].
Qed.

(** The sample entry from 2025-03-10 09:00 to 2025-03-12 17:00 is shown to
    the widget with the end 2025-03-13 17:00. *)
Lemma widget_end_sample :
  end_ (toEvent {| entry := Samples.conference;
                   startDate := newDate 2025 2 10 + 9 * Samples.hour;
                   endDate := Some (newDate 2025 2 12 + 17 * Samples.hour) |})
  = Some (newDate 2025 2 13 + 17 * Samples.hour).
Proof. vm_compute. reflexivity. Qed.

(** C4: round trip of a drag in the month view.  For a dragged event that had
    an end date, when the widget reports the new start and, as exclusive end,
    the day after the new last day, the handler asks to persist the new start
    and the new last day itself; with both properties owned by the note the
    front matter then holds both dates as text that depends on the calendar
    day only (no time of day), and no other property changes.  For a year of
    four digits the text has the ten characters of YYYY-MM-DD and is read
    back as the midnight of the same day: as the very date reported when
    that is at midnight. *)
Theorem drag_round_trip startName endName e originalEnd newStart newLast fm :
  endName <> EmptyString ->
  startName <> endName ->
  let dropInfo :=
    {| dropEntry := e;
       dropOriginalEndDate := Some originalEnd;
       dropStart := Some newStart;
       dropEnd := Some (newLast + msPerDay) |} in
  handleEventDrop true dropInfo = Dispatch e newStart (Some newLast)
  /\ exists fm',
       persistDrop (noteProp startName) (noteProp endName) dropInfo fm
         = Some fm'
       /\ fm' !! startName = Some (formatDate newStart)
       /\ fm' !! endName = Some (formatDate newLast)
       /\ (forall k, k <> startName -> k <> endName -> fm' !! k = fm !! k)
       /\ (forall d, formatDate d = formatDate (MakeDate (Day d) 0))
       /\ (forall d,
             fourDigitYear d ->
             String.length (formatDate d) = 10%nat
             /\ Host.readDate (formatDate d) = Some (MakeDate (Day d) 0)
             /\ (TimeWithinDay d = 0 -> Host.readDate (formatDate d) = Some d)).
Proof.
  intros Hne Hdiff dropInfo.
  assert (Hd : handleEventDrop true dropInfo = Dispatch e newStart (Some newLast)).
  { unfold handleEventDrop, dropInfo, actualEndDate, copy.
    cbn [negb dropStart dropEntry dropOriginalEndDate dropEnd].
    rewrite setDate_pred. do 2 f_equal. lia. }
  split; [exact Hd |].
  eexists. split.
  { unfold persistDrop. rewrite Hd. by apply updateEntryDates_both. }
  split; [rewrite lookup_insert_ne by done; apply lookup_insert_eq |].
  split; [apply lookup_insert_eq |].
  split; [intros k Hk1 Hk2; by rewrite !lookup_insert_ne |].
  split; [apply formatDate_day |].
  intros d Hy. destruct (readDate_formatDate _ Hy) as [L R].
  split; [exact L |]. split; [exact R |].
  intros Hmid. rewrite R. f_equal. symmetry. by apply midnight_MakeDate.
Qed.

(** The conference dropped onto 2025-03-12 .. 2025-03-14: the store receives
    the two date-only texts. *)
Lemma drag_round_trip_sample :
  handleEventDrop true Samples.conferenceDrop
    = Dispatch Samples.conference (newDate 2025 2 12) (Some (newDate 2025 2 14))
  /\ exists fm',
       persistDrop (noteProp "start") (noteProp "end") Samples.conferenceDrop ∅
         = Some fm'
       /\ fm' !! "start"%string = Some "2025-03-12"%string
       /\ fm' !! "end"%string = Some "2025-03-14"%string
       /\ Host.readDate "2025-03-12" = Some (newDate 2025 2 12)
       /\ Host.readDate "2025-03-14" = Some (newDate 2025 2 14).
Proof.
  destruct (drag_round_trip "start" "end" Samples.conference
              (newDate 2025 2 7) (newDate 2025 2 12) (newDate 2025 2 14) ∅)
    as (Hd & fm' & Hp & Hs & He & _ & _ & Hr).
  - discriminate.
  - discriminate.
  - split; [exact Hd |]. exists fm'. split; [exact Hp |].
    split; [exact Hs |]. split; [exact He |].
    split.
    + apply (Hr (newDate 2025 2 12)); vm_compute; [split; discriminate | reflexivity].
    + apply (Hr (newDate 2025 2 14)); vm_compute; [split; discriminate | reflexivity].
Defined.

(** C5, as stated, fails: the drop of a single-day event whose end date is
    its start day also writes the end-date property. *)
Lemma single_day_drop_writes_end : ~ singleDayDropWritesStartOnly.
Proof.
  intros H.
  specialize (H "start"%string "end"%string Samples.dayNote
                (newDate 2025 2 10) (newDate 2025 2 10) (newDate 2025 2 12) ∅
                ltac:(discriminate) ltac:(discriminate) eq_refl).
  unfold persistDrop, singleDayDrop, handleEventDrop, actualEndDate, copy in H.
  cbn [negb dropStart dropEntry dropOriginalEndDate dropEnd] in H.
  rewrite updateEntryDates_both in H by discriminate.
  apply (f_equal (fun o : option FrontMatter =>
                    match o with Some m => m !! "end"%string | None => None end))
    in H.
  rewrite lookup_insert_eq, lookup_insert_ne, lookup_empty in H by discriminate.
  discriminate.
Qed.

(** C5, amended: the drop of a single-day event onto a new day writes the
    start-date property; it writes nothing else when the entry had no end
    date or no end-date property is configured; when the entry had an end
    date and the end-date property is configured, it also writes the
    end-date property, with the new start day. *)
Theorem single_day_drop_persistence startName endProp e newStart fm :
  endProp = None
  \/ (exists endName, endProp = noteProp endName /\ endName <> EmptyString) ->
  persistDrop (noteProp startName) endProp (singleDayDrop e None newStart) fm
    = Some (<[startName := formatDate newStart]> fm)
  /\ (forall originalEnd,
        endProp = None ->
        persistDrop (noteProp startName) endProp
          (singleDayDrop e originalEnd newStart) fm
        = Some (<[startName := formatDate newStart]> fm))
  /\ (forall originalEnd endName,
        endProp = noteProp endName ->
        persistDrop (noteProp startName) endProp
          (singleDayDrop e (Some originalEnd) newStart) fm
        = Some (<[endName := formatDate newStart]>
                  (<[startName := formatDate newStart]> fm))).
Proof.
  intros Hprop.
  unfold persistDrop, singleDayDrop, handleEventDrop, actualEndDate, copy.
  cbn [negb dropStart dropEntry dropOriginalEndDate dropEnd].
  split; [| split].
  - apply updateEntryDates_start_only.
    destruct Hprop as [-> | (endName & -> & _)]; [by left | right; by eexists].
  - intros originalEnd ->. unfold updateEntryDates.
    rewrite isSet_noteProp, extractNoteProp_noteProp. cbn.
    destruct originalEnd; reflexivity.
  - intros originalEnd endName ->.
    destruct Hprop as [Hn | (endName' & Heq & Hne)]; [discriminate |].
    injection Heq as Heq. change (endName = endName') in Heq.
    subst endName'. by apply updateEntryDates_both.
Qed.

Lemma single_day_drop_sample :
  persistDrop (noteProp "start") (noteProp "end")
    (singleDayDrop Samples.dayNote None (newDate 2025 2 12)) ∅
  = Some {[ "start"%string := "2025-03-12"%string ]}
  /\ persistDrop (noteProp "start") (noteProp "end")
       (singleDayDrop Samples.dayNote (Some (newDate 2025 2 10))
          (newDate 2025 2 12)) ∅
     = Some (<[ "end"%string := "2025-03-12"%string ]>
               {[ "start"%string := "2025-03-12"%string ]}).
Proof.
  destruct (single_day_drop_persistence "start" (noteProp "end")
              Samples.dayNote (newDate 2025 2 12) ∅) as (H1 & _ & H3).
  - right. exists "end"%string. split; [reflexivity | discriminate].
  - split; [exact H1 |]. exact (H3 (newDate 2025 2 10) "end"%string eq_refl).
Defined.

End MonthGridClaims.

(** ** The weekday-aligned layout *)

Section AlignedFacts.
Import JSDate LinearReactView.

(** [Math.ceil(n / 7)] on an integer [n]. *)
Lemma ceil_sevenths n : Qceiling (inject_Z n / 7) = (n + 6) / 7.
Proof.
  unfold Qceiling, Qfloor, Qdiv, Qmult, Qinv, Qopp, inject_Z.
  cbn [Qnum Qden Pos.mul]. Z.div_mod_to_equations. lia.
Qed.

Lemma totalSlots_monthSlot y m :
  totalSlots (monthSlot y m)
  = (firstWeekday (monthSlot y m) + days (monthSlot y m) + 6) / 7 * 7.
Proof. unfold monthSlot. cbn [totalSlots firstWeekday days]. by rewrite ceil_sevenths. Qed.

Lemma monthSlot_ranges y m :
  0 <= firstWeekday (monthSlot y m) <= 6 /\ 1 <= days (monthSlot y m) <= 31.
Proof.
  unfold monthSlot. cbn [firstWeekday days]. split.
  - unfold getDay, WeekDay. Z.div_mod_to_equations. lia.
  - apply DateFromTime_range.
Qed.

Lemma fold_max_ge (l : list MonthSlot) : forall acc,
  acc <= fold_left (fun max m => Z.max max (totalSlots m)) l acc
  /\ forall m, m ∈ l ->
       totalSlots m <= fold_left (fun max m => Z.max max (totalSlots m)) l acc.
Proof.
  induction l as [| a l IH]; intros acc; cbn [fold_left].
  - split; [lia |]. intros m Hm. by apply elem_of_nil in Hm.
  - destruct (IH (Z.max acc (totalSlots a))) as [H1 H2]. split; [lia |].
    intros m Hm. apply elem_of_cons in Hm as [-> | Hm]; [lia | by apply H2].
Qed.

Lemma fold_max_attained (l : list MonthSlot) : forall acc,
  fold_left (fun max m => Z.max max (totalSlots m)) l acc = acc
  \/ exists m, m ∈ l
       /\ fold_left (fun max m => Z.max max (totalSlots m)) l acc = totalSlots m.
Proof.
  induction l as [| a l IH]; intros acc; cbn [fold_left]; [by left |].
  destruct (IH (Z.max acc (totalSlots a))) as [H | (m & Hm & H)].
  - rewrite H. destruct (Z.max_spec acc (totalSlots a)) as [[_ ->] | [_ ->]].
    + right. exists a. split; [apply list_elem_of_here | reflexivity].
    + by left.
  - right. exists m. split; [by apply list_elem_of_further | exact H].
Qed.

Lemma elem_of_monthSlots y meta :
  meta ∈ monthSlots y <-> exists m, 0 <= m < 12 /\ meta = monthSlot y m.
Proof.
  unfold monthSlots. rewrite list_elem_of_fmap. split.
  - intros (m & -> & Hm). apply elem_of_seqZ in Hm. exists m. split; [lia | done].
  - intros (m & Hm & ->). exists m. split; [done |]. apply elem_of_seqZ. lia.
Qed.

Lemma lookup_monthSlots y m :
  0 <= m < 12 -> monthSlots y !! Z.to_nat m = Some (monthSlot y m).
Proof.
  intros Hm. unfold monthSlots. rewrite list_lookup_fmap.
  rewrite lookup_seqZ_lt by lia. cbn. f_equal. f_equal. lia.
Qed.

End AlignedFacts.

Section AlignedClaims.
Import JSDate LinearReactView.

(** Weekdays count from Sunday: 2025-11-02 was a Sunday, 2025-11-08 a
    Saturday, and February has 29 days in 2024 and 28 in 2025 and in 1900. *)
Lemma weekday_and_month_length_samples :
  getDay (newDate 2025 10 2) = 0 /\ getDay (newDate 2025 10 8) = 6
  /\ daysInMonth 2024 1 = 29 /\ daysInMonth 2025 1 = 28
  /\ daysInMonth 1900 1 = 28 /\ daysInMonth 2025 11 = 31.
Proof. vm_compute. repeat split; reflexivity. Qed.

(** C7: in the weekday-aligned layout of any year, every month has as its
    slot count the smallest multiple of 7 that is at least the weekday of its
    first day (Sunday = 0) plus its number of days; the twelve month rows are
    all drawn with one slot count, the greatest of the twelve; and in a row
    the slots from the month's own count on are padding drawn out of the
    month, the slots before it are the day cells shifted by the first
    weekday. *)
Theorem aligned_year_slot_counts currentYear :
  length (renderAlignedYear currentYear) = 12%nat
  /\ (exists m, 0 <= m < 12
        /\ maxSlots currentYear = totalSlots (monthSlot currentYear m))
  /\ forall m, 0 <= m < 12 ->
       let meta := monthSlot currentYear m in
       monthSlots currentYear !! Z.to_nat m = Some meta
       /\ renderAlignedYear currentYear !! Z.to_nat m
          = Some (monthRow currentYear m)
       /\ firstWeekday meta = getDay (newDate currentYear m 1)
       /\ 0 <= firstWeekday meta <= 6
       /\ days meta = daysInMonth currentYear m
       /\ (7 | totalSlots meta)
       /\ firstWeekday meta + days meta <= totalSlots meta
       /\ (forall k, (7 | k) -> firstWeekday meta + days meta <= k ->
             totalSlots meta <= k)
       /\ totalSlots meta <= maxSlots currentYear
       /\ length (monthRow currentYear m) = Z.to_nat (maxSlots currentYear)
       /\ (forall idx, totalSlots meta <= idx < maxSlots currentYear ->
             monthRow currentYear m !! Z.to_nat idx = Some (PadSlot idx)
             /\ outOfMonth (PadSlot idx) = true)
       /\ (forall idx, 0 <= idx < totalSlots meta ->
             monthRow currentYear m !! Z.to_nat idx
             = Some (CellSlot currentYear m (idx - firstWeekday meta + 1)
                       ((1 <=? idx - firstWeekday meta + 1)
                        && (idx - firstWeekday meta + 1 <=? days meta)))).
Proof.
  split; [unfold renderAlignedYear; by rewrite length_fmap, length_seqZ |].
  assert (Hpos : forall m, 0 < totalSlots (monthSlot currentYear m)).
  { intros m. rewrite totalSlots_monthSlot.
    pose proof (monthSlot_ranges currentYear m). Z.div_mod_to_equations. lia. }
  split.
  { unfold maxSlots.
    destruct (fold_max_attained (monthSlots currentYear) 0)
      as [H0 | (meta & Hin & H)].
    - exfalso.
      destruct (fold_max_ge (monthSlots currentYear) 0) as [_ Hge].
      specialize (Hge (monthSlot currentYear 0)).
      rewrite H0 in Hge. specialize (Hpos 0).
      assert (monthSlot currentYear 0 ∈ monthSlots currentYear)
        by (apply elem_of_monthSlots; exists 0; split; [lia | done]).
      specialize (Hge ltac:(done)). lia.
    - apply elem_of_monthSlots in Hin as (m & Hm & ->). by exists m. }
  intros m Hm meta. subst meta.
  pose proof (monthSlot_ranges currentYear m) as [Hfw Hdays].
  pose proof (lookup_monthSlots currentYear m Hm) as Hlk.
  assert (Hmax : totalSlots (monthSlot currentYear m) <= maxSlots currentYear).
  { unfold maxSlots. apply fold_max_ge, elem_of_monthSlots. by exists m. }
  split; [exact Hlk |].
  split.
  { unfold renderAlignedYear. rewrite list_lookup_fmap.
    rewrite lookup_seqZ_lt by lia. cbn. do 2 f_equal. lia. }
  split; [reflexivity |]. split; [exact Hfw |]. split; [reflexivity |].
  pose proof (Hpos m) as Hp.
  rewrite totalSlots_monthSlot in *.
  split; [apply Z.divide_factor_r |].
  split; [Z.div_mod_to_equations; lia |].
  split.
  { intros k [j ->] Hk. Z.div_mod_to_equations. lia. }
  split; [exact Hmax |].
  unfold monthRow. rewrite Hlk.
  split; [by rewrite length_fmap, length_seqZ |].
  split.
  - intros idx Hidx. rewrite list_lookup_fmap, lookup_seqZ_lt by lia.
    cbn [fmap option_fmap option_map]. unfold slotAt.
    rewrite totalSlots_monthSlot.
    replace (0 + Z.of_nat (Z.to_nat idx)) with idx by lia.
    destruct (Z.leb_spec
      ((firstWeekday (monthSlot currentYear m)
        + days (monthSlot currentYear m) + 6) / 7 * 7) idx); [done | lia].
  - intros idx Hidx. rewrite list_lookup_fmap, lookup_seqZ_lt by lia.
    cbn [fmap option_fmap option_map]. unfold slotAt.
    rewrite totalSlots_monthSlot.
    replace (0 + Z.of_nat (Z.to_nat idx)) with idx by lia.
    destruct (Z.leb_spec
      ((firstWeekday (monthSlot currentYear m)
        + days (monthSlot currentYear m) + 6) / 7 * 7) idx); [lia | done].
Qed.

End AlignedClaims.

(** ** Configuration options *)

Section OptionFacts.
Import JSNumber.



Lemma overlay_same cfg :
  LinearView.getOverlayOpacity cfg = CalendarView.getOverlayOpacity cfg.
Proof. reflexivity. Qed.



End OptionFacts.

Section OptionClaims.
Import JSNumber.


(** Numbers and numeric strings through the getter. *)
Lemma overlay_opacity_samples :
  let opacity v :=
    CalendarView.getOverlayOpacity {[ "propertyOverlayOpacity"%string := v ]} in
  same (opacity (Config.VNumber (Fin 35))) (Fin 0.35)
  /\ same (opacity (Config.VNumber (Fin 250))) (Fin 1)
  /\ same (opacity (Config.VString "-5")) (Fin 0)
  /\ same (opacity (Config.VString " 7e1 ")) (Fin 0.7)
  /\ same (opacity (Config.VString "")) (Fin 0)
  /\ same (opacity (Config.VNumber PosInf)) (Fin 1)
  /\ same (opacity (Config.VBoolean true)) (Fin 0.6)
  /\ same (opacity Config.VUndefined) (Fin 0.6)
  /\ same (opacity (Config.VNumber NaN)) (Fin 0.6).
Proof. vm_compute. repeat split; reflexivity. Qed.

(** C8: the weekend test of a day cell.  Unless both [alignWeekdays] and
    [highlightWeekends] are set in the configuration, the test of a cell is
    not run and no cell is marked as a weekend; with [alignWeekdays] off the
    [highlightWeekends] option handed to the year view is false whatever its
    configured value. *)
Theorem weekend_test_needs_both_flags cfg :
  LinearView.getBooleanConfig cfg "alignWeekdays" false
  && LinearView.getBooleanConfig cfg "highlightWeekends" false = false ->
  (LinearView.getBooleanConfig cfg "alignWeekdays" false = false ->
   LinearView.alignWeekdays (LinearView.loadConfig cfg) = false
   /\ LinearView.highlightWeekends (LinearView.loadConfig cfg) = false)
  /\ forall year month day valid,
       LinearView.cellTestRuns cfg valid = false
       /\ LinearView.cellIsWeekend cfg year month day valid = false.
Proof.
  intros Hflags. split.
  - intros Ha. unfold LinearView.loadConfig. cbn. rewrite Ha. done.
  - intros year month day valid.
    unfold LinearView.cellIsWeekend, LinearView.cellTestRuns,
      LinearReactView.isWeekend, LinearReactView.weekendTestRuns,
      LinearView.loadConfig.
    cbn [LinearView.alignWeekdays LinearView.highlightWeekends].
    destruct (LinearView.getBooleanConfig cfg "alignWeekdays" false);
      cbn [negb andb]; [| done].
    cbn [andb] in Hflags. rewrite Hflags. done.
Qed.

(** With [highlightWeekends] configured and [alignWeekdays] absent, no cell
    is a weekend, a Saturday included. *)
Lemma weekend_test_sample :
  let cfg : Config.t :=
    {[ "highlightWeekends"%string := Config.VBoolean true ]} in
  LinearView.highlightWeekends (LinearView.loadConfig cfg) = false
  /\ LinearView.cellIsWeekend cfg 2025 10 8 true = false.
Proof.
  intros cfg.
  destruct (weekend_test_needs_both_flags cfg) as [H1 H2].
  - vm_compute. reflexivity.
  - split.
    + apply H1. vm_compute. reflexivity.
    + apply (H2 2025 10 8 true).
Defined.

(** Beyond the claim: the guard of the cell also asks for [alignWeekdays] to
    be off, so with the options as loaded the test is run for no cell at
    all. *)
Lemma weekend_test_never_runs cfg year month day valid :
  LinearView.cellTestRuns cfg valid = false
  /\ LinearView.cellIsWeekend cfg year month day valid = false.
Proof.
  unfold LinearView.cellIsWeekend, LinearView.cellTestRuns,
    LinearReactView.isWeekend, LinearReactView.weekendTestRuns,
    LinearView.loadConfig.
  cbn [LinearView.alignWeekdays LinearView.highlightWeekends].
  destruct (LinearView.getBooleanConfig cfg "alignWeekdays" false);
    cbn [negb andb]; [| done].
  destruct (LinearView.getBooleanConfig cfg "highlightWeekends" false); done.
Qed.

End OptionClaims.

(** ** Remarks on the model's edges *)

Section Remarks.
Import JSDate LinearReactView.

(** The constructor's two-digit years show in the code's date-only values: a
    date in the year 50 is filed under a key of 1950.  The statements above
    are about the date-only values as computed, and relate them to the
    calendar day of the date outside the years 0..99 only. *)
Lemma dateOnly_two_digit_year :
  let d := MakeDate (MakeDay 50 2 30) 0 in
  keyOf d = "50-03-30"%string /\ keyOf (dateOnly d) = "1950-03-30"%string.
Proof. vm_compute. split; reflexivity. Qed.

(** The year is written without padding: four characters from the year 1000
    to the year 9999. *)
Lemma formatDate_short_year :
  CalendarView.formatDate (MakeDate (MakeDay 999 2 5) 0) = "999-03-05"%string
  /\ Host.readDate "999-03-05" = None.
Proof. vm_compute. split; reflexivity. Qed.

End Remarks.

(** * Further properties of the code *)

(** ** From year, month and day back to the fields of a date *)

(** Reduce [MonthStart] at a month given by a numeral. *)
Ltac month_table :=
  change (0 + 1) with 1 in *; change (1 + 1) with 2 in *;
  change (2 + 1) with 3 in *; change (3 + 1) with 4 in *;
  change (4 + 1) with 5 in *; change (5 + 1) with 6 in *;
  change (6 + 1) with 7 in *; change (7 + 1) with 8 in *;
  change (8 + 1) with 9 in *; change (9 + 1) with 10 in *;
  change (10 + 1) with 11 in *; change (11 + 1) with 12 in *;
  cbn [JSDate.MonthStart] in *.

Section CalendarInverse.
Import JSDate LinearReactView.

Lemma DayFromYear_mono a b : a <= b -> DayFromYear a <= DayFromYear b.
Proof. unfold DayFromYear. intros H. Z.div_mod_to_equations. lia. Qed.

Lemma DayFromYear_lt a b : a < b -> DayFromYear a < DayFromYear b.
Proof.
  intros H. pose proof (DayFromYear_mono (a + 1) b ltac:(lia)) as Hm.
  rewrite DayFromYear_succ in Hm.
  destruct (DaysInYear_cases a); lia.
Qed.

(** The year whose days contain [d] is the one [YearFromDay] finds. *)
Lemma YearFromDay_unique y d :
  DayFromYear y <= d < DayFromYear (y + 1) -> YearFromDay d = y.
Proof.
  intros H. pose proof (YearFromDay_spec d) as Hs.
  destruct (Z.lt_trichotomy (YearFromDay d) y) as [Hlt | [-> | Hgt]];
    [| reflexivity |].
  - pose proof (DayFromYear_mono (YearFromDay d + 1) y ltac:(lia)). lia.
  - pose proof (DayFromYear_mono (y + 1) (YearFromDay d) ltac:(lia)). lia.
Qed.

Lemma YearFromDay_mono d1 d2 : d1 <= d2 -> YearFromDay d1 <= YearFromDay d2.
Proof.
  intros H. pose proof (YearFromDay_spec d1) as H1.
  pose proof (YearFromDay_spec d2) as H2.
  destruct (Z.le_gt_cases (YearFromDay d1) (YearFromDay d2)) as [| Hgt];
    [done |].
  pose proof (DayFromYear_mono (YearFromDay d2 + 1) (YearFromDay d1)
                ltac:(lia)). lia.
Qed.

Lemma month_cases m :
  0 <= m <= 11 ->
  m = 0 \/ m = 1 \/ m = 2 \/ m = 3 \/ m = 4 \/ m = 5 \/ m = 6 \/ m = 7
  \/ m = 8 \/ m = 9 \/ m = 10 \/ m = 11.
Proof. lia. Qed.

Lemma monthLength_range leap m :
  0 <= leap <= 1 -> 0 <= m <= 11 -> 28 <= monthLength leap m <= 31.
Proof.
  intros Hl Hm. unfold monthLength.
  destruct (month_cases m Hm) as [-> | [-> | [-> | [-> | [-> | [-> | [-> |
    [-> | [-> | [-> | [-> | ->]]]]]]]]]]]; month_table; lia.
Qed.

(** A date made of a year, a month 0..11 and a day of that month has these
    as its fields. *)
Lemma fields_of_MakeDay y m d tv :
  0 <= m <= 11 ->
  1 <= d <= monthLength (InLeapYear y) m ->
  Day tv = MakeDay y m d ->
  getFullYear tv = y /\ getMonth tv = m /\ getDate tv = d.
Proof.
  intros Hm Hd Hday.
  assert (Hmk : MakeDay y m d = DayFromYear y + MonthStart (InLeapYear y) m + d - 1).
  { unfold MakeDay. rewrite Z.div_small, Z.mod_small, Z.add_0_r by lia.
    reflexivity. }
  pose proof (InLeapYear_cases y) as Hleap.
  assert (Hy : getFullYear tv = y).
  { unfold getFullYear, YearFromTime. rewrite Hday, Hmk.
    apply YearFromDay_unique. rewrite DayFromYear_succ, InLeapYear_days.
    unfold monthLength in Hd.
    destruct Hleap as [E | E]; rewrite E in *;
    destruct (month_cases m Hm) as [-> | [-> | [-> | [-> | [-> | [-> | [-> |
      [-> | [-> | [-> | [-> | ->]]]]]]]]]]]; month_table; lia. }
  assert (Hdw : DayWithinYear tv = MonthStart (InLeapYear y) m + d - 1).
  { unfold DayWithinYear. unfold getFullYear in Hy. rewrite Hy, Hday, Hmk. lia. }
  assert (Hmo : getMonth tv = m).
  { unfold getMonth, MonthFromTime. unfold getFullYear in Hy.
    rewrite Hy, Hdw. unfold MonthFromDayWithinYear, monthLength in *.
    destruct Hleap as [E | E]; rewrite E in *;
    destruct (month_cases m Hm) as [-> | [-> | [-> | [-> | [-> | [-> | [-> |
      [-> | [-> | [-> | [-> | ->]]]]]]]]]]]; month_table;
      repeat case_match; lia. }
  split; [exact Hy |]. split; [exact Hmo |].
  unfold getDate, DateFromTime. unfold getFullYear, getMonth in *.
  rewrite Hy, Hmo, Hdw. lia.
Qed.



(** The last day of a month is the day before the first of the next. *)
Lemma daysInMonth_monthLength year month :
  0 <= month <= 11 ->
  daysInMonth year month = monthLength (InLeapYear (MakeFullYear year)) month.
Proof.
  intros Hm. unfold daysInMonth, newDate.
  set (Y := MakeFullYear year).
  pose proof (InLeapYear_cases Y) as Hleap.
  assert (Hd : 1 <= monthLength (InLeapYear Y) month
               <= monthLength (InLeapYear Y) month).
  { pose proof (monthLength_range (InLeapYear Y) month ltac:(lia) Hm). lia. }
  apply (fields_of_MakeDay Y month _ _ Hm Hd).
  rewrite Day_MakeDate. unfold MakeDay, monthLength.
  destruct (Z.eq_dec month 11) as [-> | Hne].
  - change ((11 + 1) / 12) with 1. change ((11 + 1) mod 12) with 0.
    change (11 / 12) with 0. change (11 mod 12) with 11.
    rewrite DayFromYear_succ, InLeapYear_days.
    assert (E : InLeapYear (Y + 1) = 0 \/ InLeapYear (Y + 1) = 1)
      by apply InLeapYear_cases.
    rewrite !Z.add_0_r.
    destruct Hleap as [E1 | E1]; rewrite !E1; month_table; lia.
  - rewrite (Z.div_small (month + 1)), (Z.mod_small (month + 1)) by lia.
    rewrite (Z.div_small month), (Z.mod_small month) by lia.
    rewrite !Z.add_0_r. lia.
Qed.

End CalendarInverse.

(** ** Buckets in source order *)

Section BucketFacts.
Import JSDate LinearReactView.

Lemma lookup_pushEntry key e m k :
  pushEntry key e m !! k
  = if decide (key = k) then Some (occupants m key ++ [e]) else m !! k.
Proof.
  unfold occupants, pushEntry.
  destruct (m !! key) as [l |] eqn:Hk.
  - rewrite Hk. destruct (decide (key = k)) as [<- | Hne].
    + by rewrite lookup_insert_eq.
    + by rewrite lookup_insert_ne.
  - rewrite lookup_insert_eq. destruct (decide (key = k)) as [<- | Hne].
    + by rewrite lookup_insert_eq.
    + by rewrite !lookup_insert_ne.
Qed.

Lemma tidy_pushEntry key e m : tidy m -> tidy (pushEntry key e m).
Proof.
  intros Ht k. rewrite lookup_pushEntry. destruct (decide (key = k)); [| apply Ht].
  intros H. injection H as H. by destruct (occupants m key).
Qed.

Lemma tidy_pushDays e n : forall iter m, tidy m -> tidy (pushDays e iter n m).
Proof.
  induction n as [| n IH]; intros iter m Ht; cbn [pushDays]; [done |].
  apply IH. by apply tidy_pushEntry.
Qed.

(** In a map without empty bucket, a key is present exactly when it has
    occupants. *)
Lemma tidy_lookup m k :
  tidy m ->
  m !! k = match occupants m k with [] => None | l => Some l end.
Proof.
  intros Ht. unfold occupants. specialize (Ht k).
  destruct (m !! k) as [[| x l] |]; cbn; done.
Qed.

(** The occupants after the walk: the entry once more for each time the key
    was filed. *)
Lemma occupants_pushDays e n : forall iter m k,
  occupants (pushDays e iter n m) k
  = occupants m k
    ++ replicate (length (filter (fun key => key = k) (iterKeys iter n))) e.
Proof.
  induction n as [| n IH]; intros iter m k; cbn [pushDays iterKeys].
  - cbn. by rewrite app_nil_r.
  - rewrite IH, occupants_pushEntry.
    destruct (decide (keyOf iter = k)) as [E | E].
    + rewrite filter_cons_True by done. cbn [length replicate].
      rewrite <- app_assoc, E. reflexivity.
    + rewrite filter_cons_False by done. reflexivity.
Qed.

Lemma iterKeys_dayKeys n : forall d,
  iterKeys (MakeDate d 0) n = dayKey <$> seqZ d (Z.of_nat n).
Proof.
  induction n as [| n IH]; intros d; cbn [iterKeys].
  - reflexivity.
  - rewrite seqZ_cons by lia. cbn [fmap list_fmap].
    replace (Z.pred (Z.of_nat (S n))) with (Z.of_nat n) by lia.
    replace (MakeDate d 0 + msPerDay) with (MakeDate (Z.succ d) 0)
      by (unfold MakeDate; lia).
    rewrite IH. reflexivity.
Qed.

(** A key occurs at most once in a list without repetition. *)
Lemma filter_eq_NoDup (l : list string) k :
  NoDup l ->
  length (filter (fun key => key = k) l) = if decide (k ∈ l) then 1%nat else 0%nat.
Proof.
  induction 1 as [| x l Hx Hnd IH].
  - rewrite decide_False by apply not_elem_of_nil. reflexivity.
  - destruct (decide (x = k)) as [-> | Hne].
    + rewrite filter_cons_True by done. cbn [length].
      rewrite decide_True by apply list_elem_of_here.
      rewrite IH, decide_False by done. reflexivity.
    + rewrite filter_cons_False by done. rewrite IH.
      destruct (decide (k ∈ l)) as [Hin | Hin].
      * rewrite decide_True by (by apply list_elem_of_further). reflexivity.
      * rewrite decide_False; [reflexivity |].
        intros H. apply elem_of_cons in H as [-> | H]; done.
Qed.

(** The walk of a projected entry, exactly. *)
Lemma walk_range_exact e m :
  rangeStart e <= rangeEnd e ->
  walk (walkFuel (rangeStart e) (rangeEnd e)) e (copy (rangeStart e))
    (rangeEnd e) m
  = Some (pushDays e (rangeStart e) (walkFuel (rangeStart e) (rangeEnd e)) m)
  /\ iterKeys (rangeStart e) (walkFuel (rangeStart e) (rangeEnd e))
     = calendarDayKeys e.
Proof.
  intros Hle.
  pose proof (rangeStart_midnight e) as Hs.
  pose proof (rangeEnd_midnight e) as He.
  pose proof (proj1 (midnight_le _ _ Hs He) Hle) as Hd.
  pose proof (time_split (rangeStart e)) as Ts.
  pose proof (time_split (rangeEnd e)) as Te.
  set (n := walkFuel (rangeStart e) (rangeEnd e)).
  assert (Hn : Z.of_nat n = Day (rangeEnd e) - Day (rangeStart e) + 1)
    by (unfold n, walkFuel; lia).
  split.
  - unfold copy. apply walk_run; [lia | |]; unfold msPerDay in *; lia.
  - rewrite (midnight_MakeDate _ Hs) at 1. rewrite iterKeys_dayKeys.
    unfold calendarDayKeys. by rewrite Hn.
Qed.

Lemma covering_cons k e es :
  covering k (e :: es)
  = (if decide (projected e = true /\ k ∈ calendarDayKeys e) then [e] else [])
    ++ covering k es.
Proof.
  unfold covering. destruct (decide _) as [H | H].
  - by rewrite filter_cons_True.
  - by rewrite filter_cons_False.
Qed.

(** One turn of the loop over the entries: the entry is appended to the
    buckets of its days, once each, and no bucket is left empty. *)
Lemma projectEntry_buckets st e :
  tidy (map st) ->
  exists st',
    projectEntry st e = Some st'
    /\ tidy (map st')
    /\ forall k,
         occupants (map st') k
         = occupants (map st) k
           ++ (if decide (projected e = true /\ k ∈ calendarDayKeys e)
               then [e] else []).
Proof.
  intros Ht. destruct (projected e) eqn:Hp.
  - apply projected_true in Hp as Hle.
    destruct (walk_range_exact e (map st) Hle) as [Hw Hkeys].
    unfold projectEntry.
    destruct (Z.ltb_spec (rangeEnd e) (rangeStart e)); [lia |].
    rewrite Hw.
    assert (Hocc : forall k,
      occupants (pushDays e (rangeStart e)
                   (walkFuel (rangeStart e) (rangeEnd e)) (map st)) k
      = occupants (map st) k
        ++ (if decide (true = true /\ k ∈ calendarDayKeys e) then [e] else [])).
    { intros k. rewrite occupants_pushDays, Hkeys.
      rewrite filter_eq_NoDup by apply NoDup_calendarDayKeys.
      destruct (decide (k ∈ calendarDayKeys e)).
      - rewrite decide_True by done. reflexivity.
      - rewrite decide_False by tauto. reflexivity. }
    destruct (endDate e); eexists; (split; [reflexivity |]);
      (split; [by apply tidy_pushDays | exact Hocc]).
  - apply projected_false in Hp as Hlt.
    exists st. split; [by apply projectEntry_skip |]. split; [done |].
    intros k. rewrite decide_False by (intros [? _]; done).
    by rewrite app_nil_r.
Qed.

Lemma projectEntries_buckets es : forall st,
  tidy (map st) ->
  exists st',
    projectEntries st es = Some st'
    /\ tidy (map st')
    /\ forall k, occupants (map st') k = occupants (map st) k ++ covering k es.
Proof.
  induction es as [| e es IH]; intros st Ht.
  - exists st. split; [reflexivity |]. split; [done |].
    intros k. by rewrite app_nil_r.
  - destruct (projectEntry_buckets st e Ht) as (st1 & H1 & Ht1 & Ho1).
    destruct (IH st1 Ht1) as (st' & H' & Ht' & Ho').
    exists st'. cbn [projectEntries]. rewrite H1. split; [done |].
    split; [done |]. intros k.
    rewrite Ho', Ho1, covering_cons, app_assoc. reflexivity.
Qed.

Lemma project_buckets thisYear es :
  exists p,
    project thisYear es = Some p
    /\ forall k,
         entriesByDate p !! k
         = match covering k es with [] => None | l => Some l end.
Proof.
  destruct (projectEntries_buckets es initState) as (st & Hst & Ht & Ho).
  { intros k. cbn. by rewrite lookup_empty. }
  unfold project. rewrite Hst. eexists. split; [reflexivity |].
  intros k. cbn [entriesByDate]. rewrite (tidy_lookup _ _ Ht), Ho.
  by rewrite occupants_empty.
Qed.

Lemma keyOf_dayKey d : keyOf d = dayKey (Day d).
Proof.
  unfold dayKey, keyOf, getFullYear, getMonth, getDate.
  unfold DateFromTime, MonthFromTime, DayWithinYear, YearFromTime.
  by rewrite Day_MakeDate.
Qed.


End BucketFacts.

(** ** The day map and the cells *)

Section CellFacts.
Import JSDate LinearReactView.




(** Two dates are filed under one key exactly when they are on one calendar
    day: the time of day never shows in a key and different days never
    share one. *)
Theorem keys_agree_on_same_day_only a b : keyOf a = keyOf b <-> Day a = Day b.
Proof.
  rewrite !keyOf_dayKey. split.
  - apply dayKey_inj.
  - by intros ->.
Qed.

(** [daysInMonth] gives the length of the month in the Gregorian calendar
    for the year the constructor reads: 31 or 30 days by month, and for
    February 29 days in a leap year (divisible by 4, and not by 100 unless by
    400) and 28 otherwise. *)
Theorem daysInMonth_is_month_length year month :
  0 <= month <= 11 ->
  let Y := MakeFullYear year in
  daysInMonth year month
  = (if month =? 1 then 28 + InLeapYear Y
     else if (month =? 3) || (month =? 5) || (month =? 8) || (month =? 10)
          then 30 else 31)
  /\ (InLeapYear Y = 1
      <-> Y mod 4 = 0 /\ (Y mod 100 <> 0 \/ Y mod 400 = 0))
  /\ (InLeapYear Y = 0 \/ InLeapYear Y = 1)
  /\ (twoDigitYear year = false -> Y = year).
Proof.
  intros Hm Y. split; [| split; [| split]].
  - rewrite daysInMonth_monthLength by exact Hm. fold Y. unfold monthLength.
    destruct (month_cases month Hm) as [-> | [-> | [-> | [-> | [-> | [-> |
      [-> | [-> | [-> | [-> | [-> | ->]]]]]]]]]]]; month_table;
      cbn [Z.eqb Pos.eqb orb]; lia.
  - unfold InLeapYear, DaysInYear.
    pose proof (mod4_of_100 Y). pose proof (mod100_of_400 Y).
    destruct (Z.eqb_spec (Y mod 4) 0), (Z.eqb_spec (Y mod 100) 0),
      (Z.eqb_spec (Y mod 400) 0); cbn [negb]; cbn; split; try lia;
      intros; exfalso; lia.
  - apply InLeapYear_cases.
  - intros H. unfold Y, MakeFullYear. by rewrite H.
Qed.

Lemma daysInMonth_samples :
  daysInMonth 2024 1 = 29 /\ daysInMonth 2100 1 = 28 /\ daysInMonth 2025 3 = 30.
Proof.
  destruct (daysInMonth_is_month_length 2024 1 ltac:(lia)) as [H1 _].
  destruct (daysInMonth_is_month_length 2100 1 ltac:(lia)) as [H2 _].
  destruct (daysInMonth_is_month_length 2025 3 ltac:(lia)) as [H3 _].
  rewrite H1, H2, H3. vm_compute. repeat split; reflexivity.
Defined.

End CellFacts.

(** ** The two layouts *)

Section LayoutFacts.
Import JSDate LinearReactView.

Lemma filter_all {A} (P : A -> Prop) `{!forall x, Decision (P x)} (l : list A) :
  Forall P l -> filter P l = l.
Proof.
  induction 1 as [| x l Hx _ IH]; [reflexivity |].
  rewrite filter_cons_True by done. by rewrite IH.
Qed.

Lemma filter_none {A} (P : A -> Prop) `{!forall x, Decision (P x)} (l : list A) :
  Forall (fun x => ~ P x) l -> filter P l = [].
Proof.
  induction 1 as [| x l Hx _ IH]; [reflexivity |].
  by rewrite filter_cons_False.
Qed.

Lemma daySlots_standard y m d n :
  0 <= d <= n ->
  length (daySlots ((fun i => CellSlot y m (i + 1) (i + 1 <=? d))
                    <$> seqZ 0 n))
  = Z.to_nat d.
Proof.
  intros Hd. unfold daySlots.
  replace n with (d + (n - d)) by lia.
  rewrite seqZ_app, fmap_app, filter_app, length_app by lia.
  rewrite filter_all, filter_none.
  - rewrite length_fmap, length_seqZ. cbn [length]. lia.
  - apply Forall_fmap, Forall_seqZ. intros i Hi. cbn.
    destruct (Z.leb_spec (i + 1) d); [lia | discriminate].
  - apply Forall_fmap, Forall_seqZ. intros i Hi. cbn.
    destruct (Z.leb_spec (i + 1) d); [reflexivity | lia].
Qed.

Lemma standardRow_days y m :
  0 <= m <= 11 ->
  length (daySlots (standardRow y m)) = Z.to_nat (daysInMonth y m).
Proof.
  intros Hm. unfold standardRow.
  pose proof (daysInMonth_monthLength y m Hm) as E.
  pose proof (monthLength_range (InLeapYear (MakeFullYear y)) m
                ltac:(pose proof (InLeapYear_cases (MakeFullYear y)); lia) Hm).
  apply daySlots_standard. lia.
Qed.

Lemma dayCount_cons row rows :
  dayCount (row :: rows) = Z.of_nat (length (daySlots row)) + dayCount rows.
Proof.
  unfold dayCount, daySlots. cbn [concat].
  rewrite filter_app, length_app. lia.
Qed.

(** The days drawn by consecutive month rows add up month by month. *)
Lemma dayCount_standard y (n : nat) : forall j,
  0 <= j -> j + Z.of_nat n <= 12 ->
  dayCount (standardRow y <$> seqZ j (Z.of_nat n))
  = MonthStart (InLeapYear (MakeFullYear y)) (j + Z.of_nat n)
    - MonthStart (InLeapYear (MakeFullYear y)) j.
Proof.
  induction n as [| n IH]; intros j Hj Hn.
  - rewrite Z.add_0_r, Z.sub_diag. reflexivity.
  - rewrite seqZ_cons by lia. cbn [fmap list_fmap]. rewrite dayCount_cons.
    replace (Z.pred (Z.of_nat (S n))) with (Z.of_nat n) by lia.
    rewrite IH by lia. rewrite standardRow_days by lia.
    rewrite daysInMonth_monthLength by lia.
    pose proof (monthLength_range (InLeapYear (MakeFullYear y)) j
      ltac:(pose proof (InLeapYear_cases (MakeFullYear y)); lia) ltac:(lia)).
    unfold monthLength in *.
    replace (Z.succ j + Z.of_nat n) with (j + Z.of_nat (S n)) by lia.
    replace (Z.succ j) with (j + 1) by lia. lia.
Qed.

(** The standard layout: twelve rows of 31 cells; in a month row the cell of
    day [i + 1] is valid exactly when the month has that day, so the row
    draws as many days as the month has, and the grid as many as the year
    read by the constructor has. *)
Theorem standard_year_draws_the_days_of_the_year currentYear :
  length (renderStandardYear currentYear) = 12%nat
  /\ (forall m, 0 <= m < 12 ->
        renderStandardYear currentYear !! Z.to_nat m
          = Some (standardRow currentYear m)
        /\ length (standardRow currentYear m) = 31%nat
        /\ (forall i, 0 <= i < 31 ->
              standardRow currentYear m !! Z.to_nat i
              = Some (CellSlot currentYear m (i + 1)
                        (i + 1 <=? daysInMonth currentYear m)))
        /\ Z.of_nat (length (daySlots (standardRow currentYear m)))
           = daysInMonth currentYear m)
  /\ dayCount (renderStandardYear currentYear)
     = DaysInYear (MakeFullYear currentYear).
Proof.
  split; [reflexivity |]. split.
  - intros m Hm. split; [| split; [| split]].
    + unfold renderStandardYear. rewrite list_lookup_fmap.
      rewrite lookup_seqZ_lt by lia. cbn. do 2 f_equal. lia.
    + reflexivity.
    + intros i Hi. unfold standardRow. rewrite list_lookup_fmap.
      rewrite lookup_seqZ_lt by lia. cbn [fmap option_fmap option_map].
      replace (0 + Z.of_nat (Z.to_nat i)) with i by lia. reflexivity.
    + rewrite standardRow_days by lia.
      pose proof (daysInMonth_monthLength currentYear m ltac:(lia)) as E.
      pose proof (monthLength_range (InLeapYear (MakeFullYear currentYear)) m
        ltac:(pose proof (InLeapYear_cases (MakeFullYear currentYear)); lia)
        ltac:(lia)). lia.
  - unfold renderStandardYear.
    change 12 with (Z.of_nat 12) at 1.
    rewrite (dayCount_standard currentYear 12 0) by lia.
    rewrite InLeapYear_days. change (0 + Z.of_nat 12) with 12.
    cbn [MonthStart]. lia.
Qed.

Lemma WeekDay_newDate y m d :
  getDay (newDate y m d) = (getDay (newDate y m 1) + d - 1) mod 7.
Proof.
  unfold getDay, WeekDay, newDate. rewrite !Day_MakeDate. unfold MakeDay.
  Z.div_mod_to_equations. lia.
Qed.

(** The aligned layout puts every day under its weekday: day [d] of a month
    sits at the slot [firstWeekday + d - 1] as a valid cell, a cell at slot
    [i] holds the day [i - firstWeekday + 1], the weekday of that date is
    [i mod 7] (Sunday = 0), and the header's label at [i] is the name of
    that weekday. *)
Theorem aligned_days_sit_under_their_weekday currentYear m :
  0 <= m < 12 ->
  let meta := monthSlot currentYear m in
  length (weekdayHeader currentYear) = length (monthRow currentYear m)
  /\ (forall d, 1 <= d <= days meta ->
        monthRow currentYear m !! Z.to_nat (firstWeekday meta + d - 1)
        = Some (CellSlot currentYear m d true))
  /\ (forall (i : nat) y' m' dayNum valid,
        monthRow currentYear m !! i = Some (CellSlot y' m' dayNum valid) ->
        y' = currentYear /\ m' = m
        /\ dayNum = Z.of_nat i - firstWeekday meta + 1
        /\ (valid = true <-> 1 <= dayNum <= days meta)
        /\ getDay (newDate currentYear m dayNum) = Z.of_nat i mod 7
        /\ weekdayHeader currentYear !! i
           = weekdayNames !! Z.to_nat (getDay (newDate currentYear m dayNum))).
Proof.
  intros Hm meta.
  pose proof (monthSlot_ranges currentYear m) as [Hfw Hdays].
  pose proof (lookup_monthSlots currentYear m Hm) as Hlk.
  assert (Hmax : totalSlots (monthSlot currentYear m) <= maxSlots currentYear).
  { unfold maxSlots. apply fold_max_ge, elem_of_monthSlots. by exists m. }
  pose proof (totalSlots_monthSlot currentYear m) as Htot.
  fold meta in Hfw, Hdays, Hlk, Hmax, Htot.
  assert (Hcover : firstWeekday meta + days meta <= totalSlots meta)
    by (rewrite Htot; Z.div_mod_to_equations; lia).
  assert (Hfirst : firstWeekday meta = getDay (newDate currentYear m 1))
    by reflexivity.
  clearbody meta.
  unfold monthRow. rewrite Hlk. split; [| split].
  - unfold weekdayHeader. by rewrite !length_fmap.
  - intros d Hd. rewrite list_lookup_fmap, lookup_seqZ_lt by lia.
    cbn [fmap option_fmap option_map]. unfold slotAt.
    replace (0 + Z.of_nat (Z.to_nat (firstWeekday meta + d - 1)))
      with (firstWeekday meta + d - 1) by lia.
    destruct (Z.leb_spec (totalSlots meta) (firstWeekday meta + d - 1));
      [lia |].
    replace (firstWeekday meta + d - 1 - firstWeekday meta + 1) with d by lia.
    replace ((1 <=? d) && (d <=? days meta)) with true by lia. reflexivity.
  - intros i y' m' dayNum valid Hi.
    rewrite list_lookup_fmap in Hi.
    destruct (seqZ 0 (maxSlots currentYear) !! i) as [idx |] eqn:Hidx;
      [| discriminate].
    apply lookup_seqZ in Hidx as [-> Hlt].
    cbn [fmap option_fmap option_map] in Hi. unfold slotAt in Hi.
    destruct (Z.leb_spec (totalSlots meta) (0 + Z.of_nat i)); [discriminate |].
    injection Hi as <- <- <- <-.
    split; [reflexivity |]. split; [reflexivity |].
    split; [lia |].
    split.
    { destruct (Z.leb_spec 1 (0 + Z.of_nat i - firstWeekday meta + 1)),
        (Z.leb_spec (0 + Z.of_nat i - firstWeekday meta + 1) (days meta));
        cbn [andb]; split; (done || lia). }
    assert (Hwd : getDay (newDate currentYear m
                            (0 + Z.of_nat i - firstWeekday meta + 1))
                  = Z.of_nat i mod 7).
    { rewrite WeekDay_newDate, <- Hfirst. f_equal. lia. }
    split; [exact Hwd |]. rewrite Hwd.
    unfold weekdayHeader. rewrite list_lookup_fmap, lookup_seqZ_lt by lia.
    cbn [fmap option_fmap option_map].
    replace (0 + Z.of_nat i) with (Z.of_nat i) by lia.
    assert (Hr : 0 <= Z.of_nat i mod 7 < 7) by (apply Z.mod_pos_bound; lia).
    destruct (weekdayNames !! Z.to_nat (Z.of_nat i mod 7)) eqn:E;
      [reflexivity |].
    apply lookup_ge_None in E. cbn in E. lia.
Qed.

Lemma aligned_sample :
  monthRow 2025 2 !! 6%nat = Some (CellSlot 2025 2 1 true)
  /\ weekdayHeader 2025 !! 6%nat = Some "Sa"%string.
Proof.
  destruct (aligned_days_sit_under_their_weekday 2025 2 ltac:(lia))
    as (_ & Hd & Hw).
  pose proof (Hd 1 ltac:(vm_compute; split; discriminate)) as H1.
  change (Z.to_nat (firstWeekday (monthSlot 2025 2) + 1 - 1)) with 6%nat in H1.
  split; [exact H1 |].
  destruct (Hw 6%nat _ _ _ _ H1) as (_ & _ & _ & _ & _ & Hh).
  rewrite Hh. vm_compute. reflexivity.
Defined.

End LayoutFacts.

(** ** Years and occupied days *)

Section YearFacts.
Import JSDate LinearReactView.

Lemma project_years_range thisYear es :
  exists p lo hi,
    project thisYear es = Some p
    /\ years p = yearList lo hi /\ lo <= hi
    /\ (forall y, y ∈ contributedYears es -> lo <= y <= hi).
Proof.
  destruct (project_spec thisYear es) as (p & Hp & _ & Hnil & Hne).
  destruct (contributedYears es) as [| y0 ys] eqn:Hys.
  - exists p, thisYear, thisYear. split; [exact Hp |]. split.
    + rewrite Hnil by done. unfold yearList.
      replace (thisYear - thisYear + 1) with 1 by lia. reflexivity.
    + split; [lia |]. intros y Hy. by apply elem_of_nil in Hy.
  - destruct Hne as (lo & hi & Hlo & Hhi & Hy); [done |].
    exists p, lo, hi. split; [exact Hp |]. split; [exact Hy |].
    split; [by eapply isLeast_le_isGreatest |].
    intros y Hin. destruct Hlo as [_ Hlo], Hhi as [_ Hhi].
    split; [by apply Hlo | by apply Hhi].
Qed.

Lemma elem_of_contributedYears es e y :
  e ∈ es -> projected e = true -> y ∈ entryYears e -> y ∈ contributedYears es.
Proof.
  intros He Hp Hy. unfold contributedYears.
  apply list_elem_of_In, in_flat_map. exists e. split.
  - apply list_elem_of_In, list_elem_of_filter. done.
  - by apply list_elem_of_In.
Qed.

Lemma elem_of_yearList lo hi y : y ∈ yearList lo hi <-> lo <= y <= hi.
Proof. unfold yearList. rewrite elem_of_seqZ. lia. Qed.

Lemma elem_of_covering k es e :
  e ∈ covering k es <-> e ∈ es /\ projected e = true /\ k ∈ calendarDayKeys e.
Proof. unfold covering. rewrite list_elem_of_filter. tauto. Qed.

(** When the dates of the entries have years outside the constructor's
    two-digit years, every key present in the day map is the key of a
    calendar day whose year is in the list of years: every occupied day can
    be reached with the year buttons. *)
Theorem occupied_days_are_in_listed_years thisYear es :
  (forall e, e ∈ es -> plainYears e) ->
  exists p,
    project thisYear es = Some p
    /\ forall k l,
         entriesByDate p !! k = Some l ->
         exists d,
           k = dayKey d
           /\ k = dateKey (YearFromDay d) (getMonth (MakeDate d 0))
                    (getDate (MakeDate d 0))
           /\ YearFromDay d ∈ years p.
Proof.
  intros Hplain.
  destruct (project_years_range thisYear es) as (p & lo & hi & Hp & Hy & Hle & Hc).
  destruct (project_buckets thisYear es) as (p' & Hp' & Hk).
  assert (p' = p) by congruence. subst p'.
  exists p. split; [exact Hp |]. intros k l Hl. rewrite Hk in Hl.
  destruct (covering k es) as [| e rest] eqn:Hcov; [discriminate |].
  assert (He : e ∈ covering k es) by (rewrite Hcov; apply list_elem_of_here).
  apply elem_of_covering in He as (Hin & Hproj & Hkey).
  apply elem_of_calendarDayKeys in Hkey as (d & Hd & ->).
  exists d. split; [reflexivity |]. split.
  { unfold dayKey, keyOf, getFullYear, YearFromTime. by rewrite Day_MakeDate. }
  rewrite Hy. apply elem_of_yearList.
  destruct (Hplain e Hin) as [Hs He].
  assert (Hstart : Day (rangeStart e) = Day (startDate e)).
  { unfold rangeStart. rewrite dateOnly_day by exact Hs. apply Day_MakeDate. }
  assert (Hsy : lo <= YearFromDay (Day (startDate e)) <= hi).
  { apply Hc, (elem_of_contributedYears es e); [done | done |].
    unfold entryYears. apply list_elem_of_here. }
  pose proof (YearFromDay_mono _ _ (proj1 Hd)) as Hm1.
  pose proof (YearFromDay_mono _ _ (proj2 Hd)) as Hm2.
  rewrite Hstart in Hm1.
  destruct (endDate e) as [ed |] eqn:Hed.
  - assert (Hend : Day (rangeEnd e) = Day ed).
    { unfold rangeEnd. rewrite Hed, dateOnly_day by (by apply He).
      apply Day_MakeDate. }
    assert (Hey : lo <= YearFromDay (Day ed) <= hi).
    { apply Hc, (elem_of_contributedYears es e); [done | done |].
      unfold entryYears. rewrite Hed. apply list_elem_of_further, list_elem_of_here. }
    rewrite Hend in Hm2. lia.
  - assert (Hend : Day (rangeEnd e) = Day (startDate e)).
    { unfold rangeEnd, copy. by rewrite Hed. }
    rewrite Hend in Hm2. lia.
Qed.

Lemma occupied_days_sample :
  exists p,
    project 2026 [Samples.newYear] = Some p
    /\ forall k l, entriesByDate p !! k = Some l ->
         exists d, k = dayKey d /\ YearFromDay d ∈ years p.
Proof.
  destruct (occupied_days_are_in_listed_years 2026 [Samples.newYear])
    as (p & Hp & Hk).
  - intros e He. apply list_elem_of_singleton in He. rewrite He.
    split; [vm_compute; reflexivity |].
    intros ed Hed. injection Hed as Hed. rewrite <- Hed.
    vm_compute. reflexivity.
  - exists p. split; [exact Hp |].
    intros k l Hl. destruct (Hk k l Hl) as (d & H1 & _ & H3).
    exists d. split; [exact H1 | exact H3].
Defined.

(** The two year buttons undo each other: after a step that moved, the
    opposite button leads back; a step moves by exactly one year and stays
    in the list; for a year outside the list neither button moves. *)
Theorem year_buttons_undo_each_other thisYear es :
  exists p,
    project thisYear es = Some p
    /\ forall c,
         (goNextYear (years p) c <> c ->
          goNextYear (years p) c = c + 1
          /\ c + 1 ∈ years p
          /\ goPrevYear (years p) (goNextYear (years p) c) = c)
         /\ (goPrevYear (years p) c <> c ->
             goPrevYear (years p) c = c - 1
             /\ c - 1 ∈ years p
             /\ goNextYear (years p) (goPrevYear (years p) c) = c)
         /\ (c ∉ years p ->
             goNextYear (years p) c = c /\ goPrevYear (years p) c = c).
Proof.
  destruct (project_years_range thisYear es) as (p & lo & hi & Hp & Hy & Hle & _).
  exists p. split; [exact Hp |]. intros c. rewrite Hy.
  rewrite !goNextYear_yearList, !goPrevYear_yearList by exact Hle.
  rewrite !elem_of_yearList.
  split; [| split].
  - destruct ((lo <=? c) && (c <? hi)) eqn:E; [| done]. intros _.
    split; [reflexivity |]. split; [lia |].
    replace ((lo <? c + 1) && (c + 1 <=? hi)) with true by lia. lia.
  - destruct ((lo <? c) && (c <=? hi)) eqn:E; [| done]. intros _.
    split; [reflexivity |]. split; [lia |].
    replace ((lo <=? c - 1) && (c - 1 <? hi)) with true by lia. lia.
  - intros Hout.
    replace ((lo <=? c) && (c <? hi)) with false by lia.
    replace ((lo <? c) && (c <=? hi)) with false by lia. done.
Qed.

End YearFacts.

(** ** Size options *)

Section SizeFacts.
Import JSNumber.




End SizeFacts.

(** ** The week start and the writing of dragged dates *)

Section StoreFacts.
Import JSDate CalendarReactView CalendarView.

Lemma assoc_None key (table : list (string * Z)) :
  (forall n, (key, n) ∉ table) -> assoc key table = None.
Proof.
  induction table as [| [k v] table IH]; intros H; [reflexivity |].
  cbn [assoc]. destruct (String.eqb_spec k key) as [-> | Hne].
  - exfalso. apply (H v). left.
  - apply IH. intros n Hn. apply (H n). by right.
Qed.

(** The week start kept by [loadConfig]: Monday (1) for an absent or empty
    value; the number from 0 (Sunday) to 6 (Saturday) of one of the seven
    lower-case day names; Monday again for any other string, but for the
    name of a member of the object prototype, which the table look-up
    finds, so that the member is kept instead of a day number. *)
Theorem week_start_defaults_to_monday :
  weekStartDay None = DayNumber 1
  /\ weekStartDay (Some EmptyString) = DayNumber 1
  /\ (forall s n, (s, n) ∈ dayNames ->
        weekStartDay (Some s) = DayNumber n /\ 0 <= n <= 6)
  /\ (forall s, s ∉ objectPrototypeKeys -> (forall n, (s, n) ∉ dayNames) ->
        weekStartDay (Some s) = DayNumber 1)
  /\ (forall s, s ∈ objectPrototypeKeys -> weekStartDay (Some s) = Inherited s).
Proof.
  split; [reflexivity |]. split; [reflexivity |]. split; [| split].
  - intros s n H. unfold dayNames in H.
    repeat (apply elem_of_cons in H as [[= -> ->] | H];
            [split; [vm_compute; reflexivity | lia] |]).
    by apply elem_of_nil in H.
  - intros s Hp Hd. unfold weekStartDay, dayNameToNumber.
    rewrite (assoc_None _ _ Hd), bool_decide_eq_false_2 by exact Hp.
    by destruct (JSString.truthy s).
  - intros s H. unfold objectPrototypeKeys in H.
    repeat (apply elem_of_cons in H as [-> | H]; [vm_compute; reflexivity |]).
    by apply elem_of_nil in H.
Qed.

Lemma startsWith_note p :
  JSString.startsWith p "note." = true -> p = "note." +:+ JSString.slice 5 p.
Proof.
  unfold JSString.startsWith, JSString.slice. intros H.
  do 5 (destruct p as [| ? p]; [discriminate H |];
        cbn [String.prefix] in H;
        match type of H with
        | (if ?d then _ else _) = _ => destruct d as [<- | ?]; [| discriminate H]
        end).
  rewrite !append_cons, append_empty.
  cbn [String.length Nat.sub String.substring].
  by rewrite Nat.sub_0_r, substring_all.
Qed.

Lemma extractNoteProp_Some prop name :
  extractNoteProp prop = Some name -> prop = noteProp name.
Proof.
  destruct prop as [p |]; [| discriminate]. cbn [extractNoteProp].
  destruct (JSString.startsWith p "note.") eqn:E; [| discriminate].
  intros [= <-]. unfold noteProp. f_equal. by apply startsWith_note.
Qed.

Lemma extractNoteProp_None p :
  JSString.startsWith p "note." = false -> extractNoteProp (Some p) = None.
Proof. intros H. cbn [extractNoteProp]. by rewrite H. Qed.

Lemma isSet_false prop :
  isSet prop = false <-> prop = None \/ prop = Some EmptyString.
Proof.
  destruct prop as [[| c s] |]; cbn; split; intros H; try done;
    try (by left); try (by right); by destruct H.
Qed.

(** What [updateEntryDates] leaves behind when it writes. *)
Lemma updateEntryDates_Some sp ep newStart newEnd fm fm' :
  updateEntryDates sp ep newStart newEnd fm = Some fm' ->
  exists startName,
    sp = noteProp startName
    /\ (isSet ep = false \/ exists endName, ep = noteProp endName)
    /\ (fm' = <[startName := formatDate newStart]> fm
        \/ exists endName ne,
             ep = noteProp endName /\ newEnd = Some ne
             /\ fm' = <[endName := formatDate ne]>
                        (<[startName := formatDate newStart]> fm)).
Proof.
  unfold updateEntryDates. destruct (isSet sp); [| discriminate]. cbn [negb].
  destruct (extractNoteProp sp) as [startName |] eqn:Es; [| discriminate].
  apply extractNoteProp_Some in Es. intros H. exists startName.
  split; [exact Es |].
  destruct (extractNoteProp ep) as [endName |] eqn:Ee.
  - apply extractNoteProp_Some in Ee. split; [right; by eexists |].
    rewrite orb_true_r in H.
    destruct newEnd as [ne |]; [| left; congruence].
    destruct (isSet ep && JSString.truthy endName);
      [right; exists endName, ne; intuition congruence | left; congruence].
  - destruct (isSet ep); cbn in H; [discriminate |].
    split; [by left |]. left. destruct newEnd; congruence.
Qed.

(** Dragged dates are written to properties of the note only: with a start
    property that is unset, empty or not prefixed by note., or with an end
    property that is set and not prefixed by note., the method returns
    without touching the front matter; when it writes, the start property
    is a note property, every key other than the names of the start and end
    properties keeps its value, the start name holds the text of the new
    start unless the end property has the same name, and without a new end
    nothing but the start name is written. *)
Theorem only_note_properties_are_written sp ep newStart newEnd fm :
  (sp = None \/ sp = Some EmptyString ->
   updateEntryDates sp ep newStart newEnd fm = None)
  /\ (forall p, sp = Some p -> JSString.startsWith p "note." = false ->
        updateEntryDates sp ep newStart newEnd fm = None)
  /\ (forall q, ep = Some q -> q <> EmptyString ->
        JSString.startsWith q "note." = false ->
        updateEntryDates sp ep newStart newEnd fm = None)
  /\ (forall fm',
        updateEntryDates sp ep newStart newEnd fm = Some fm' ->
        exists startName,
          sp = noteProp startName
          /\ (ep = None \/ ep = Some EmptyString
              \/ exists endName, ep = noteProp endName)
          /\ (forall k, k <> startName -> ep <> noteProp k ->
                fm' !! k = fm !! k)
          /\ (ep <> noteProp startName ->
              fm' !! startName = Some (formatDate newStart))
          /\ (newEnd = None ->
              fm' = <[startName := formatDate newStart]> fm)).
Proof.
  split; [| split; [| split]].
  - intros H. apply isSet_false in H. unfold updateEntryDates. by rewrite H.
  - intros p -> H. unfold updateEntryDates.
    rewrite (extractNoteProp_None _ H). by destruct (isSet (Some p)).
  - intros q -> Hq H. unfold updateEntryDates.
    destruct (isSet sp); [| reflexivity]. cbn [negb].
    destruct (extractNoteProp sp); [| reflexivity].
    rewrite (extractNoteProp_None _ H).
    cbn [isSet]. rewrite (truthy_nonempty _ Hq). cbn [negb orb].
    by rewrite bool_decide_eq_false_2 by (intros [? ?]; discriminate).
  - intros fm' H.
    destruct (updateEntryDates_Some _ _ _ _ _ _ H) as (startName & Hs & He & Hw).
    exists startName. split; [exact Hs |]. split.
    { destruct He as [He | He]; [| by right; right].
      apply isSet_false in He. destruct He; [by left | by right; left]. }
    split; [| split].
    + intros k Hk Hne. destruct Hw as [-> | (endName & ne & -> & _ & ->)].
      * by rewrite lookup_insert_ne.
      * rewrite !lookup_insert_ne; [done | done |].
        intros <-. by apply Hne.
    + intros Hne. destruct Hw as [-> | (endName & ne & -> & _ & ->)].
      * apply lookup_insert_eq.
      * rewrite lookup_insert_ne; [apply lookup_insert_eq |].
        intros <-. by apply Hne.
    + intros ->. destruct Hw as [-> | (endName & ne & _ & Hn & _)];
        [reflexivity | discriminate].
Qed.

(** A drop of an event whose entry has no end date never writes an end
    date, whatever end the widget reports: when the drop is persisted, the
    front matter gains the text of the new start under the name of the
    start property and nothing else. *)
Theorem entry_without_end_never_gets_one sp ep dropInfo fm fm' :
  dropOriginalEndDate dropInfo = None ->
  persistDrop sp ep dropInfo fm = Some fm' ->
  exists startName newStart,
    sp = noteProp startName
    /\ dropStart dropInfo = Some newStart
    /\ fm' = <[startName := formatDate newStart]> fm.
Proof.
  intros Ho. unfold persistDrop, handleEventDrop. cbn [negb].
  destruct (dropStart dropInfo) as [newStart |]; [| discriminate].
  rewrite Ho. cbn [actualEndDate]. intros H.
  destruct (updateEntryDates_Some _ _ _ _ _ _ H) as (startName & Hs & _ & Hw).
  exists startName, newStart. split; [exact Hs |]. split; [reflexivity |].
  destruct Hw as [-> | (? & ? & _ & Hn & _)]; [reflexivity | discriminate].
Qed.

Lemma entry_without_end_sample :
  exists startName newStart,
    noteProp "start" = noteProp startName
    /\ Some (newDate 2025 2 12) = Some newStart
    /\ {[ "start"%string := "2025-03-12"%string ]}
       = <[startName := formatDate newStart]> (∅ : FrontMatter).
Proof.
  apply (entry_without_end_never_gets_one (noteProp "start") (noteProp "end")
           {| dropEntry := Samples.dayNote;
              dropOriginalEndDate := None;
              dropStart := Some (newDate 2025 2 12);
              dropEnd := Some (newDate 2025 2 14) |} ∅).
  - reflexivity.
  - vm_compute. reflexivity.
Defined.

(** An event moved as a whole.  When the widget reports the start and the
    end of the event it was given, both moved by the same amount of time,
    the handler asks to persist the start date moved by that amount and:
    no end for an entry without end date; the end date moved by that amount
    for an entry whose date-only end differs from its date-only start (the
    day added for the widget is taken off again); the new start itself, time
    of day included, for an entry that ends on the day it starts. *)
Theorem moved_event_keeps_its_span calEntry delta dropInfo :
  dropEntry dropInfo = extEntry (toEvent calEntry) ->
  dropOriginalEndDate dropInfo = originalEndDate (toEvent calEntry) ->
  dropStart dropInfo = Some (start (toEvent calEntry) + delta) ->
  dropEnd dropInfo = (fun t => t + delta) <$> end_ (toEvent calEntry) ->
  exists newEnd,
    handleEventDrop true dropInfo
      = Dispatch (entry calEntry) (startDate calEntry + delta) newEnd
    /\ (endDate calEntry = None -> newEnd = None)
    /\ (forall ed, endDate calEntry = Some ed ->
          dateOnly (startDate calEntry) <> dateOnly ed ->
          newEnd = Some (ed + delta))
    /\ (forall ed, endDate calEntry = Some ed ->
          dateOnly (startDate calEntry) = dateOnly ed ->
          newEnd = Some (startDate calEntry + delta)).
Proof.
  intros He Ho Hs Hn. unfold handleEventDrop. cbn [negb].
  rewrite Hs, He, Ho, Hn. cbn [toEvent extEntry originalEndDate start end_].
  eexists. split; [reflexivity |].
  unfold actualEndDate, adjustedEndDate, getTime, copy.
  destruct (endDate calEntry) as [ed |]; [| done].
  split; [discriminate |].
  destruct (Z.eqb_spec (dateOnly (startDate calEntry)) (dateOnly ed)) as [E | E].
  - split; [intros ? [= <-] ?; done |]. intros ? _ _. reflexivity.
  - split; [| intros ? [= <-] ?; done]. intros ? [= <-] _.
    cbn [fmap option_fmap option_map]. rewrite setDate_pred, setDate_shift.
    f_equal. lia.
Qed.

Lemma moved_event_sample :
  exists newEnd,
    handleEventDrop true
      (dragged (toEvent {| entry := Samples.conference;
                           startDate := newDate 2025 2 10 + 9 * Samples.hour;
                           endDate := Some (newDate 2025 2 12 + 17 * Samples.hour) |})
         (2 * msPerDay))
      = Dispatch Samples.conference (newDate 2025 2 10 + 9 * Samples.hour + 2 * msPerDay)
          newEnd
    /\ newEnd = Some (newDate 2025 2 14 + 17 * Samples.hour).
Proof.
  destruct (moved_event_keeps_its_span
              {| entry := Samples.conference;
                 startDate := newDate 2025 2 10 + 9 * Samples.hour;
                 endDate := Some (newDate 2025 2 12 + 17 * Samples.hour) |}
              (2 * msPerDay)
              (dragged (toEvent {| entry := Samples.conference;
                           startDate := newDate 2025 2 10 + 9 * Samples.hour;
                           endDate := Some (newDate 2025 2 12 + 17 * Samples.hour) |})
                 (2 * msPerDay)))
    as (newEnd & Hd & _ & Hm & _); try reflexivity.
  exists newEnd. split; [exact Hd |].
  rewrite (Hm _ eq_refl); [vm_compute; reflexivity |].
  vm_compute. discriminate.
Defined.

End StoreFacts.

(** ** From the entries of the base to the views *)

Section CollectFacts.
Import JSDate.

Lemma extractDate_Some gv e p d :
  LinearView.extractDate gv e p = Some d
  <-> exists b s, gv e p = Obsidian.Found (Obsidian.DateValue (Some d) b s).
Proof.
  unfold LinearView.extractDate. split.
  - destruct (gv e p) as [| | [| [d' |] b s |]]; try discriminate.
    intros [= ->]. by exists b, s.
  - intros (b & s & ->). reflexivity.
Qed.

Lemma elem_of_collectEntries gv sp ep entries item :
  item ∈ LinearView.collectEntries gv sp ep entries
  <-> LinearReactView.entry item ∈ entries
      /\ LinearView.extractDate gv (LinearReactView.entry item) sp
         = Some (LinearReactView.startDate item)
      /\ LinearReactView.endDate item
         = match ep with
           | Some q =>
               if JSString.truthy q
               then LinearView.extractDate gv (LinearReactView.entry item) q
               else None
           | None => None
           end.
Proof.
  induction entries as [| e entries IH]; cbn [LinearView.collectEntries].
  - split; [intros H; by apply elem_of_nil in H |].
    intros (H & _). by apply elem_of_nil in H.
  - destruct (LinearView.extractDate gv e sp) as [d |] eqn:Ed.
    + rewrite !elem_of_cons, IH. split.
      * intros [-> | (H1 & H2 & H3)]; [| by auto].
        cbn. split; [by left |]. by split.
      * intros ([He | He] & H2 & H3); [| right; by auto].
        left. destruct item as [ie isd ied]. cbn in *. subst ie.
        rewrite Ed in H2. injection H2 as <-. by rewrite H3.
    + rewrite elem_of_cons, IH. split.
      * intros (H1 & H2 & H3). by auto.
      * intros ([He | He] & H2 & H3); [| by auto].
        rewrite He, Ed in H2. discriminate.
Qed.

Lemma collectEntries_entries gv sp ep entries :
  LinearReactView.entry <$> LinearView.collectEntries gv sp ep entries
  = filter (fun e => is_Some (LinearView.extractDate gv e sp)) entries.
Proof.
  induction entries as [| e entries IH]; [reflexivity |].
  cbn [LinearView.collectEntries]. rewrite filter_cons.
  destruct (LinearView.extractDate gv e sp) as [d |] eqn:Ed.
  - rewrite decide_True by (by eexists). cbn. by rewrite IH.
  - rewrite decide_False by (by intros [? ?]). exact IH.
Qed.

Lemma collectEntries_same gv sp ep entries :
  (fun i => (CalendarReactView.entry i, CalendarReactView.startDate i,
             CalendarReactView.endDate i))
    <$> CalendarView.collectEntries gv sp ep entries
  = (fun i => (LinearReactView.entry i, LinearReactView.startDate i,
               LinearReactView.endDate i))
      <$> LinearView.collectEntries gv sp ep entries.
Proof.
  induction entries as [| e entries IH]; [reflexivity |].
  cbn [CalendarView.collectEntries LinearView.collectEntries].
  change (CalendarView.extractDate gv e sp)
    with (LinearView.extractDate gv e sp).
  destruct (LinearView.extractDate gv e sp) as [d |]; [| exact IH].
  cbn [fmap list_fmap]. rewrite <- IH. reflexivity.
Qed.

(** Both views collect their entries alike.  Without data, or with a start
    property that is unset or empty, nothing is handed to the view.
    Otherwise the view gets, in the order of the data, exactly the entries
    whose start property holds a date value with a date: an entry whose
    look-up throws, gives null, or gives another kind of value is left out;
    each entry comes with that date as start and, as end, the date of its
    end property when one is configured and holds a date. *)
Theorem undated_entries_are_left_out gv data sp ep :
  (LinearView.updateLinearCalendar gv data sp ep = None
   <-> data = None \/ sp = None \/ sp = Some EmptyString)
  /\ (CalendarView.updateCalendar gv data sp ep = None
      <-> data = None \/ sp = None \/ sp = Some EmptyString)
  /\ (forall entries p,
        data = Some entries -> sp = Some p -> p <> EmptyString ->
        exists les ces,
          LinearView.updateLinearCalendar gv data sp ep = Some les
          /\ CalendarView.updateCalendar gv data sp ep = Some ces
          /\ (fun i => (CalendarReactView.entry i, CalendarReactView.startDate i,
                        CalendarReactView.endDate i)) <$> ces
             = (fun i => (LinearReactView.entry i, LinearReactView.startDate i,
                          LinearReactView.endDate i)) <$> les
          /\ LinearReactView.entry <$> les
             = filter (fun e => is_Some (LinearView.extractDate gv e p)) entries
          /\ (forall e,
                is_Some (LinearView.extractDate gv e p)
                <-> exists d b s,
                      gv e p = Obsidian.Found (Obsidian.DateValue (Some d) b s))
          /\ (forall item,
                item ∈ les ->
                LinearView.extractDate gv (LinearReactView.entry item) p
                  = Some (LinearReactView.startDate item)
                /\ LinearReactView.endDate item
                   = match ep with
                     | Some q =>
                         if JSString.truthy q
                         then LinearView.extractDate gv
                                (LinearReactView.entry item) q
                         else None
                     | None => None
                     end)).
Proof.
  split; [| split].
  - unfold LinearView.updateLinearCalendar.
    destruct data as [entries |], sp as [[| c s] |]; cbn;
      intuition discriminate.
  - unfold CalendarView.updateCalendar.
    destruct data as [entries |], sp as [[| c s] |]; cbn;
      intuition discriminate.
  - intros entries p -> -> Hp.
    unfold LinearView.updateLinearCalendar, CalendarView.updateCalendar.
    rewrite (truthy_nonempty _ Hp).
    eexists _, _. split; [reflexivity |]. split; [reflexivity |].
    split; [apply collectEntries_same |].
    split; [apply collectEntries_entries |].
    split.
    + intros e. split.
      * intros [d Hd]. exists d. by apply extractDate_Some.
      * intros (d & b & s & H). exists d. apply extractDate_Some. eauto.
    + intros item H. by apply elem_of_collectEntries in H as (_ & H2 & H3).
Qed.

(** From the base to the year view.  Whatever the data and the two
    properties, the projection of the collected entries ends; every entry
    in a bucket of the day map is an entry of the data whose start property
    holds a date; and an entry of the data with a start date and no end
    date (no end property configured, or none that holds a date for it)
    is filed under the key of the date-only value of its start date and
    under no other key. *)
Theorem dated_entries_reach_the_year_view gv entries p ep thisYear :
  p <> EmptyString ->
  exists es proj,
    LinearView.updateLinearCalendar gv (Some entries) (Some p) ep = Some es
    /\ LinearReactView.project thisYear es = Some proj
    /\ (forall k item,
          item ∈ LinearReactView.occupants (LinearReactView.entriesByDate proj) k ->
          LinearReactView.entry item ∈ entries
          /\ LinearView.extractDate gv (LinearReactView.entry item) p
             = Some (LinearReactView.startDate item))
    /\ (forall e d,
          e ∈ entries ->
          LinearView.extractDate gv e p = Some d ->
          ep = None \/ ep = Some EmptyString
          \/ (exists q, ep = Some q /\ LinearView.extractDate gv e q = None) ->
          forall k,
            {| LinearReactView.entry := e;
               LinearReactView.startDate := d;
               LinearReactView.endDate := None |}
              ∈ LinearReactView.occupants (LinearReactView.entriesByDate proj) k
            <-> k = LinearReactView.keyOf (dateOnly d)).
Proof.
  intros Hp. unfold LinearView.updateLinearCalendar.
  rewrite (truthy_nonempty _ Hp).
  destruct (project_buckets thisYear (LinearView.collectEntries gv p ep entries))
    as (proj & Hproj & Hk).
  eexists _, proj. split; [reflexivity |]. split; [exact Hproj |].
  assert (Ho : forall k,
            LinearReactView.occupants (LinearReactView.entriesByDate proj) k
            = LinearReactView.covering k
                (LinearView.collectEntries gv p ep entries)).
  { intros k. unfold LinearReactView.occupants. rewrite Hk.
    by destruct (LinearReactView.covering k _). }
  split.
  - intros k item. rewrite Ho, elem_of_covering, elem_of_collectEntries.
    tauto.
  - intros e d He Hd Hep k.
    rewrite Ho, elem_of_covering, elem_of_collectEntries.
    cbn [LinearReactView.entry LinearReactView.startDate
         LinearReactView.endDate].
    set (item := {| LinearReactView.entry := e;
                    LinearReactView.startDate := d;
                    LinearReactView.endDate := None |}).
    assert (Hend : None
                   = match ep with
                     | Some q =>
                         if JSString.truthy q
                         then LinearView.extractDate gv e q else None
                     | None => None
                     end).
    { destruct Hep as [-> | [-> | (q & -> & ->)]]; try reflexivity.
      by destruct (JSString.truthy q). }
    assert (Hr : LinearReactView.rangeEnd item = LinearReactView.rangeStart item)
      by reflexivity.
    assert (Hpr : LinearReactView.projected item = true).
    { apply projected_true. rewrite Hr. lia. }
    assert (Hkeys : LinearReactView.calendarDayKeys item
                    = [LinearReactView.keyOf (dateOnly d)]).
    { unfold LinearReactView.calendarDayKeys. rewrite Hr, Z.sub_diag.
      cbn. by rewrite keyOf_dayKey. }
    rewrite Hkeys, list_elem_of_singleton. intuition.
Qed.

Lemma dated_entries_sample :
  exists es proj,
    LinearView.updateLinearCalendar Samples.values
      (Some [Samples.conference; Samples.dayNote]) (Some "note.start"%string)
      None = Some es
    /\ LinearReactView.project 2026 es = Some proj
    /\ LinearReactView.entry <$> es = [Samples.dayNote].
Proof.
  destruct (dated_entries_reach_the_year_view Samples.values
              [Samples.conference; Samples.dayNote] "note.start" None 2026)
    as (es & proj & He & Hp & _); [discriminate |].
  exists es, proj. split; [exact He |]. split; [exact Hp |].
  vm_compute in He. injection He as <-. reflexivity.
Defined.

End CollectFacts.

(** ** The image of an entry *)

Section TextFacts.
Import JSString.

Lemma append_assoc (s1 s2 s3 : string) : (s1 +:+ s2) +:+ s3 = s1 +:+ (s2 +:+ s3).
Proof.
  induction s1 as [| c s1 IH]; [by rewrite !append_empty |].
  by rewrite !append_cons, IH.
Qed.

Lemma append_nil_r (s : string) : s +:+ "" = s.
Proof.
  induction s as [| c s IH]; [apply append_empty |].
  by rewrite append_cons, IH.
Qed.

Lemma rev_app_spec (s1 s2 : string) :
  String.rev_app s1 s2 = String.rev s1 +:+ s2.
Proof.
  revert s2. induction s1 as [| c s1 IH]; intros s2.
  - by rewrite append_empty.
  - unfold String.rev. cbn [String.rev_app].
    rewrite (IH (String c s2)), (IH (String c "")), append_assoc.
    by rewrite append_cons, append_empty.
Qed.

Lemma rev_cons (c : ascii) (s : string) :
  String.rev (String c s) = String.rev s +:+ String c "".
Proof. unfold String.rev at 1. cbn [String.rev_app]. apply rev_app_spec. Qed.

Lemma rev_append (s1 s2 : string) :
  String.rev (s1 +:+ s2) = String.rev s2 +:+ String.rev s1.
Proof.
  induction s1 as [| c s1 IH].
  - by rewrite append_empty, append_nil_r.
  - by rewrite append_cons, !rev_cons, IH, append_assoc.
Qed.

Lemma rev_involutive (s : string) : String.rev (String.rev s) = s.
Proof.
  induction s as [| c s IH]; [reflexivity |].
  rewrite rev_cons, rev_append, IH. reflexivity.
Qed.

(** A string that does not begin with white space. *)
Lemma trimStart_fixed s : trimStart (trimStart s) = trimStart s.
Proof.
  induction s as [| c s IH]; [reflexivity |]. cbn [trimStart].
  destruct (isTrimmed c) eqn:E; [exact IH |]. cbn [trimStart]. by rewrite E.
Qed.

Lemma trimStart_suffix s : exists k, s = k +:+ trimStart s.
Proof.
  induction s as [| c s (k & IH)]; [by exists ""%string |]. cbn [trimStart].
  destruct (isTrimmed c).
  - exists (String c k). by rewrite append_cons, <- IH.
  - exists ""%string. by rewrite append_empty.
Qed.

Lemma trimStart_length s : (String.length (trimStart s) <= String.length s)%nat.
Proof.
  destruct (trimStart_suffix s) as (k & Hk).
  apply (f_equal String.length) in Hk. rewrite length_append in Hk. lia.
Qed.

Lemma trimStart_head c s t :
  trimStart (String c s) = String c s -> trimStart (String c s +:+ t) = String c s +:+ t.
Proof.
  rewrite append_cons. cbn [trimStart]. destruct (isTrimmed c); [| done].
  intros H. exfalso. pose proof (trimStart_length s) as Hl.
  rewrite H in Hl. cbn [String.length] in Hl. lia.
Qed.

(** The result of [trim] has no white space at either end. *)
Lemma trim_ends s :
  trimStart (trim s) = trim s
  /\ trimStart (String.rev (trim s)) = String.rev (trim s).
Proof.
  unfold trim. set (a := trimStart s). set (b := trimStart (String.rev a)).
  rewrite rev_involutive. split; [| apply trimStart_fixed].
  destruct (trimStart_suffix (String.rev a)) as (k & Hk). fold b in Hk.
  apply (f_equal String.rev) in Hk. rewrite rev_involutive, rev_append in Hk.
  destruct (String.rev b) as [| c r] eqn:Eb; [reflexivity |].
  assert (Ha : trimStart a = a) by apply trimStart_fixed.
  rewrite Hk, append_cons in Ha. cbn [trimStart] in Ha |- *.
  destruct (isTrimmed c); [| reflexivity]. exfalso.
  pose proof (trimStart_length (r +:+ String.rev k)) as Hl.
  rewrite Ha in Hl. cbn [String.length] in Hl. lia.
Qed.

Lemma trim_fixed s : trim (trim s) = trim s.
Proof.
  destruct (trim_ends s) as [H1 H2]. unfold trim at 1.
  by rewrite H1, H2, rev_involutive.
Qed.

Lemma trim_id s :
  trimStart s = s -> trimStart (String.rev s) = String.rev s -> trim s = s.
Proof. intros H1 H2. unfold trim. by rewrite H1, H2, rev_involutive. Qed.

(** Absence of a character, through the operations of the sanitiser. *)
Lemma indexOf_append c s t :
  indexOf c (s +:+ t) = None <-> indexOf c s = None /\ indexOf c t = None.
Proof.
  induction s as [| d s IH]; [rewrite append_empty; tauto |].
  rewrite append_cons. cbn [indexOf]. destruct (Ascii.eqb d c).
  - split; [discriminate | intros [? _]; discriminate].
  - rewrite !fmap_None. exact IH.
Qed.

Lemma indexOf_rev c s : indexOf c s = None -> indexOf c (String.rev s) = None.
Proof.
  induction s as [| d s IH]; [done |]. intros H.
  rewrite rev_cons. apply indexOf_append.
  change (String d s) with (String d "" +:+ s) in H.
  apply indexOf_append in H as [H1 H2]. auto.
Qed.

Lemma indexOf_trimStart c s :
  indexOf c s = None -> indexOf c (trimStart s) = None.
Proof.
  intros H. destruct (trimStart_suffix s) as (k & Hk). rewrite Hk in H.
  by apply indexOf_append in H as [_ H].
Qed.

Lemma indexOf_trim c s : indexOf c s = None -> indexOf c (trim s) = None.
Proof.
  intros H. unfold trim.
  by apply indexOf_rev, indexOf_trimStart, indexOf_rev, indexOf_trimStart.
Qed.

Lemma sliceTo_prefix n s : exists t, s = sliceTo n s +:+ t.
Proof.
  unfold sliceTo. revert n. induction s as [| c s IH]; intros n.
  - exists ""%string. by destruct n.
  - destruct n as [| n]; [exists (String c s); by rewrite append_empty |].
    destruct (IH n) as (t & Ht). exists t. cbn [String.substring].
    by rewrite append_cons, <- Ht.
Qed.

Lemma indexOf_sliceTo_other c n s :
  indexOf c s = None -> indexOf c (sliceTo n s) = None.
Proof.
  intros H. destruct (sliceTo_prefix n s) as (t & Ht). rewrite Ht in H.
  by apply indexOf_append in H as [H _].
Qed.

Lemma indexOf_sliceTo c s i :
  indexOf c s = Some i -> indexOf c (sliceTo i s) = None.
Proof.
  unfold sliceTo. revert i. induction s as [| d s IH]; intros i; [discriminate |].
  cbn [indexOf]. destruct (Ascii.eqb d c) eqn:E.
  - intros [= <-]. reflexivity.
  - destruct (indexOf c s) as [j |]; [| discriminate]. intros [= <-].
    cbn [String.substring indexOf]. by rewrite E, (IH j eq_refl).
Qed.

End TextFacts.

Section ReferenceFacts.
Import JSString EntryImages.

Lemma stripLeadingQuote_suffix s : exists k, s = k +:+ stripLeadingQuote s.
Proof.
  destruct s as [| c s]; [by exists ""%string |]. cbn [stripLeadingQuote].
  destruct (isQuote c).
  - exists (String c ""). by rewrite append_cons, append_empty.
  - exists ""%string. by rewrite append_empty.
Qed.

Lemma indexOf_stripQuotes c s :
  indexOf c s = None -> indexOf c (stripQuotes s) = None.
Proof.
  assert (Hs : forall t, indexOf c t = None ->
                         indexOf c (stripLeadingQuote t) = None).
  { intros t H. destruct (stripLeadingQuote_suffix t) as (k & Hk).
    rewrite Hk in H. by apply indexOf_append in H as [_ H]. }
  intros H. unfold stripQuotes. by apply indexOf_rev, Hs, indexOf_rev, Hs.
Qed.

Lemma truthy_true s : truthy s = true <-> s <> EmptyString.
Proof. destruct s; cbn; split; try done. Qed.

(** What [sanitizeReference] returns is never empty, has no white space
    at either end and holds neither a pipe nor a hash sign. *)
Lemma sanitizeReference_clean reference v :
  sanitizeReference reference = Some v ->
  v <> EmptyString /\ trim v = v
  /\ indexOf "|" v = None /\ indexOf "#" v = None.
Proof.
  unfold sanitizeReference.
  destruct (truthy (trim reference)); [| discriminate]. cbn [negb].
  set (v1 := match wikilinkMatch _ with Some g => g | None => _ end).
  set (v2 := match mdImageMatch v1 with Some g => g | None => _ end).
  set (v3 := match indexOf "|" v2 with Some i => _ | None => _ end).
  set (v4 := match indexOf "#" v3 with Some i => _ | None => _ end).
  assert (H3 : indexOf "|" v3 = None).
  { subst v3. destruct (indexOf "|" v2) as [i |] eqn:E;
      [by apply indexOf_sliceTo | exact E]. }
  assert (H4 : indexOf "|" v4 = None /\ indexOf "#" v4 = None).
  { subst v4. destruct (indexOf "#" v3) as [i |] eqn:E.
    - split; [by apply indexOf_sliceTo_other | by apply indexOf_sliceTo].
    - by split. }
  destruct (truthy (trim (stripQuotes v4))) eqn:Et; [| discriminate].
  intros [= <-]. split; [by apply truthy_true |].
  split; [apply trim_fixed |].
  destruct H4 as [H4 H5].
  split; apply indexOf_trim, indexOf_stripQuotes; assumption.
Qed.

(** A reference made of white space only is no reference; a reference
    that is accepted comes back non-empty, without white space at either
    end, and cut before its first pipe and its first hash sign: it holds
    neither. *)
Theorem sanitized_reference_is_clean reference :
  (trim reference = EmptyString -> sanitizeReference reference = None)
  /\ (forall v,
        sanitizeReference reference = Some v ->
        v <> EmptyString /\ trim v = v
        /\ indexOf "|" v = None /\ indexOf "#" v = None).
Proof.
  split.
  - intros H. unfold sanitizeReference. by rewrite H.
  - intros v. apply sanitizeReference_clean.
Qed.

Lemma beforeSuffix_append p x : beforeSuffix p (x +:+ p) = Some x.
Proof.
  induction x as [| c x IH].
  - rewrite append_empty. destruct p; cbn [beforeSuffix];
      by rewrite String.eqb_refl.
  - rewrite append_cons. cbn [beforeSuffix].
    destruct (String.eqb_spec (String c (x +:+ p)) p) as [E | _].
    + apply (f_equal String.length) in E. cbn [String.length] in E.
      rewrite length_append in E. lia.
    + by rewrite IH.
Qed.

Lemma beforeSuffix_Some p s g : beforeSuffix p s = Some g -> s = g +:+ p.
Proof.
  revert g. induction s as [| c s IH]; intros g; cbn [beforeSuffix].
  - destruct (String.eqb_spec "" p) as [<- | _]; [| discriminate].
    by intros [= <-].
  - destruct (String.eqb_spec (String c s) p) as [<- | _].
    + intros [= <-]. by rewrite append_empty.
    + destruct (beforeSuffix p s) as [g' |]; [| discriminate].
      intros [= <-]. by rewrite append_cons, <- (IH g' eq_refl).
Qed.

Lemma lazyGroup_append p x :
  x <> EmptyString -> noLineTerminator x = true ->
  lazyGroup p (x +:+ p) = Some x.
Proof.
  intros Hx Hl. unfold lazyGroup.
  by rewrite beforeSuffix_append, Hl, (proj2 (truthy_true x) Hx).
Qed.

(** A string with another last character does not end with the suffix. *)
Lemma lazyGroup_other_end p a b s :
  a <> b -> lazyGroup (p +:+ String a "") (s +:+ String b "") = None.
Proof.
  intros Hab. unfold lazyGroup.
  destruct (beforeSuffix _ _) as [g |] eqn:E; [| reflexivity].
  apply beforeSuffix_Some in E. apply (f_equal String.rev) in E.
  rewrite !rev_append in E.
  change (String.rev (String b "")) with (String b "") in E.
  change (String.rev (String a "")) with (String a "") in E.
  rewrite !append_cons in E. congruence.
Qed.

Lemma trim_bracketed a b m :
  isTrimmed a = false -> isTrimmed b = false ->
  trim (String a (m +:+ String b "")) = String a (m +:+ String b "").
Proof.
  intros Ha Hb. apply trim_id.
  - cbn [trimStart]. by rewrite Ha.
  - rewrite rev_cons, rev_append.
    change (String.rev (String b "")) with (String b "").
    rewrite !append_cons, append_empty. cbn [trimStart]. by rewrite Hb.
Qed.

Lemma indexOf_at c x t :
  indexOf c x = None ->
  indexOf c (x +:+ String c t) = Some (String.length x)
  /\ sliceTo (String.length x) (x +:+ String c t) = x.
Proof.
  unfold sliceTo. induction x as [| d x IH]; intros H.
  - rewrite append_empty. cbn. by rewrite Ascii.eqb_refl.
  - rewrite append_cons. cbn [indexOf String.length String.substring] in *.
    destruct (Ascii.eqb d c); [discriminate |].
    apply fmap_None in H. destruct (IH H) as [-> ->]. done.
Qed.

Lemma afterFirst_at c x t :
  indexOf c x = None -> afterFirst c (x +:+ String c t) = Some t.
Proof.
  induction x as [| d x IH]; intros H.
  - rewrite append_empty. cbn. by rewrite Ascii.eqb_refl.
  - rewrite append_cons. cbn [indexOf afterFirst] in *.
    destruct (Ascii.eqb d c); [discriminate |].
    apply fmap_None in H. by apply IH.
Qed.

End ReferenceFacts.

Section UnwrapFacts.
Import JSString EntryImages.

Lemma indexOf_past c x d t i :
  indexOf c x = None -> Ascii.eqb d c = false ->
  indexOf c (x +:+ String d t) = Some i ->
  exists t', sliceTo i (x +:+ String d t) = x +:+ String d t'.
Proof.
  unfold sliceTo. intros Hx Hd. revert i.
  induction x as [| e x IH]; intros i.
  - rewrite append_empty. cbn [indexOf]. rewrite Hd.
    destruct (indexOf c t) as [j |]; [| discriminate]. intros [= <-].
    exists (String.substring 0 j t). by rewrite append_empty.
  - rewrite append_cons. cbn [indexOf] in *.
    destruct (Ascii.eqb e c); [discriminate |]. apply fmap_None in Hx.
    destruct (indexOf c (x +:+ String d t)) as [j |]; [| discriminate].
    intros [= <-]. destruct (IH Hx j eq_refl) as (t' & Ht').
    exists t'. cbn [String.substring]. by rewrite Ht', append_cons.
Qed.

(** The cuts at the pipe and at the hash sign, the quotes and the final
    trim, on a target followed by nothing, by a pipe or by a hash sign. *)
Lemma cut_tail x t :
  trim x = x -> stripQuotes x = x ->
  indexOf "|" x = None -> indexOf "#" x = None ->
  t = EmptyString \/ (exists t', t = String "|" t' \/ t = String "#" t') ->
  trim (stripQuotes
          (let v2 := x +:+ t in
           let v3 := match indexOf "|" v2 with
                     | Some pipeIndex => sliceTo pipeIndex v2
                     | None => v2
                     end in
           match indexOf "#" v3 with
           | Some hashIndex => sliceTo hashIndex v3
           | None => v3
           end)) = x.
Proof.
  intros Ht Hq Hp Hh Hcase. cbv zeta.
  assert (Hdone : forall v3,
            v3 = x \/ (exists t', v3 = x +:+ String "#" t') ->
            trim (stripQuotes
                    match indexOf "#" v3 with
                    | Some hashIndex => sliceTo hashIndex v3
                    | None => v3
                    end) = x).
  { intros v3 [-> | (t' & ->)].
    - by rewrite Hh, Hq, Ht.
    - destruct (indexOf_at "#" x t' Hh) as [-> ->]. by rewrite Hq, Ht. }
  destruct Hcase as [-> | (t' & [-> | ->])].
  - rewrite append_nil_r, Hp. apply Hdone. by left.
  - destruct (indexOf_at "|" x t' Hp) as [-> ->]. apply Hdone. by left.
  - apply Hdone. right.
    destruct (indexOf "|" (x +:+ String "#" t')) as [i |] eqn:E.
    + by apply (indexOf_past "|" x "#" t' i Hp).
    + by exists t'.
Qed.

Lemma mdImageMatch_other s :
  startsWith s "!" = false -> mdImageMatch s = None.
Proof.
  unfold startsWith. destruct s as [| c s]; [done |]. cbn [String.prefix].
  destruct (ascii_dec "!" c) as [<- | Hne]; [by destruct s |].
  intros _. unfold mdImageMatch.
  destruct c as [[] [] [] [] [] [] [] []]; try reflexivity. by destruct Hne.
Qed.

Lemma wikilinkMatch_other s :
  startsWith s "!" = false -> startsWith s "[" = false ->
  wikilinkMatch s = None.
Proof.
  unfold startsWith. destruct s as [| c s]; [done |]. cbn [String.prefix].
  destruct (ascii_dec "!" c) as [<- | Hne1]; [by destruct s |].
  destruct (ascii_dec "[" c) as [<- | Hne2]; [by destruct s |].
  intros _ _. unfold wikilinkMatch.
  destruct c as [[] [] [] [] [] [] [] []]; try reflexivity;
    by (destruct Hne1 || destruct Hne2).
Qed.

Lemma startsWith_append x t c :
  x <> EmptyString -> startsWith x (String c "") = false ->
  startsWith (x +:+ t) (String c "") = false.
Proof.
  unfold startsWith. destruct x as [| d x]; [done |]. intros _.
  rewrite append_cons. cbn [String.prefix].
  destruct (ascii_dec c d); [| done]. intros H. by destruct x.
Qed.

(** The steps of [sanitizeReference] after the first trim. *)
Lemma sanitizeReference_steps reference v0 v1 v2 x :
  trim reference = v0 -> v0 <> EmptyString ->
  match wikilinkMatch v0 with Some group => group | None => v0 end = v1 ->
  match mdImageMatch v1 with Some group => group | None => v1 end = v2 ->
  x <> EmptyString ->
  trim (stripQuotes
          (let v3 := match indexOf "|" v2 with
                     | Some pipeIndex => sliceTo pipeIndex v2
                     | None => v2
                     end in
           match indexOf "#" v3 with
           | Some hashIndex => sliceTo hashIndex v3
           | None => v3
           end)) = x ->
  sanitizeReference reference = Some x.
Proof.
  intros H0 Hne H1 H2 Hx H3. unfold sanitizeReference.
  rewrite H0, (proj2 (truthy_true v0) Hne). cbn [negb].
  rewrite H1, H2. cbv zeta in H3. rewrite H3.
  by rewrite (proj2 (truthy_true x) Hx).
Qed.

End UnwrapFacts.

Section UnwrapClaims.
Import JSString EntryImages.

Lemma noLineTerminator_append a b :
  noLineTerminator (a +:+ b) = noLineTerminator a && noLineTerminator b.
Proof.
  induction a as [| c a IH]; [by rewrite append_empty |].
  rewrite append_cons. cbn [noLineTerminator]. rewrite IH.
  by rewrite andb_assoc.
Qed.

Lemma wikilinkMatch_wrapped bang y :
  y <> EmptyString -> noLineTerminator y = true ->
  wikilinkMatch ((if bang : bool then "![[" else "[[") +:+ y +:+ "]]") = Some y.
Proof.
  intros Hy Hl. destruct bang; rewrite !append_cons, append_empty;
    cbn [wikilinkMatch]; by apply lazyGroup_append.
Qed.

Lemma wikilinkMatch_image alt tail :
  wikilinkMatch ("![" +:+ alt +:+ tail +:+ ")") = None.
Proof.
  rewrite !append_cons, append_empty. cbn [wikilinkMatch].
  destruct alt as [| c alt].
  - rewrite append_empty.
    destruct tail as [| d tail]; [by rewrite append_empty |].
    rewrite append_cons.
    destruct (ascii_dec d "[") as [-> | Hne];
      [apply (lazyGroup_other_end "]" "]" ")"); discriminate |].
    destruct d as [[] [] [] [] [] [] [] []]; try reflexivity. by destruct Hne.
  - rewrite append_cons.
    destruct (ascii_dec c "[") as [-> | Hne].
    + rewrite <- append_assoc.
      apply (lazyGroup_other_end "]" "]" ")"). discriminate.
    + destruct c as [[] [] [] [] [] [] [] []]; try reflexivity. by destruct Hne.
Qed.

(** A reference to a target that is itself clean (not empty, without white
    space or quotes at its ends, without pipe, hash sign or line break, and
    not beginning with an exclamation mark or a bracket) is reduced to that
    target, whether it is written bare, as a wiki link or an embed with or
    without an alias or a heading, as a Markdown image with an alternative
    text free of closing brackets, or between single quotes. *)
Theorem links_unwrap_to_their_target x :
  x <> EmptyString ->
  trim x = x ->
  stripQuotes x = x ->
  indexOf "|" x = None ->
  indexOf "#" x = None ->
  noLineTerminator x = true ->
  startsWith x "!" = false ->
  startsWith x "[" = false ->
  sanitizeReference x = Some x
  /\ (forall t,
        t = EmptyString \/ (exists t', t = String "|" t' \/ t = String "#" t') ->
        noLineTerminator t = true ->
        sanitizeReference ("[[" +:+ (x +:+ t) +:+ "]]") = Some x
        /\ sanitizeReference ("![[" +:+ (x +:+ t) +:+ "]]") = Some x)
  /\ (forall alt,
        indexOf "]" alt = None ->
        sanitizeReference ("![" +:+ alt +:+ "](" +:+ x +:+ ")") = Some x)
  /\ sanitizeReference ("'" +:+ x +:+ "'") = Some x.
Proof.
  intros Hx Ht Hq Hp Hh Hl Hb Hk.
  assert (Hbare : forall t,
            t = EmptyString \/ (exists t', t = String "|" t' \/ t = String "#" t') ->
            match mdImageMatch (x +:+ t) with
            | Some group => group
            | None => x +:+ t
            end = x +:+ t).
  { intros t _. by rewrite mdImageMatch_other by by apply startsWith_append. }
  assert (Hcons : forall c s, String c s <> EmptyString) by done.
  split; [| split; [| split]].
  - apply (sanitizeReference_steps x x x (x +:+ "")).
    + exact Ht.
    + exact Hx.
    + by rewrite wikilinkMatch_other.
    + rewrite append_nil_r. by rewrite mdImageMatch_other.
    + exact Hx.
    + apply cut_tail; auto.
  - intros t Hcase Hlt.
    assert (Hy : x +:+ t <> EmptyString)
      by (destruct x; [done | by rewrite append_cons]).
    assert (Hly : noLineTerminator (x +:+ t) = true)
      by (by rewrite noLineTerminator_append, Hl, Hlt).
    split.
    + apply (sanitizeReference_steps _ ("[[" +:+ (x +:+ t) +:+ "]]")
               (x +:+ t) (x +:+ t)).
      * replace ("[[" +:+ (x +:+ t) +:+ "]]")
          with (String "[" (("[" +:+ (x +:+ t) +:+ "]") +:+ String "]" ""))
          by (by rewrite !append_cons, !append_empty, !append_assoc).
        by apply trim_bracketed.
      * rewrite append_cons. apply Hcons.
      * by rewrite (wikilinkMatch_wrapped false).
      * by apply Hbare.
      * exact Hx.
      * by apply cut_tail.
    + apply (sanitizeReference_steps _ ("![[" +:+ (x +:+ t) +:+ "]]")
               (x +:+ t) (x +:+ t)).
      * replace ("![[" +:+ (x +:+ t) +:+ "]]")
          with (String "!" (("[[" +:+ (x +:+ t) +:+ "]") +:+ String "]" ""))
          by (by rewrite !append_cons, !append_empty, !append_assoc).
        by apply trim_bracketed.
      * rewrite append_cons. apply Hcons.
      * by rewrite (wikilinkMatch_wrapped true).
      * by apply Hbare.
      * exact Hx.
      * by apply cut_tail.
  - intros alt Halt.
    apply (sanitizeReference_steps _ ("![" +:+ alt +:+ "](" +:+ x +:+ ")")
             ("![" +:+ alt +:+ "](" +:+ x +:+ ")") (x +:+ "")).
    + replace ("![" +:+ alt +:+ "](" +:+ x +:+ ")")
        with (String "!" (("[" +:+ alt +:+ "](" +:+ x) +:+ String ")" ""))
        by (by rewrite !append_cons, !append_empty, !append_assoc).
      by apply trim_bracketed.
    + rewrite append_cons. apply Hcons.
    + replace ("![" +:+ alt +:+ "](" +:+ x +:+ ")")
        with ("![" +:+ alt +:+ ("](" +:+ x) +:+ ")")
        by (by rewrite !append_assoc).
      by rewrite wikilinkMatch_image.
    + rewrite !append_cons, !append_empty. cbn [mdImageMatch].
      rewrite (afterFirst_at "]" alt _ Halt).
      by rewrite lazyGroup_append, append_nil_r.
    + exact Hx.
    + apply cut_tail; auto.
  - apply (sanitizeReference_steps _ ("'" +:+ x +:+ "'") ("'" +:+ x +:+ "'")
             ("'" +:+ x +:+ "'")).
    + rewrite !append_cons, !append_empty.
      by apply (trim_bracketed "'" "'" x).
    + rewrite append_cons. apply Hcons.
    + rewrite !append_cons, !append_empty. reflexivity.
    + rewrite !append_cons, !append_empty. reflexivity.
    + exact Hx.
    + assert (Hi : forall c, Ascii.eqb "'" c = false -> indexOf c x = None ->
                             indexOf c ("'" +:+ x +:+ "'") = None).
      { intros c Hc Hn. rewrite !append_cons, !append_empty. cbn [indexOf].
        rewrite Hc. apply fmap_None, indexOf_append. split; [exact Hn |].
        cbn [indexOf]. by rewrite Hc. }
      cbv zeta. rewrite (Hi "|"%char eq_refl Hp), (Hi "#"%char eq_refl Hh).
      replace (stripQuotes ("'" +:+ x +:+ "'")) with x; [exact Ht |].
      unfold stripQuotes. rewrite !append_cons, !append_empty.
      cbn [stripLeadingQuote]. change (isQuote "'") with true. cbv iota.
      rewrite rev_append. change (String.rev "'") with "'"%string.
      rewrite append_cons, append_empty. cbn [stripLeadingQuote].
      change (isQuote "'") with true. cbv iota. by rewrite rev_involutive.
Qed.

Lemma links_unwrap_sample :
  sanitizeReference "Attachments/photo.png" = Some "Attachments/photo.png"%string
  /\ sanitizeReference "![[Attachments/photo.png|200]]"
     = Some "Attachments/photo.png"%string
  /\ sanitizeReference "![a view](Attachments/photo.png)"
     = Some "Attachments/photo.png"%string.
Proof.
  destruct (links_unwrap_to_their_target "Attachments/photo.png")
    as (H1 & H2 & H3 & _); try (vm_compute; reflexivity); [discriminate |].
  split; [exact H1 |]. split.
  - apply (H2 "|200"%string); [right; exists "200"%string; by left | reflexivity].
  - apply (H3 "a view"%string). reflexivity.
Defined.

End UnwrapClaims.

Section ImageFacts.
Import Obsidian EntryImages.

Lemma stringReferenceToImage_sound app entry reference info :
  stringReferenceToImage app entry reference = Some info ->
  source info = None
  /\ (isUrlImage info
      \/ exists file, isFileImage app file info /\ isImageFile file = true).
Proof.
  unfold stringReferenceToImage.
  destruct (sanitizeReference reference) as [sanitized |] eqn:Es;
    [| discriminate].
  destruct (sanitizeReference_clean _ _ Es) as (_ & Ht & Hp & Hh).
  destruct (isExternalImageUrl sanitized) eqn:Eu.
  - intros [= <-]. split; [reflexivity |]. left. by repeat split.
  - destruct (resolveFileFromPath app entry sanitized) as [file |];
      [| discriminate].
    destruct (isImageFile file) eqn:Ei; [| discriminate].
    intros [= <-]. split; [reflexivity |]. right. by exists file.
Qed.

Lemma valueToImageInfo_sound app entry : forall value info,
  valueToImageInfo app entry value = Some info ->
  source info = None
  /\ (isUrlImage info \/ exists file, isFileImage app file info).
Proof.
  assert (Hs : forall reference info,
            stringReferenceToImage app entry reference = Some info ->
            source info = None
            /\ (isUrlImage info \/ exists file, isFileImage app file info)).
  { intros reference info H.
    destruct (stringReferenceToImage_sound _ _ _ _ H) as (H1 & [H2 | (f & H2 & _)]).
    - split; [exact H1 | by left].
    - split; [exact H1 | right; by exists f]. }
  fix IH 1. intros value info. destruct value as [items b s | d b s | file pf lf uf sf b s].
  - cbn [valueToImageInfo].
    induction items as [| nested rest IHl]; [discriminate |].
    destruct (valueToImageInfo app entry nested) as [nestedImage |] eqn:En.
    + intros [= <-]. exact (IH nested nestedImage En).
    + exact IHl.
  - cbn [valueToImageInfo getFileFromValue getReferenceFromValue].
    destruct (negb _); [discriminate | apply Hs].
  - cbn [valueToImageInfo getFileFromValue].
    destruct file as [f |].
    + intros [= <-]. split; [reflexivity |]. right. by exists f.
    + destruct (getReferenceFromValue _) as [r |]; [apply Hs |].
      destruct (negb _); [discriminate | apply Hs].
Qed.

Lemma eachCandidate_sound app entry candidates info :
  eachCandidate app entry candidates = Some info ->
  source info = None
  /\ (isUrlImage info
      \/ exists file, isFileImage app file info /\ isImageFile file = true).
Proof.
  induction candidates as [| candidate rest IH]; [discriminate |].
  cbn [eachCandidate].
  destruct (normalizeFrontmatterCandidate candidate) as [normalized |];
    [| exact IH].
  destruct (negb _); [exact IH |].
  destruct (stringReferenceToImage app entry normalized) as [image |] eqn:E;
    [| exact IH].
  intros [= <-]. by apply stringReferenceToImage_sound in E.
Qed.

Lemma eachKey_sound app entry fm keys info :
  eachKey app entry fm keys = Some info ->
  source info = None
  /\ (isUrlImage info
      \/ exists file, isFileImage app file info /\ isImageFile file = true).
Proof.
  induction keys as [| key rest IH]; [discriminate |]. cbn [eachKey].
  destruct (field key fm) as [rawValue |]; [| exact IH].
  destruct (negb _); [exact IH |].
  destruct (eachCandidate app entry _) as [image |] eqn:E; [| exact IH].
  intros [= <-]. by apply eachCandidate_sound in E.
Qed.

Lemma eachEmbed_sound app entry embeds info :
  eachEmbed app entry embeds = Some info ->
  source info = None
  /\ (isUrlImage info
      \/ exists file, isFileImage app file info /\ isImageFile file = true).
Proof.
  induction embeds as [| embed rest IH]; [discriminate |]. cbn [eachEmbed].
  destruct (embedCacheToImage app entry embed) as [image |] eqn:E;
    [| exact IH].
  intros [= <-]. unfold embedCacheToImage in E.
  destruct (negb _); [discriminate |]. destruct (negb _); [discriminate |].
  by apply stringReferenceToImage_sound in E.
Qed.

(** Whatever image [resolveEntryImage] returns, there is an application,
    the image is tagged with the source that gave it (the property, the
    front matter or an embed), and it is either a URL (http, https,
    protocol-relative or a data:image URL) kept as sanitised, without
    alternative text, or the resource of a file of the vault with the
    file's base name as alternative text; a file found through the front
    matter or an embed has an image extension, and only the configured
    property, which must hold a value, can give another file.  Front
    matter and embeds are read from the file cache of the entry. *)
Theorem entry_image_is_a_url_or_a_file gv app entry imageProperty info :
  resolveEntryImage gv app entry imageProperty = Some info ->
  exists a tag,
    app = Some a
    /\ source info = Some tag
    /\ tag ∈ ["property"; "frontmatter"; "embed"]%string
    /\ (isUrlImage info
        \/ exists file,
             isFileImage a file info
             /\ (isImageFile file = true \/ tag = "property"%string))
    /\ (tag = "property"%string ->
        exists prop value,
          imageProperty = Some prop /\ prop <> EmptyString
          /\ gv entry prop = Found value)
    /\ (tag <> "property"%string ->
        exists cache, getFileCache a entry = Some cache).
Proof.
  unfold resolveEntryImage. destruct app as [a |]; [| discriminate].
  assert (Htag : forall i tag,
            isUrlImage i -> isUrlImage (withSource i tag)) by done.
  assert (Hfile : forall i tag f,
            isFileImage a f i -> isFileImage a f (withSource i tag)) by done.
  set (viaProperty := match imageProperty with Some _ => _ | None => _ end).
  destruct viaProperty as [i |] eqn:Ev.
  - intros [= <-]. exists a, "property"%string.
    split; [reflexivity |]. split; [reflexivity |].
    split; [set_solver |].
    subst viaProperty.
    destruct imageProperty as [prop |]; [| discriminate].
    destruct (JSString.truthy prop) eqn:Et; [| discriminate].
    unfold tryGetValue in Ev.
    destruct (gv entry prop) as [| | value] eqn:Eg; try discriminate.
    destruct (valueToImageInfo_sound _ _ _ _ Ev) as (_ & [Hu | (f & Hf)]).
    + split; [left; by apply Htag |].
      split; [| done]. intros _. exists prop, value.
      split; [reflexivity |]. split; [by apply truthy_true | exact Eg].
    + split; [right; exists f; split; [by apply Hfile | by right] |].
      split; [| done]. intros _. exists prop, value.
      split; [reflexivity |]. split; [by apply truthy_true | exact Eg].
  - clear Ev viaProperty.
    destruct (getFileCache a entry) as [cache |] eqn:Ec; [| discriminate].
    destruct (resolveFromFrontmatter a entry (frontmatter cache)) as [i |] eqn:Ef.
    + intros [= <-]. exists a, "frontmatter"%string.
      split; [reflexivity |]. split; [reflexivity |].
      split; [set_solver |].
      unfold resolveFromFrontmatter in Ef.
      destruct (frontmatter cache) as [fm |]; [| discriminate].
      destruct (eachKey_sound _ _ _ _ _ Ef) as (_ & [Hu | (f & Hf & Hi)]).
      * split; [left; by apply Htag |]. split; [discriminate | intros _; by exists cache].
      * split; [right; exists f; split; [by apply Hfile | by left] |].
        split; [discriminate | intros _; by exists cache].
    + destruct (resolveFromEmbeds a entry cache) as [i |] eqn:Ee;
        [| discriminate].
      intros [= <-]. exists a, "embed"%string.
      split; [reflexivity |]. split; [reflexivity |].
      split; [set_solver |].
      unfold resolveFromEmbeds in Ee.
      destruct (embeds cache) as [[| embed rest] |]; try discriminate.
      destruct (eachEmbed_sound _ _ _ _ Ee) as (_ & [Hu | (f & Hf & Hi)]).
      * split; [left; by apply Htag |]. split; [discriminate | intros _; by exists cache].
      * split; [right; exists f; split; [by apply Hfile | by left] |].
        split; [discriminate | intros _; by exists cache].
Qed.

Lemma entry_image_sample :
  resolveEntryImage Samples.values (Some Samples.app) Samples.dayNote None
    = Some {| url := "app://local/Attachments/photo.png";
              alt := Some "photo"%string;
              source := Some "frontmatter"%string |}
  /\ exists a tag,
       Some Samples.app = Some a
       /\ Some "frontmatter"%string = Some tag
       /\ tag ∈ ["property"; "frontmatter"; "embed"]%string.
Proof.
  split; [vm_compute; reflexivity |].
  destruct (entry_image_is_a_url_or_a_file Samples.values (Some Samples.app)
              Samples.dayNote None
              {| url := "app://local/Attachments/photo.png";
                 alt := Some "photo"%string;
                 source := Some "frontmatter"%string |})
    as (a & tag & Ha & Hs & Ht & _).
  - vm_compute. reflexivity.
  - exists a, tag. by repeat split.
Defined.

End ImageFacts.

Section FilterFacts.
Import JSString Obsidian EntryImages.

Lemma prefix_refl (p : string) : String.prefix p p = true.
Proof.
  induction p as [| c p IH]; [reflexivity |]. cbn [String.prefix].
  by destruct (ascii_dec c c).
Qed.

Lemma includes_append a p : includes (a +:+ p) p = true.
Proof.
  induction a as [| c a IH].
  - rewrite append_empty. destruct p; cbn [includes];
      by rewrite prefix_refl.
  - rewrite append_cons. cbn [includes]. rewrite IH. apply orb_true_r.
Qed.

Lemma toLowerCase_append a b :
  toLowerCase (a +:+ b) = toLowerCase a +:+ toLowerCase b.
Proof.
  induction a as [| c a IH]; [by rewrite !append_empty |].
  rewrite append_cons. cbn [toLowerCase]. by rewrite IH, append_cons.
Qed.

Lemma eachEmbed_filtered app entry embeds :
  (forall embed, embed ∈ embeds -> looksLikeImageReference (link embed) = false) ->
  eachEmbed app entry embeds = None.
Proof.
  induction embeds as [| embed rest IH]; intros H; [reflexivity |].
  cbn [eachEmbed]. unfold embedCacheToImage.
  rewrite (H embed) by left. cbn [negb].
  destruct (negb _); apply IH; intros e He; apply H; by right.
Qed.

(** Embeds are first judged by the text of their link.  A note whose
    embeds all have a link that neither is a URL nor holds a dot followed
    by an image extension gets no image from its embeds, whatever files
    the links resolve to; and this test never turns away a link that ends
    with a dot and the extension of an image file, whatever the case of
    the letters. *)
Theorem embeds_are_judged_by_their_link_text :
  (forall app entry metadata,
     (forall l embed, embeds metadata = Some l -> embed ∈ l ->
        looksLikeImageReference (link embed) = false) ->
     resolveFromEmbeds app entry metadata = None)
  /\ (forall file name,
        isImageFile file = true ->
        looksLikeImageReference (name +:+ "." +:+ extension file) = true).
Proof.
  split.
  - intros app entry metadata H. unfold resolveFromEmbeds.
    destruct (embeds metadata) as [[| embed rest] |]; try reflexivity.
    apply eachEmbed_filtered. intros e He. by apply (H _ e eq_refl).
  - intros file name Hi. unfold looksLikeImageReference.
    apply orb_true_iff. right.
    unfold isImageFile in Hi. apply existsb_exists in Hi as (ext & Hin & He).
    apply String.eqb_eq in He. apply existsb_exists. exists ext.
    split; [exact Hin |].
    rewrite !toLowerCase_append, He.
    change (toLowerCase ".") with "."%string. apply includes_append.
Qed.

Lemma elem_of_validProperties gv properties entry p :
  p ∈ validProperties gv properties entry
  <-> p ∈ properties
      /\ exists v, gv entry p = Found v /\ hasNonEmptyValue v = true.
Proof.
  induction properties as [| prop rest IH]; cbn [validProperties].
  - split; [intros H; by apply elem_of_nil in H |].
    intros [H _]. by apply elem_of_nil in H.
  - unfold tryGetValue.
    destruct (gv entry prop) as [| | v] eqn:Eg.
    + rewrite IH, elem_of_cons. split; [intros [? ?]; by auto |].
      intros [[-> | H] (v & Hv & Hn)]; [congruence | eauto].
    + rewrite IH, elem_of_cons. split; [intros [? ?]; by auto |].
      intros [[-> | H] (v & Hv & Hn)]; [congruence | eauto].
    + destruct (hasNonEmptyValue v) eqn:Eh.
      * rewrite !elem_of_cons, IH. split.
        -- intros [-> | [? ?]]; [| by auto]. split; [by left | eauto].
        -- intros [[-> | H] Hv]; [by left | right; by auto].
      * rewrite IH, elem_of_cons. split; [intros [? ?]; by auto |].
        intros [[-> | H] (v' & Hv & Hn)]; [congruence | eauto].
Qed.

Lemma validProperties_sublist gv properties entry :
  validProperties gv properties entry `sublist_of` properties.
Proof.
  induction properties as [| prop rest IH]; cbn [validProperties];
    [constructor |].
  destruct (tryGetValue gv entry prop) as [v |];
    [destruct (hasNonEmptyValue v) |]; by constructor.
Qed.

(** The chips of a cell.  The properties shown for an entry are those of
    the configured properties, in the configured order, whose look-up
    returns a value that is truthy and whose text holds something other
    than white space; a property whose look-up throws or gives null is
    passed over without stopping the others. *)
Theorem chips_pass_over_blank_and_failing_properties gv properties entry :
  validProperties gv properties entry `sublist_of` properties
  /\ (forall p,
        p ∈ validProperties gv properties entry
        <-> p ∈ properties
            /\ exists v,
                 gv entry p = Found v
                 /\ isTruthy v = true
                 /\ trim (toString v) <> EmptyString)
  /\ (forall before p after,
        gv entry p = Throws \/ gv entry p = Null ->
        validProperties gv (before ++ p :: after) entry
        = validProperties gv (before ++ after) entry).
Proof.
  split; [apply validProperties_sublist |]. split.
  - intros p. rewrite elem_of_validProperties.
    assert (Hv : forall v,
              hasNonEmptyValue v = true
              <-> isTruthy v = true /\ trim (toString v) <> EmptyString).
    { intros v. unfold hasNonEmptyValue.
      destruct (isTruthy v); cbn [negb]; [| intuition discriminate].
      destruct (toString v) as [| c s] eqn:Es.
      - cbn. intuition (discriminate || auto).
      - cbn [truthy andb].
        destruct (trim (String c s)) as [| c' s']; cbn;
          intuition (discriminate || auto). }
    split.
    + intros [Hp (v & Hg & Hn)]. split; [exact Hp |].
      exists v. split; [exact Hg |]. by apply Hv.
    + intros [Hp (v & Hg & Ht & Hn)]. split; [exact Hp |].
      exists v. split; [exact Hg |]. by apply Hv.
  - intros before p after Hp.
    induction before as [| b before IH]; cbn [app validProperties].
    + unfold tryGetValue at 1. by destruct Hp as [-> | ->].
    + rewrite IH. reflexivity.
Qed.

End FilterFacts.
